(** * ProGear Hiking backend: the token-exchange core

    A shallow embedding of [app/auth/okta_auth.py], [app/auth/token_vault.py]
    and of the scope gate of [app/tools/inventory_tools.py].

    - Python values that travel through the code (what [response.json()]
      returns, dict literals, [None]) are the type [value].
    - [time.time()] is a float in the source; readings of the clock are
      idealised as rationals ([Q]) and so are the numbers of a JSON body.
      Where a float product is truncated to an integer, which exact
      arithmetic would not reproduce, the rounding is written out
      ([binary64]).
    - An [async def] is a computation in the monad [M]: it threads the
      process state (the two module-level singletons, the log of outbound
      requests) and either returns a value or raises an exception.  State
      written before an exception is raised stays written, as in Python.
    - The outside world is input: the successive readings of the clock, the
      successive [uuid4] draws and the answer to each outbound request are
      fields of [world] that the code only reads. *)

From Stdlib Require Import String Ascii List ZArith QArith Bool Lia.
Import ListNotations.

Local Open Scope string_scope.
Local Open Scope list_scope.

(* ================================================================== *)
(** ** Python values *)

Module Py.

#[warnings="-register-all"]
Inductive value : Type :=
| VNone
| VBool (b : bool)
| VNum (q : Q)
| VStr (s : string)
| VList (l : list value)
| VDict (d : list (string * value)).

(** [x < y] on numbers, as a boolean. *)
Definition Qltb (x y : Q) : bool := negb (Qle_bool y x).

(** [int(x)]: truncation towards zero. *)
Definition int (x : Q) : Z := Z.quot (Qnum x) (Z.pos (Qden x)).

(** The [float] nearest to a rational, ties to even: a significand of 53
    bits whose unit is [2^q], with [q] no less than the exponent of the
    subnormals.  This is the rounding a float product or difference
    undergoes before [int] truncates it.  Overflow to infinity, which takes
    a magnitude no reading of a clock in seconds has, is left out. *)
Definition binary64 (x : Q) : Q :=
  let n := Qnum x in
  let d := Z.pos (Qden x) in
  if (n =? 0)%Z then 0%Q
  else
    let a := Z.abs n in
    let e0 := (Z.log2 a - Z.log2 d)%Z in
    let above :=
      if (0 <=? e0)%Z then (d * 2 ^ e0 <=? a)%Z
      else (d <=? a * 2 ^ (- e0))%Z in
    let e := if above then e0 else (e0 - 1)%Z in
    let q := Z.max (e - 52) (-1074) in
    let num := if (q <? 0)%Z then (a * 2 ^ (- q))%Z else a in
    let den := if (q <? 0)%Z then d else (d * 2 ^ q)%Z in
    let m := (num / den)%Z in
    let r := (num mod den)%Z in
    let m :=
      if (den <? 2 * r)%Z || ((den =? 2 * r)%Z && Z.odd m)
      then (m + 1)%Z else m in
    let v :=
      if (q <? 0)%Z then Qmake m (Z.to_pos (2 ^ (- q)))
      else inject_Z (m * 2 ^ q) in
    if (n <? 0)%Z then Qopp v else v.

(** The double-quote character, as a string. *)
Definition quote : string := String (ascii_of_nat 34) EmptyString.

(** Truth value of a [str]. *)
Definition nonempty (s : string) : bool := negb (String.eqb s "").

(** Truth value of an object, as [if x], [not x], [x and y], [x or y]
    test it. *)
Definition truthy (v : value) : bool :=
  match v with
  | VNone => false
  | VBool b => b
  | VNum q => negb (Qeq_bool q 0)
  | VStr s => nonempty s
  | VList l => match l with [] => false | _ :: _ => true end
  | VDict d => match d with [] => false | _ :: _ => true end
  end.

(** Lookup in a dict; a dict holds each key once, the first binding is
    the one found. *)
Fixpoint lookup (k : string) (d : list (string * value)) : option value :=
  match d with
  | [] => None
  | (k', v) :: r => if String.eqb k k' then Some v else lookup k r
  end.

(** What [d.get(k)] returns on a dict. *)
Definition item (k : string) (d : list (string * value)) : value :=
  match lookup k d with
  | Some x => x
  | None => VNone
  end.

Definition is_number (v : value) : option Q :=
  match v with
  | VBool true => Some 1%Q
  | VBool false => Some 0%Q
  | VNum q => Some q
  | _ => None
  end.

(** [a == b].  Booleans are numbers ([True == 1]); lists compare
    element-wise; dicts compare as maps, whatever the insertion order. *)
Fixpoint eq (a b : value) {struct a} : bool :=
  match a, b with
  | VNone, VNone => true
  | VStr s, VStr t => String.eqb s t
  | VBool x, _ =>
      match is_number b with
      | Some q => Qeq_bool (if x then 1 else 0) q
      | None => false
      end
  | VNum x, _ =>
      match is_number b with
      | Some q => Qeq_bool x q
      | None => false
      end
  | VList l, VList m =>
      (fix all2 (l : list value) (m : list value) {struct l} : bool :=
         match l, m with
         | [], [] => true
         | x :: l', y :: m' => eq x y && all2 l' m'
         | _, _ => false
         end) l m
  | VDict d, VDict e =>
      Nat.eqb (length d) (length e) &&
      (fix sub (d : list (string * value)) {struct d} : bool :=
         match d with
         | [] => true
         | (k, x) :: d' =>
             match lookup k e with
             | Some y => eq x y && sub d'
             | None => false
             end
         end) d
  | _, _ => false
  end.

(** An f-string: literal text and interpolated objects [{v}]. *)
Inductive piece : Type :=
| Chars (s : string)
| Hole (v : value).

Definition fstring : Type := list piece.

(** *** Exceptions *)

Inductive exn : Type :=
| HTTPException (status_code : Z) (detail : fstring)
  (* fastapi *)
| ExpiredSignatureError (msg : string)
| InvalidTokenError (msg : string)
| PyJWTError (msg : string)
  (* jwt: ExpiredSignatureError < InvalidTokenError < PyJWTError; the
     second constructor stands for InvalidTokenError and its subclasses
     other than ExpiredSignatureError, the third for the rest of
     PyJWTError (InvalidKeyError, ...) *)
| JSONDecodeError
| AttributeError
| TypeError
| KeyError
| IndexError
| HTTPStatusError (status_code : Z)
| TransportError
  (* httpx *)
| ValidationError.
  (* pydantic *)

Definition result (A : Type) : Type := (exn + A)%type.

(** [v.get(k)] and [v.get(k, default)]: only a dict has the method. *)
Definition get_or (v : value) (k : string) (default : value) : result value :=
  match v with
  | VDict d =>
      match lookup k d with
      | Some x => inr x
      | None => inr default
      end
  | _ => inl AttributeError
  end.

Definition get (v : value) (k : string) : result value := get_or v k VNone.

(** [v[k]] for a string key. *)
Definition subscript (v : value) (k : string) : result value :=
  match v with
  | VDict d =>
      match lookup k d with
      | Some x => inr x
      | None => inl KeyError
      end
  | _ => inl TypeError
  end.

(** [v[0]]. *)
Definition first (v : value) : result value :=
  match v with
  | VList (x :: _) => inr x
  | VList [] => inl IndexError
  | VStr (String c _) => inr (VStr (String c ""))
  | VStr EmptyString => inl IndexError
  | VDict _ => inl KeyError
  | _ => inl TypeError
  end.

(** [len(v)]. *)
Definition len (v : value) : result nat :=
  match v with
  | VList l => inr (length l)
  | VDict d => inr (length d)
  | VStr s => inr (String.length s)
  | _ => inl TypeError
  end.

Fixpoint chars (s : string) : list value :=
  match s with
  | EmptyString => []
  | String c r => VStr (String c "") :: chars r
  end.

(** The items a [for x in v] visits. *)
Definition iter (v : value) : result (list value) :=
  match v with
  | VList l => inr l
  | VDict d => inr (map (fun kv => VStr (fst kv)) d)
  | VStr s => inr (chars s)
  | _ => inl TypeError
  end.

(** The right operand of [float + x]. *)
Definition number (v : value) : result Q :=
  match is_number v with
  | Some q => inr q
  | None => inl TypeError
  end.

End Py.

Import Py.

(* ================================================================== *)
(** ** [urllib.parse]

    A [str] is held as the bytes of its UTF-8 encoding, which is what
    [quote] works on. *)

Module Urllib.

(** The characters [quote] never escapes: letters, digits and [_.-~]. *)
Definition always_safe (c : ascii) : bool :=
  let n := nat_of_ascii c in
  ((65 <=? n) && (n <=? 90) || (97 <=? n) && (n <=? 122)
   || (48 <=? n) && (n <=? 57)
   || Ascii.eqb c "_" || Ascii.eqb c "." || Ascii.eqb c "-"
   || Ascii.eqb c "~")%nat.

Definition hex_digit (n : nat) : ascii :=
  match String.get n "0123456789ABCDEF" with
  | Some c => c
  | None => "F"%char
  end.

(** [%XX] *)
Definition percent (c : ascii) : string :=
  String "%" (String (hex_digit (nat_of_ascii c / 16)%nat)
                (String (hex_digit (nat_of_ascii c mod 16)%nat) EmptyString)).

(** [quote_plus(s)]: a space becomes [+], every other byte outside the safe
    set is percent-escaped. *)
Fixpoint quote_plus (s : string) : string :=
  match s with
  | EmptyString => EmptyString
  | String c r =>
      ((if always_safe c then String c EmptyString
        else if Ascii.eqb c " " then "+"
        else percent c) ++ quote_plus r)%string
  end.

(** [urlencode(params)] of a dict of [str]. *)
Definition urlencode (params : list (string * string)) : string :=
  String.concat "&"
    (map (fun kv : string * string =>
            (quote_plus (fst kv) ++ "=" ++ quote_plus (snd kv))%string)
         params).

(** The number of occurrences of [c] in [s]. *)
Fixpoint count (c : ascii) (s : string) : nat :=
  match s with
  | EmptyString => 0%nat
  | String c' r => ((if Ascii.eqb c c' then 1 else 0) + count c r)%nat
  end.

(** The characters [quote_plus] produces. *)
Definition escaped_char (c : ascii) : bool :=
  always_safe c || Ascii.eqb c "+" || Ascii.eqb c "%".

(** The characters a query string built by [urlencode] is made of. *)
Definition query_char (c : ascii) : bool :=
  always_safe c || Ascii.eqb c "+" || Ascii.eqb c "%" || Ascii.eqb c "="
  || Ascii.eqb c "&".

Fixpoint all (p : ascii -> bool) (s : string) : bool :=
  match s with
  | EmptyString => true
  | String c r => p c && all p r
  end.

End Urllib.

(* ================================================================== *)
(** ** Configuration ([app/core/config.py]) *)

Record Settings : Type := {
  okta_domain : string;
  okta_client_id : string;
  okta_issuer : string;
  wlp_client_id : string;
  wlp_private_key : string;
  auth0_domain : string;
  auth0_client_id : string;
  auth0_client_secret : string;
  salesforce_instance_url : string;
  salesforce_connection_name : string
}.

Definition okta_issuer_url (settings : Settings) : string :=
  if nonempty (okta_issuer settings)
  then okta_issuer settings
  else "https://" ++ okta_domain settings.

Definition okta_jwks_uri (settings : Settings) : string :=
  okta_issuer_url settings ++ "/oauth2/v1/keys".

(* ================================================================== *)
(** ** Process state and the outside world *)

(** The fields [OktaAuth.__init__] and [TokenVault.__init__] create. *)
Record OktaAuth : Type := {
  _jwks_cache : value;
  _jwks_cache_time : Q;
  _cache_ttl : Q
}.

Record TokenVault : Type := {
  _management_token : value;
  _token_expiry : Q
}.

Definition OktaAuth__init__ : OktaAuth :=
  {| _jwks_cache := VNone; _jwks_cache_time := 0; _cache_ttl := 3600 |}.

Definition TokenVault__init__ : TokenVault :=
  {| _management_token := VNone; _token_expiry := 0 |}.

(** An outbound request of an [httpx.AsyncClient]. *)
Inductive payload : Type :=
| Data (fields : list (string * value))    (* data=..., form encoded *)
| Json (fields : list (string * value))    (* json=... *)
| Params (fields : list (string * value))  (* params=..., query string *)
| Empty.

Record request : Type := {
  method : string;
  url : string;
  body : payload;
  headers : list (string * fstring)
}.

(** What comes back: a response (its status and, when the body parses as
    JSON, the parsed body), or no response at all. *)
Record Response : Type := {
  status_code : Z;
  content : option value
}.

Inductive reply : Type :=
| Answer (r : Response)
| NoAnswer.

Record world : Type := {
  clock : nat -> Q;          (* the successive values of time.time() *)
  clock_reads : nat;
  uuid4 : nat -> string;     (* the successive values of str(uuid.uuid4()) *)
  uuid4_draws : nat;
  upstream : nat -> reply;   (* the answer to the n-th outbound request *)
  sent : list request;       (* outbound requests, latest first *)
  okta_auth : OktaAuth;      (* the singletons of the two modules *)
  token_vault : TokenVault
}.

Definition with_okta_auth (o : OktaAuth) (w : world) : world :=
  {| clock := clock w; clock_reads := clock_reads w;
     uuid4 := uuid4 w; uuid4_draws := uuid4_draws w;
     upstream := upstream w; sent := sent w;
     okta_auth := o; token_vault := token_vault w |}.

Definition with_token_vault (t : TokenVault) (w : world) : world :=
  {| clock := clock w; clock_reads := clock_reads w;
     uuid4 := uuid4 w; uuid4_draws := uuid4_draws w;
     upstream := upstream w; sent := sent w;
     okta_auth := okta_auth w; token_vault := t |}.

(** The number of outbound calls made so far. *)
Definition calls (w : world) : nat := length (sent w).

(* ================================================================== *)
(** ** The monad of the async functions *)

Definition M (A : Type) : Type := world -> result A * world.

Definition ret {A : Type} (a : A) : M A := fun w => (inr a, w).

Definition raise {A : Type} (e : exn) : M A := fun w => (inl e, w).

Definition bind {A B : Type} (m : M A) (k : A -> M B) : M B :=
  fun w =>
    match m w with
    | (inr a, w') => k a w'
    | (inl e, w') => (inl e, w')
    end.

(** An operation on values that may raise. *)
Definition lift {A : Type} (r : result A) : M A := fun w => (r, w).

(** [try: body except ...: handler]; a handler that does not match the
    exception lets it through. *)
Definition try_except {A : Type} (body : M A) (handler : exn -> option (M A))
  : M A :=
  fun w =>
    match body w with
    | (inr a, w') => (inr a, w')
    | (inl e, w') =>
        match handler e with
        | Some h => h w'
        | None => (inl e, w')
        end
    end.

Declare Scope py_scope.
Delimit Scope py_scope with py.
Notation "x <- m ;; k" := (bind m (fun x => k))
  (at level 61, m at next level, right associativity) : py_scope.
Notation "m ;;; k" := (bind m (fun _ => k))
  (at level 61, right associativity) : py_scope.
Local Open Scope py_scope.

(** [n] calls of [m], one after the other. *)
Fixpoint times {A : Type} (n : nat) (m : M A) : M (list A) :=
  match n with
  | O => ret []
  | S n' => a <- m ;; l <- times n' m ;; ret (a :: l)
  end.

(** [time.time()] *)
Definition time_time : M Q :=
  fun w =>
    (inr (clock w (clock_reads w)),
     {| clock := clock w; clock_reads := S (clock_reads w);
        uuid4 := uuid4 w; uuid4_draws := uuid4_draws w;
        upstream := upstream w; sent := sent w;
        okta_auth := okta_auth w; token_vault := token_vault w |}).

(** [str(uuid.uuid4())] *)
Definition str_uuid4 : M string :=
  fun w =>
    (inr (uuid4 w (uuid4_draws w)),
     {| clock := clock w; clock_reads := clock_reads w;
        uuid4 := uuid4 w; uuid4_draws := S (uuid4_draws w);
        upstream := upstream w; sent := sent w;
        okta_auth := okta_auth w; token_vault := token_vault w |}).

(** [await client.get(...)], [await client.post(...)]: the request goes
    out, and either a response comes back or the transport fails. *)
Definition send (rq : request) : M Response :=
  fun w =>
    let w' :=
      {| clock := clock w; clock_reads := clock_reads w;
         uuid4 := uuid4 w; uuid4_draws := uuid4_draws w;
         upstream := upstream w; sent := rq :: sent w;
         okta_auth := okta_auth w; token_vault := token_vault w |} in
    match upstream w (calls w) with
    | Answer r => (inr r, w')
    | NoAnswer => (inl TransportError, w')
    end.

(** [response.json()] *)
Definition json (response : Response) : M value :=
  match content response with
  | Some v => ret v
  | None => raise JSONDecodeError
  end.

(** [response.raise_for_status()]: httpx raises unless the status is 2xx. *)
Definition raise_for_status (response : Response) : M unit :=
  if (200 <=? status_code response)%Z && (status_code response <=? 299)%Z
  then ret tt
  else raise (HTTPStatusError (status_code response)).

Definition self_okta : M OktaAuth := fun w => (inr (okta_auth w), w).
Definition self_vault : M TokenVault := fun w => (inr (token_vault w), w).

Definition set_jwks_cache (v : value) : M unit :=
  fun w =>
    (inr tt,
     with_okta_auth
       {| _jwks_cache := v;
          _jwks_cache_time := _jwks_cache_time (okta_auth w);
          _cache_ttl := _cache_ttl (okta_auth w) |} w).

Definition set_jwks_cache_time (t : Q) : M unit :=
  fun w =>
    (inr tt,
     with_okta_auth
       {| _jwks_cache := _jwks_cache (okta_auth w);
          _jwks_cache_time := t;
          _cache_ttl := _cache_ttl (okta_auth w) |} w).

Definition set_management_token (v : value) : M unit :=
  fun w =>
    (inr tt,
     with_token_vault
       {| _management_token := v;
          _token_expiry := _token_expiry (token_vault w) |} w).

Definition set_token_expiry (t : Q) : M unit :=
  fun w =>
    (inr tt,
     with_token_vault
       {| _management_token := _management_token (token_vault w);
          _token_expiry := t |} w).

(* ================================================================== *)
(** ** [app/auth/okta_auth.py] *)

(** [UserInfo] of [app/models/schemas.py], before pydantic validates it. *)
Record UserInfo : Type := {
  sub : value;
  email : value;
  name : value;
  given_name : value;
  family_name : value;
  groups : value
}.

(** The libraries the module calls into.  [rsa] is the key object of
    [jwt.algorithms]; [from_jwk v] is [RSAAlgorithm.from_jwk(json.dumps(v))];
    [jwt_decode token key algorithms audience issuer] is [jwt.decode], which
    reads the clock for the expiry check; [pydantic] is the validation a
    [BaseModel] runs when it is built. *)
Record Libraries : Type := {
  rsa : Type;
  get_unverified_header : string -> result value;
  from_jwk : value -> result rsa;
  jwt_decode : string -> rsa -> list string -> string -> string -> M value;
  json_loads : string -> result value;
  jwt_encode : value -> rsa -> string -> result string;
  pydantic : UserInfo -> result UserInfo
}.

Section Auth.

Variable settings : Settings.

Variable lib : Libraries.

Definition get_jwks : M value :=
  current_time <- time_time ;;
  self <- self_okta ;;
  if truthy (_jwks_cache self)
     && Qltb (current_time - _jwks_cache_time self) (_cache_ttl self)
  then ret (_jwks_cache self)
  else
    response <- send {| method := "GET"; url := okta_jwks_uri settings;
                        body := Empty; headers := [] |} ;;
    raise_for_status response ;;;
    keys <- json response ;;
    set_jwks_cache keys ;;;
    set_jwks_cache_time current_time ;;;
    self <- self_okta ;;
    ret (_jwks_cache self).

(** The request [get_jwks] sends. *)
Definition jwks_request : request :=
  {| method := "GET"; url := okta_jwks_uri settings;
     body := Empty; headers := [] |}.

(** The loop of [validate_id_token]: the first key whose [kid] equals the
    header's, [None] when the loop ends without a [break]. *)
Fixpoint find_key (keys : list value) (kid : value) : result value :=
  match keys with
  | [] => inr VNone
  | key :: rest =>
      match get key "kid" with
      | inl e => inl e
      | inr k => if eq k kid then inr key else find_key rest kid
      end
  end.

(** A key of a key set whose identifier is not [kid]. *)
Definition other_key (kid : value) (key : value) : Prop :=
  exists k, key = VDict k /\ eq (item "kid" k) kid = false.

Definition validate_id_token (token : string) : M UserInfo :=
  try_except
    (jwks <- get_jwks ;;
     unverified_header <- lift (get_unverified_header lib token) ;;
     kid <- lift (get unverified_header "kid") ;;
     keys <- lift (get_or jwks "keys" (VList [])) ;;
     keys <- lift (iter keys) ;;
     rsa_key <- lift (find_key keys kid) ;;
     if negb (truthy rsa_key)
     then raise (HTTPException 401 [Chars "Invalid token: key not found"])
     else
       public_key <- lift (from_jwk lib rsa_key) ;;
       payload <- jwt_decode lib token public_key ["RS256"]
                    (okta_client_id settings) (okta_issuer_url settings) ;;
       sub <- lift (get payload "sub") ;;
       email <- lift (get_or payload "email" (VStr "")) ;;
       name <- lift (get payload "name") ;;
       given_name <- lift (get payload "given_name") ;;
       family_name <- lift (get payload "family_name") ;;
       groups <- lift (get_or payload "groups" (VList [])) ;;
       lift (pydantic lib {| sub := sub; email := email; name := name;
                             given_name := given_name;
                             family_name := family_name; groups := groups |}))
    (fun e =>
       match e with
       | ExpiredSignatureError _ =>
           Some (raise (HTTPException 401 [Chars "Token has expired"]))
       | InvalidTokenError msg =>
           Some (raise (HTTPException 401 [Chars ("Invalid token: " ++ msg)]))
       | _ => None
       end).

(** The token endpoint of the org authorization server and of a custom
    one. *)
Definition org_token_endpoint : string :=
  "https://" ++ okta_domain settings ++ "/oauth2/v1/token".

Definition custom_token_endpoint (auth_server_id : string) : string :=
  "https://" ++ okta_domain settings ++ "/oauth2/" ++ auth_server_id
  ++ "/v1/token".

(** The claim set [generate_wlp_assertion] signs. *)
Definition wlp_payload (aud : string) (now : Z) (jti : string) : value :=
  VDict [ ("iss", VStr (wlp_client_id settings));
          ("sub", VStr (wlp_client_id settings));
          ("aud", VStr aud);
          ("iat", VNum (inject_Z now));
          ("exp", VNum (inject_Z (now + 300)));
          ("jti", VStr jti) ].

(** [audience or f"https://{settings.okta_domain}/oauth2/v1/token"] *)
Definition audience_or_default (audience : option string) : string :=
  match audience with
  | Some a => if nonempty a then a else org_token_endpoint
  | None => org_token_endpoint
  end.

Definition generate_wlp_assertion (audience : option string) : M string :=
  if negb (nonempty (wlp_private_key settings))
  then raise (HTTPException 500 [Chars "WLP private key not configured"])
  else
    now <- time_time ;;
    let now := int now in
    let aud := audience_or_default audience in
    jti <- str_uuid4 ;;
    let payload := wlp_payload aud now jti in
    private_key_jwk <- lift (json_loads lib (wlp_private_key settings)) ;;
    private_key <- lift (from_jwk lib private_key_jwk) ;;
    lift (jwt_encode lib payload private_key "RS256").

(** The last three lines of [generate_wlp_assertion], as a function of the
    claim set: the configured key is parsed, loaded and signs. *)
Definition rs256 (payload : value) : result string :=
  match json_loads lib (wlp_private_key settings) with
  | inl e => inl e
  | inr private_key_jwk =>
      match from_jwk lib private_key_jwk with
      | inl e => inl e
      | inr private_key => jwt_encode lib payload private_key "RS256"
      end
  end.

(** The claim set a call of [generate_wlp_assertion] made in world [w]
    builds: the next reading of the clock and the next [uuid4] draw. *)
Definition claims_in (w : world) (audience : option string) : value :=
  wlp_payload (audience_or_default audience)
              (int (clock w (clock_reads w)))
              (uuid4 w (uuid4_draws w)).

Definition form_headers : list (string * fstring) :=
  [("Content-Type", [Chars "application/x-www-form-urlencoded"])].

Definition exchange_for_id_jag (id_token : string) : M value :=
  client_assertion <- generate_wlp_assertion None ;;
  response <-
    send {| method := "POST"; url := org_token_endpoint;
            body := Data
              [ ("grant_type",
                 VStr "urn:ietf:params:oauth:grant-type:jwt-bearer");
                ("assertion", VStr id_token);
                ("client_id", VStr (okta_client_id settings));
                ("client_assertion_type",
                 VStr "urn:ietf:params:oauth:client-assertion-type:jwt-bearer");
                ("client_assertion", VStr client_assertion);
                ("scope", VStr "openid profile email") ];
            headers := form_headers |} ;;
  if negb (status_code response =? 200)%Z
  then
    error <- json response ;;
    code <- lift (get error "error") ;;
    description <- lift (get_or error "error_description" code) ;;
    raise (HTTPException 401
             [Chars "ID-JAG exchange failed: "; Hole description])
  else
    data <- json response ;;
    lift (get data "id_token").

Definition exchange_id_jag_for_token
  (id_jag : value) (auth_server_id : string) (scopes : list string) : M value :=
  client_assertion <-
    generate_wlp_assertion (Some (custom_token_endpoint auth_server_id)) ;;
  response <-
    send {| method := "POST"; url := custom_token_endpoint auth_server_id;
            body := Data
              [ ("grant_type",
                 VStr "urn:ietf:params:oauth:grant-type:token-exchange");
                ("subject_token", id_jag);
                ("subject_token_type",
                 VStr "urn:ietf:params:oauth:token-type:id_token");
                ("client_id", VStr (okta_client_id settings));
                ("client_assertion_type",
                 VStr "urn:ietf:params:oauth:client-assertion-type:jwt-bearer");
                ("client_assertion", VStr client_assertion);
                ("scope", VStr (String.concat " " scopes)) ];
            headers := form_headers |} ;;
  if negb (status_code response =? 200)%Z
  then
    error <- json response ;;
    code <- lift (get error "error") ;;
    description <- lift (get error "error_description") ;;
    ret (VDict [ ("success", VBool false);
                 ("error", code);
                 ("error_description", description) ])
  else
    data <- json response ;;
    access_token <- lift (get data "access_token") ;;
    token_type <- lift (get_or data "token_type" (VStr "Bearer")) ;;
    expires_in <- lift (get data "expires_in") ;;
    scope <- lift (get data "scope") ;;
    ret (VDict [ ("success", VBool true);
                 ("access_token", access_token);
                 ("token_type", token_type);
                 ("expires_in", expires_in);
                 ("scope", scope) ]).

(* ------------------------------------------------------------------ *)
(** ** [app/auth/token_vault.py] *)

Definition get_management_token : M value :=
  self <- self_vault ;;
  hit <- (if truthy (_management_token self)
          then now <- time_time ;; ret (Qltb now (_token_expiry self))
          else ret false) ;;
  if hit
  then ret (_management_token self)
  else
    response <-
      send {| method := "POST";
              url := "https://" ++ auth0_domain settings ++ "/oauth/token";
              body := Json
                [ ("grant_type", VStr "client_credentials");
                  ("client_id", VStr (auth0_client_id settings));
                  ("client_secret", VStr (auth0_client_secret settings));
                  ("audience",
                   VStr ("https://" ++ auth0_domain settings ++ "/api/v2/")) ];
              headers := [] |} ;;
    if negb (status_code response =? 200)%Z
    then raise (HTTPException 500
                  [Chars "Failed to get Auth0 management token"])
    else
      data <- json response ;;
      access_token <- lift (subscript data "access_token") ;;
      set_management_token access_token ;;;
      now <- time_time ;;
      expires_in <- lift (get_or data "expires_in" (VNum 86400)) ;;
      expires_in <- lift (number expires_in) ;;
      set_token_expiry (now + expires_in - 60) ;;;
      self <- self_vault ;;
      ret (_management_token self).

Definition exchange_okta_token_for_vault (id_jag : value) : M value :=
  response <-
    send {| method := "POST";
            url := "https://" ++ auth0_domain settings ++ "/oauth/token";
            body := Data
              [ ("grant_type",
                 VStr "urn:ietf:params:oauth:grant-type:token-exchange");
                ("subject_token", id_jag);
                ("subject_token_type",
                 VStr "urn:ietf:params:oauth:token-type:id_token");
                ("client_id", VStr (auth0_client_id settings));
                ("client_secret", VStr (auth0_client_secret settings));
                ("audience",
                 VStr ("https://" ++ auth0_domain settings ++ "/api/v2/"));
                ("scope", VStr "read:users read:user_idp_tokens") ];
            headers := form_headers |} ;;
  if negb (status_code response =? 200)%Z
  then
    error <- json response ;;
    code <- lift (get error "error") ;;
    description <- lift (get error "error_description") ;;
    ret (VDict [ ("success", VBool false);
                 ("error", code);
                 ("error_description", description) ])
  else
    data <- json response ;;
    access_token <- lift (get data "access_token") ;;
    token_type <- lift (get_or data "token_type" (VStr "Bearer")) ;;
    expires_in <- lift (get data "expires_in") ;;
    ret (VDict [ ("success", VBool true);
                 ("access_token", access_token);
                 ("token_type", token_type);
                 ("expires_in", expires_in) ]).

(** The loop of [get_salesforce_token]: the first linked identity whose
    provider is the configured connection. *)
Fixpoint find_identity (identities : list value) : result value :=
  match identities with
  | [] => inr VNone
  | identity :: rest =>
      match get identity "provider" with
      | inl e => inl e
      | inr p =>
          if eq p (VStr (salesforce_connection_name settings))
          then inr identity
          else find_identity rest
      end
  end.

(** The three denials and the grant of [get_salesforce_token]. *)
Definition denial (error description : string) : value :=
  VDict [ ("success", VBool false);
          ("error", VStr error);
          ("error_description", VStr description) ].

Definition user_not_found : value :=
  denial "user_not_found" "Could not find user in Auth0".

Definition salesforce_not_connected : value :=
  denial "salesforce_not_connected"
         "User has not connected their Salesforce account".

Definition no_token : value :=
  denial "no_token" "No Salesforce token available".

(** [vault_token or await self.get_management_token()] *)
Definition vault_token_or_management (vault_token : option string) : M value :=
  match vault_token with
  | Some t => if nonempty t then ret (VStr t) else get_management_token
  | None => get_management_token
  end.


Definition get_salesforce_token
  (auth0_user_id : string) (vault_token : option string) : M value :=
  token <- vault_token_or_management vault_token ;;
  response <-
    send {| method := "GET";
            url := "https://" ++ auth0_domain settings ++ "/api/v2/users/"
                   ++ auth0_user_id;
            body := Params [ ("fields", VStr "identities");
                             ("include_fields", VStr "true") ];
            headers := [("Authorization", [Chars "Bearer "; Hole token])] |} ;;
  if negb (status_code response =? 200)%Z
  then ret user_not_found
  else
    user_data <- json response ;;
    identities <- lift (get_or user_data "identities" (VList [])) ;;
    identities <- lift (iter identities) ;;
    salesforce_identity <- lift (find_identity identities) ;;
    if negb (truthy salesforce_identity)
    then ret salesforce_not_connected
    else
      access_token <- lift (get salesforce_identity "access_token") ;;
      refresh_token <- lift (get salesforce_identity "refresh_token") ;;
      if negb (truthy access_token)
      then ret no_token
      else
        ret (VDict [ ("success", VBool true);
                     ("access_token", access_token);
                     ("refresh_token", refresh_token);
                     ("instance_url",
                      VStr (salesforce_instance_url settings)) ]).

Definition get_user_id_from_okta_sub (okta_sub : string) : M value :=
  token <- get_management_token ;;
  response <-
    send {| method := "GET";
            url := "https://" ++ auth0_domain settings ++ "/api/v2/users";
            body := Params
              [ ("q", VStr ("identities.user_id:" ++ quote ++ okta_sub
                            ++ quote));
                ("search_engine", VStr "v3") ];
            headers := [("Authorization", [Chars "Bearer "; Hole token])] |} ;;
  if negb (status_code response =? 200)%Z
  then ret VNone
  else
    users <- json response ;;
    nonzero <- (if truthy users
                then n <- lift (len users) ;; ret (0 <? n)%nat
                else ret false) ;;
    if nonzero
    then
      user <- lift (first users) ;;
      lift (get user "user_id")
    else ret VNone.

(** The requests of the two exchanges of [okta_auth.py], as functions of
    the client assertion they carry. *)
Definition id_jag_request (id_token client_assertion : string) : request :=
  {| method := "POST"; url := org_token_endpoint;
     body := Data
       [ ("grant_type", VStr "urn:ietf:params:oauth:grant-type:jwt-bearer");
         ("assertion", VStr id_token);
         ("client_id", VStr (okta_client_id settings));
         ("client_assertion_type",
          VStr "urn:ietf:params:oauth:client-assertion-type:jwt-bearer");
         ("client_assertion", VStr client_assertion);
         ("scope", VStr "openid profile email") ];
     headers := form_headers |}.

Definition scoped_token_request
  (id_jag : value) (auth_server_id : string) (scopes : list string)
  (client_assertion : string) : request :=
  {| method := "POST"; url := custom_token_endpoint auth_server_id;
     body := Data
       [ ("grant_type",
          VStr "urn:ietf:params:oauth:grant-type:token-exchange");
         ("subject_token", id_jag);
         ("subject_token_type",
          VStr "urn:ietf:params:oauth:token-type:id_token");
         ("client_id", VStr (okta_client_id settings));
         ("client_assertion_type",
          VStr "urn:ietf:params:oauth:client-assertion-type:jwt-bearer");
         ("client_assertion", VStr client_assertion);
         ("scope", VStr (String.concat " " scopes)) ];
     headers := form_headers |}.

(** The requests of [token_vault.py]. *)
Definition management_token_request : request :=
  {| method := "POST";
     url := "https://" ++ auth0_domain settings ++ "/oauth/token";
     body := Json
       [ ("grant_type", VStr "client_credentials");
         ("client_id", VStr (auth0_client_id settings));
         ("client_secret", VStr (auth0_client_secret settings));
         ("audience",
          VStr ("https://" ++ auth0_domain settings ++ "/api/v2/")) ];
     headers := [] |}.

Definition vault_exchange_request (id_jag : value) : request :=
  {| method := "POST";
     url := "https://" ++ auth0_domain settings ++ "/oauth/token";
     body := Data
       [ ("grant_type",
          VStr "urn:ietf:params:oauth:grant-type:token-exchange");
         ("subject_token", id_jag);
         ("subject_token_type",
          VStr "urn:ietf:params:oauth:token-type:id_token");
         ("client_id", VStr (auth0_client_id settings));
         ("client_secret", VStr (auth0_client_secret settings));
         ("audience",
          VStr ("https://" ++ auth0_domain settings ++ "/api/v2/"));
         ("scope", VStr "read:users read:user_idp_tokens") ];
     headers := form_headers |}.

Definition user_request (auth0_user_id : string) (token : value) : request :=
  {| method := "GET";
     url := "https://" ++ auth0_domain settings ++ "/api/v2/users/"
            ++ auth0_user_id;
     body := Params [ ("fields", VStr "identities");
                      ("include_fields", VStr "true") ];
     headers := [("Authorization", [Chars "Bearer "; Hole token])] |}.

Definition user_search_request (okta_sub : string) (token : value) : request :=
  {| method := "GET";
     url := "https://" ++ auth0_domain settings ++ "/api/v2/users";
     body := Params
       [ ("q", VStr ("identities.user_id:" ++ quote ++ okta_sub ++ quote));
         ("search_engine", VStr "v3") ];
     headers := [("Authorization", [Chars "Bearer "; Hole token])] |}.

Definition check_salesforce_connection (auth0_user_id : string) : M value :=
  result <- get_salesforce_token auth0_user_id None ;;
  lift (get_or result "success" (VBool false)).

(** The parameters [get_connection_auth_url] encodes; [state] is added
    when it is given and not empty. *)
Definition auth_url_params
  (connection redirect_uri : string) (state : option string)
  : list (string * string) :=
  [ ("client_id", auth0_client_id settings);
    ("response_type", "code");
    ("connection", connection);
    ("redirect_uri", redirect_uri);
    ("scope", "openid profile email offline_access") ]
  ++ match state with
     | Some s => if nonempty s then [("state", s)] else []
     | None => []
     end.

(** The function awaits nothing: it is its return value. *)
Definition get_connection_auth_url
  (connection redirect_uri : string) (state : option string) : string :=
  let query :=
    Urllib.urlencode (auth_url_params connection redirect_uri state) in
  ("https://" ++ auth0_domain settings ++ "/authorize?" ++ query)%string.

End Auth.

(* ================================================================== *)
(** ** [get_user_access] of [app/routers/user.py] *)

Record SalesforceAccess : Type := {
  connected : bool;
  salesforce_scopes : list string;   (* the field [scopes] *)
  instance_url : option string
}.

Record InventoryAccess : Type := {
  authorized : bool;
  scopes : list string
}.

Record UserAccess : Type := {
  salesforce : SalesforceAccess;
  inventory : InventoryAccess
}.

(** The two settings of the inventory authorization server. *)
Record InventoryServer : Type := {
  inventory_auth_server_id : string;
  inventory_scopes : list string
}.

(** [s.split(" ")] *)
Fixpoint split_space (s : string) : list string :=
  match s with
  | EmptyString => [EmptyString]
  | String c r =>
      if Ascii.eqb c " " then EmptyString :: split_space r
      else match split_space r with
           | h :: t => String c h :: t
           | [] => [String c EmptyString]
           end
  end.

(** [v.split(" ")]: only a [str] has the method. *)
Definition split (v : value) : result (list string) :=
  match v with
  | VStr s => inr (split_space s)
  | _ => inl AttributeError
  end.

Section Routers.

Variable settings : Settings.
Variable server : InventoryServer.
Variable lib : Libraries.

(** [str(x)] of an object that is not a [str], as an f-string formats
    it. *)
Variable str : value -> string.

Definition format (v : value) : string :=
  match v with
  | VStr s => s
  | _ => str v
  end.

Definition not_connected : SalesforceAccess :=
  {| connected := false; salesforce_scopes := []; instance_url := None |}.

Definition not_authorized : InventoryAccess :=
  {| authorized := false; scopes := [] |}.

(** The first [try] block: the user is validated, so [user.sub] is a
    [str]. *)
Definition salesforce_access (sub : string) : M SalesforceAccess :=
  try_except
    (auth0_user_id <- get_user_id_from_okta_sub settings sub ;;
     if truthy auth0_user_id
     then
       is_connected <-
         check_salesforce_connection settings (format auth0_user_id) ;;
       if truthy is_connected
       then ret {| connected := true;
                   salesforce_scopes :=
                     ["sales:read"; "sales:write"; "customer:read";
                      "customer:lookup"];
                   instance_url := Some (salesforce_instance_url settings) |}
       else ret not_connected
     else ret not_connected)
    (fun _ => Some (ret not_connected)).

(** The second block; [user.groups] is a list of [str]. *)
Definition inventory_access (groups : list string) (id_token : string)
  : M InventoryAccess :=
  if nonempty (inventory_auth_server_id server)
  then
    try_except
      (id_jag <- exchange_for_id_jag settings lib id_token ;;
       result <- exchange_id_jag_for_token settings lib id_jag
                   (inventory_auth_server_id server)
                   (inventory_scopes server) ;;
       success <- lift (get result "success") ;;
       if truthy success
       then
         scope <- lift (get_or result "scope" (VStr "")) ;;
         scopes <- lift (split scope) ;;
         ret {| authorized := true; scopes := scopes |}
       else ret not_authorized)
      (fun _ => Some (ret not_authorized))
  else
    if existsb (fun g => existsb (String.eqb g) groups)
         ["ProGear-Sales"; "ProGear-Warehouse"; "Admins"]
    then ret {| authorized := true;
                scopes := ["inventory:read"; "inventory:write";
                           "inventory:alert"] |}
    else ret not_authorized.

Definition get_user_access
  (sub : string) (groups : list string) (id_token : string) : M UserAccess :=
  salesforce_access <- salesforce_access sub ;;
  inventory_access <- inventory_access groups id_token ;;
  ret {| salesforce := salesforce_access; inventory := inventory_access |}.

End Routers.

(* ================================================================== *)
(** ** The scope gate of [app/tools/inventory_tools.py] *)

Module Inventory.

Inductive ToolCallStatus : Type := PENDING | RUNNING | COMPLETED | ERROR.

(** The text of [ToolCall.error]: an f-string, or [str(e)] of the
    exception the tool body raised. *)
Inductive message : Type :=
| Text (f : fstring)
| Str (e : exn).

(** The fields of [ToolCall] that [_execute_tool] fills. *)
Record ToolCall : Type := {
  tc_id : fstring;
  tc_name : string;
  tc_status : ToolCallStatus;
  tc_arguments : list (string * value);
  tc_result : value;
  tc_duration : Z;
  tc_error : option message
}.

(** The instance; the demo catalogue and alert list it also copies play no
    part in the gate. *)
Record InventoryTools : Type := {
  user_scopes : list string
}.

Definition all_scopes : list string :=
  ["inventory:read"; "inventory:write"; "inventory:alert"].

(** [__init__(user_scopes=None)]: [user_scopes or [...]]. *)
Definition InventoryTools__init__ (user_scopes : option (list string))
  : InventoryTools :=
  {| user_scopes :=
       match user_scopes with
       | Some (s :: l) => s :: l
       | Some [] => all_scopes
       | None => all_scopes
       end |}.

(** [required_scope in self.user_scopes] *)
Definition _has_scope (self : InventoryTools) (required_scope : string) : bool :=
  existsb (String.eqb required_scope) (user_scopes self).

Definition access_denied (required_scope : string) : message :=
  Text [Chars "Access denied: requires scope '"; Chars required_scope;
        Chars "'"].

(** [int(t * 1000)] for a float [t]: the product is rounded to a float
    before it is truncated. *)
Definition milliseconds (t : Q) : Z := int (binary64 (t * 1000)).

(** [int((now - start_time) * 1000)]: the difference of the two floats is
    rounded as well. *)
Definition elapsed (now start_time : Q) : Z :=
  milliseconds (binary64 (now - start_time)).

(** [func] stands for the awaited call of the argument [func] with the
    keywords [kwargs] (a coroutine function in every call of the source; see
    [call] below for the closures of the tool methods); [kwargs] are also
    the arguments the call is reported with. *)
Definition _execute_tool
  (self : InventoryTools) (tool_name : string) (func : M value)
  (required_scope : option string) (kwargs : list (string * value))
  : M ToolCall :=
  now <- time_time ;;
  let tool_id :=
    [Chars "inv-"; Chars tool_name; Chars "-";
     Hole (VNum (inject_Z (milliseconds now)))] in
  start_time <- time_time ;;
  let denied :=
    match required_scope with
    | Some s => nonempty s && negb (_has_scope self s)
    | None => false
    end in
  if denied
  then
    ret {| tc_id := tool_id;
           tc_name := "inventory." ++ tool_name;
           tc_status := ERROR;
           tc_arguments := kwargs;
           tc_result := VNone;
           tc_duration := 0;
           tc_error :=
             match required_scope with
             | Some s => Some (access_denied s)
             | None => None
             end |}
  else
    try_except
      (result <- func ;;
       now <- time_time ;;
       ret {| tc_id := tool_id;
              tc_name := "inventory." ++ tool_name;
              tc_status := COMPLETED;
              tc_arguments := kwargs;
              tc_result := result;
              tc_duration := elapsed now start_time;
              tc_error := None |})
      (fun e =>
         Some (now <- time_time ;;
               ret {| tc_id := tool_id;
                      tc_name := "inventory." ++ tool_name;
                      tc_status := ERROR;
                      tc_arguments := kwargs;
                      tc_result := VNone;
                      tc_duration := elapsed now start_time;
                      tc_error := Some (Str e) |})).

(** The tools of the class, the coroutine methods that end in
    [_execute_tool], and the scope each passes to it.  The coroutine
    [get_alerts] is not one of them: the class body binds the name a second
    time, to the synchronous [get_alerts] of its last section, and that is
    the method an instance has. *)
Inductive tool : Type :=
| check_stock | get_product_details | search_products
| update_stock | bulk_stock_update | set_reorder_point
| create_alert | dismiss_alert
| get_stock_summary | get_low_stock_report | get_category_breakdown.

Definition tool_name (t : tool) : string :=
  match t with
  | check_stock => "check_stock"
  | get_product_details => "get_product_details"
  | search_products => "search_products"
  | update_stock => "update_stock"
  | bulk_stock_update => "bulk_stock_update"
  | set_reorder_point => "set_reorder_point"
  | create_alert => "create_alert"
  | dismiss_alert => "dismiss_alert"
  | get_stock_summary => "get_stock_summary"
  | get_low_stock_report => "get_low_stock_report"
  | get_category_breakdown => "get_category_breakdown"
  end.

Definition required_scope (t : tool) : string :=
  match t with
  | check_stock | get_product_details | search_products
  | get_stock_summary | get_low_stock_report | get_category_breakdown =>
      "inventory:read"
  | update_stock | bulk_stock_update | set_reorder_point =>
      "inventory:write"
  | create_alert | dismiss_alert =>
      "inventory:alert"
  end.

(** A tool method: its body [_execute] run through the gate. *)
Definition invoke
  (self : InventoryTools) (t : tool) (_execute : M value)
  (kwargs : list (string * value)) : M ToolCall :=
  _execute_tool self (tool_name t) _execute (Some (required_scope t)) kwargs.

(** The call of [func] with the keywords [kwargs], for one of the
    closures [_execute] of the tool methods.  Each is declared [async def _execute():], without a
    parameter, so Python binds no keyword to it: with a keyword the call
    raises [TypeError] before any line of the closure runs, and only a call
    without keywords gives the coroutine that runs it. *)
Definition call (_execute : M value) (kwargs : list (string * value))
  : M value :=
  match kwargs with
  | [] => _execute
  | _ :: _ => raise TypeError
  end.

(** The keywords a tool method passes to [_execute_tool] after the scope:
    its own parameters, whatever their values, [None] included. *)
Definition keywords (t : tool) : list string :=
  match t with
  | check_stock => ["sku"; "category"; "status"]
  | get_product_details => ["sku"]
  | search_products => ["query"; "limit"]
  | update_stock => ["sku"; "quantity_change"; "reason"]
  | bulk_stock_update => ["updates"]
  | set_reorder_point => ["sku"; "reorder_point"]
  | create_alert => ["sku"; "alert_type"; "threshold"]
  | dismiss_alert => ["alert_id"]
  | get_stock_summary | get_low_stock_report | get_category_breakdown => []
  end.

(** A tool method as the class has it: it defines the closure [_execute]
    and returns [await self._execute_tool(name, _execute, required_scope=...,
    <keyword>=<argument>, ...)], which calls [func] with these keywords.
    [argument] gives the value of each parameter of the method. *)
Definition tool_method
  (self : InventoryTools) (t : tool) (_execute : M value)
  (argument : string -> value) : M ToolCall :=
  let kwargs := map (fun k => (k, argument k)) (keywords t) in
  invoke self t (call _execute kwargs) kwargs.

(** Whether a tool call was stopped by the gate. *)
Definition denied_by_gate (c : ToolCall) : bool :=
  match tc_status c, tc_error c with
  | ERROR, Some (Text (Chars "Access denied: requires scope '" :: _)) => true
  | _, _ => false
  end.

End Inventory.

(* ================================================================== *)
(** ** The catalogue of [app/tools/inventory_tools.py]

    [DEMO_PRODUCTS] is a module-level dict of [Product] objects and
    [InventoryTools.__init__] takes a shallow copy of it, so every instance
    holds the same objects; the synchronous methods assign to their fields
    (the bodies of the tool methods are never reached, see
    [Inventory.call]).  The objects live in a store, by address, and a dict
    maps a SKU to an address.
    Quantities are [int] in the schema; as nothing validates an assignment
    they are numbers here, like the other numbers of the development. *)

Module Stock.

Inductive ProductCategory : Type :=
| FOOTWEAR | APPAREL | EQUIPMENT | ACCESSORIES | CAMPING.

Inductive StockStatus : Type :=
| IN_STOCK | LOW_STOCK | OUT_OF_STOCK | DISCONTINUED.

(** [status.value] *)
Definition value_of (s : StockStatus) : string :=
  match s with
  | IN_STOCK => "in_stock"
  | LOW_STOCK => "low_stock"
  | OUT_OF_STOCK => "out_of_stock"
  | DISCONTINUED => "discontinued"
  end.

(** A [datetime], as seconds since the epoch. *)
Definition datetime : Type := Q.

Record Product : Type := {
  id : string;
  sku : string;
  name : string;
  description : option string;
  category : ProductCategory;
  price : Q;
  cost : option Q;
  quantity : Q;
  reorder_point : Q;
  status : StockStatus;
  location : option string;
  last_updated : datetime
}.

(** [InventoryAlert]; its fields [id] and [sku] are [alert_id] and
    [alert_sku] here. *)
Record InventoryAlert : Type := {
  alert_id : string;
  product_id : string;
  product_name : string;
  alert_sku : string;
  alert_type : string;
  current_quantity : Q;
  threshold : Q;
  created_at : datetime
}.

(** The objects, and what the process reads from outside: the successive
    values of [datetime.utcnow()]. *)
Record store : Type := {
  objects : nat -> Product;
  utcnow : nat -> datetime;
  utcnow_reads : nat
}.

(** [datetime.utcnow()] *)
Definition datetime_utcnow (s : store) : datetime * store :=
  (utcnow s (utcnow_reads s),
   {| objects := objects s; utcnow := utcnow s;
      utcnow_reads := S (utcnow_reads s) |}).

(** Assignment to the fields of the object at address [a]. *)
Definition write (a : nat) (p : Product) (s : store) : store :=
  {| objects := fun b => if Nat.eqb b a then p else objects s b;
     utcnow := utcnow s; utcnow_reads := utcnow_reads s |}.

(** The catalogue and alert fields of an [InventoryTools] instance. *)
Record Tools : Type := {
  _products : list (string * nat);
  _alerts : list InventoryAlert
}.

(** [self._products = DEMO_PRODUCTS.copy()] and
    [self._alerts = DEMO_ALERTS.copy()]: a new dict with the same objects, a
    new list with the same alerts. *)
Definition Tools__init__
  (DEMO_PRODUCTS : list (string * nat)) (DEMO_ALERTS : list InventoryAlert)
  : Tools :=
  {| _products := DEMO_PRODUCTS; _alerts := DEMO_ALERTS |}.

(** [self._products.get(sku)], as an address. *)
Fixpoint find (sku : string) (d : list (string * nat)) : option nat :=
  match d with
  | [] => None
  | (k, a) :: r => if String.eqb sku k then Some a else find sku r
  end.

(** [get_product] *)
Definition get_product (self : Tools) (sku : string) (s : store)
  : option Product :=
  match find sku (_products self) with
  | Some a => Some (objects s a)
  | None => None
  end.

(** [max(0, x)] *)
Definition max0 (x : Q) : Q := if Qltb 0 x then x else 0.

(** The status a stock update gives a product of quantity [q]. *)
Definition restocked_status (q reorder : Q) : StockStatus :=
  if Qeq_bool q 0 then OUT_OF_STOCK
  else if Qltb q reorder then LOW_STOCK
  else IN_STOCK.

(** The assignments a stock update makes to a product. *)
Definition restock (product : Product) (new_quantity : Q) (now : datetime)
  : Product :=
  {| id := id product; sku := sku product; name := name product;
     description := description product; category := category product;
     price := price product; cost := cost product;
     quantity := new_quantity;
     reorder_point := reorder_point product;
     status := restocked_status new_quantity (reorder_point product);
     location := location product;
     last_updated := now |}.

Definition optional (reason : option string) : value :=
  match reason with
  | Some r => VStr r
  | None => VNone
  end.

Definition not_found (sku : string) : value :=
  VDict [("error", VStr "Product not found"); ("sku", VStr sku)].

(** [update_stock_sync] *)
Definition update_stock_sync
  (self : Tools) (sku : string) (quantity_change : Z) (reason : option string)
  (s : store) : value * store :=
  match find sku (_products self) with
  | None => (not_found sku, s)
  | Some a =>
      let product := objects s a in
      let old_quantity := quantity product in
      let new_quantity :=
        max0 (quantity product + inject_Z quantity_change) in
      let (now, s) := datetime_utcnow s in
      let product := restock product new_quantity now in
      (VDict [ ("success", VBool true);
               ("sku", VStr sku);
               ("product_name", VStr (name product));
               ("old_quantity", VNum old_quantity);
               ("new_quantity", VNum new_quantity);
               ("change", VNum (inject_Z quantity_change));
               ("new_status", VStr (value_of (status product)));
               ("reason", optional reason) ],
       write a product s)
  end.

End Stock.

(* ================================================================== *)
(** ** Sample inputs *)

Module Sample.

(** The defaults of [config.py], with a workload key configured. *)
Definition settings : Settings :=
  {| okta_domain := "qa-aiagentsproducttc1.trexcloud.com";
     okta_client_id := "0oa8zcwqfrsi1Mi5Z0g7";
     okta_issuer := "";
     wlp_client_id := "wlp8zcxwhpsu387C20g7";
     wlp_private_key := "{jwk}";
     auth0_domain := "dev-4i2mhp2tnupmhbik.us.auth0.com";
     auth0_client_id := "";
     auth0_client_secret := "";
     salesforce_instance_url :=
       "https://orgfarm-3592c48138-dev-ed.develop.my.salesforce.com";
     salesforce_connection_name := "salesforce" |}.

(** The defaults themselves: no workload key. *)
Definition settings_no_key : Settings :=
  {| okta_domain := okta_domain settings;
     okta_client_id := okta_client_id settings;
     okta_issuer := okta_issuer settings;
     wlp_client_id := wlp_client_id settings;
     wlp_private_key := "";
     auth0_domain := auth0_domain settings;
     auth0_client_id := auth0_client_id settings;
     auth0_client_secret := auth0_client_secret settings;
     salesforce_instance_url := salesforce_instance_url settings;
     salesforce_connection_name := salesforce_connection_name settings |}.

(** A stand-in for the libraries: a token is its own key identifier, every
    key loads, signing returns the [jti] it was given, and no signature
    verifies. *)
Definition lib : Libraries :=
  {| rsa := value;
     get_unverified_header :=
       fun token => inr (VDict [("alg", VStr "RS256"); ("kid", VStr token)]);
     from_jwk := fun v => inr v;
     jwt_decode :=
       fun _ _ _ _ _ => raise (InvalidTokenError "Signature verification failed");
     json_loads := fun _ => inr (VDict [("kty", VStr "RSA")]);
     jwt_encode :=
       fun payload _ _ =>
         match get payload "jti" with
         | inr (VStr jti) => inr ("jwt:" ++ jti)%string
         | _ => inl TypeError
         end;
     pydantic := fun u => inr u |}.

(** [n] strokes: a stream of identifiers that never repeats. *)
Fixpoint strokes (n : nat) : string :=
  match n with
  | O => EmptyString
  | S n' => String "|" (strokes n')
  end.

(** A world: the clock stands still at 1000.25, the caches are empty and
    the n-th request gets the answer [answers n]. *)
Definition scripted (answers : nat -> reply) : world :=
  {| clock := fun _ => 100025 # 100;
     clock_reads := 0;
     uuid4 := strokes;
     uuid4_draws := 0;
     upstream := answers;
     sent := [];
     okta_auth := OktaAuth__init__;
     token_vault := TokenVault__init__ |}.

(** Every request gets the answer [r]. *)
Definition world_of (r : reply) : world := scripted (fun _ => r).

(** A gateway's answer: status 502 and a body that is not JSON. *)
Definition bad_gateway : reply :=
  Answer {| status_code := 502; content := None |}.

(** An OAuth error answer. *)
Definition access_denied : reply :=
  Answer {| status_code := 400;
            content := Some (VDict
              [ ("error", VStr "access_denied");
                ("error_description", VStr "Policy evaluation failed") ]) |}.

(** A 200 answer of a token endpoint with no [id_token] and no
    [token_type]. *)
Definition token_answer : reply :=
  Answer {| status_code := 200;
            content := Some (VDict
              [ ("access_token", VStr "at-1");
                ("expires_in", VNum 3600);
                ("scope", VStr "inventory:read") ]) |}.

(** A key set with one key, and a process that cached it at time 1000. *)
Definition jwks : value :=
  VDict [("keys", VList [VDict [ ("kty", VStr "RSA");
                                 ("kid", VStr "key-1");
                                 ("use", VStr "sig") ]])].

Definition cached (keys : value) (r : reply) : world :=
  with_okta_auth
    {| _jwks_cache := keys; _jwks_cache_time := 1000; _cache_ttl := 3600 |}
    (world_of r).

(** The key endpoint's answer with a fresh key set. *)
Definition jwks_answer : reply :=
  Answer {| status_code := 200;
            content := Some (VDict [("keys", VList [])]) |}.

(** The vault: the token endpoint grants [mgmt-1]; the user search finds
    nobody; the user record links a Google and a Salesforce identity. *)
Definition grant : reply :=
  Answer {| status_code := 200;
            content := Some (VDict [ ("access_token", VStr "mgmt-1");
                                     ("expires_in", VNum 86400) ]) |}.

Definition after_grant (r : reply) : world :=
  scripted (fun n => match n with O => grant | S _ => r end).

Definition users_answer : reply :=
  Answer {| status_code := 200; content := Some (VList []) |}.

Definition user_record : list (string * value) :=
  [("identities",
    VList [ VDict [ ("provider", VStr "google-oauth2");
                    ("access_token", VStr "ya29") ];
            VDict [ ("provider", VStr "salesforce");
                    ("user_id", VStr "005xx") ] ])].

Definition user_answer : reply :=
  Answer {| status_code := 200; content := Some (VDict user_record) |}.

(** A stricter stand-in for the library: a token is [kid.subject]; a token
    without a dot has no header; the subject [expired] is an expired token,
    and any other subject decodes to a claim set with that [sub]. *)
Fixpoint before_dot (s : string) : option string :=
  match s with
  | EmptyString => None
  | String c r =>
      if Ascii.eqb c "." then Some EmptyString
      else match before_dot r with
           | Some h => Some (String c h)
           | None => None
           end
  end.

Fixpoint after_dot (s : string) : string :=
  match s with
  | EmptyString => EmptyString
  | String c r => if Ascii.eqb c "." then r else after_dot r
  end.

Definition strict_lib : Libraries :=
  {| rsa := value;
     get_unverified_header :=
       fun token =>
         match before_dot token with
         | Some kid => inr (VDict [("alg", VStr "RS256"); ("kid", VStr kid)])
         | None => inl (InvalidTokenError "Not enough segments")
         end;
     from_jwk := fun v => inr v;
     jwt_decode :=
       fun token _ _ _ _ =>
         if String.eqb (after_dot token) "expired"
         then raise (ExpiredSignatureError "Signature has expired")
         else ret (VDict [("sub", VStr (after_dot token))]);
     json_loads := fun _ => inr (VDict [("kty", VStr "RSA")]);
     jwt_encode := fun _ _ _ => inr "jwt";
     pydantic := fun u => inr u |}.

(** A search answer with two records. *)
Definition users_found : reply :=
  Answer {| status_code := 200;
            content := Some (VList
              [ VDict [("user_id", VStr "auth0|42")];
                VDict [("user_id", VStr "auth0|43")] ]) |}.

(** A search answer whose one record is linked to another subject than
    [00u-user-42]. *)
Definition stranger : reply :=
  Answer {| status_code := 200;
            content := Some (VList
              [ VDict [ ("user_id", VStr "auth0|7");
                        ("identities",
                         VList [ VDict
                           [ ("provider", VStr "okta");
                             ("user_id", VStr "00u-someone-else") ] ]) ] ])
         |}.

(** A grant whose [expires_in] is text. *)
Definition grant_text : reply :=
  Answer {| status_code := 200;
            content := Some (VDict [ ("access_token", VStr "mgmt-1");
                                     ("expires_in", VStr "86400") ]) |}.

(** The key endpoint's answer with the key set [jwks]. *)
Definition jwks_answer1 : reply :=
  Answer {| status_code := 200; content := Some jwks |}.

(** A process whose cached key set is older than the TTL: fetched at time
    -3000, read at 1000.25. *)
Definition stale (r : reply) : world :=
  with_okta_auth
    {| _jwks_cache := jwks; _jwks_cache_time := -3000; _cache_ttl := 3600 |}
    (world_of r).

(** Three of the demo products and the two demo alerts. *)
Definition trail_runner : Stock.Product :=
  {| Stock.id := "prod-001"; Stock.sku := "TRP-001";
     Stock.name := "Trail Runner Pro";
     Stock.description :=
       Some "Lightweight hiking shoe for day hikes and trail running";
     Stock.category := Stock.FOOTWEAR;
     Stock.price := 14999 # 100; Stock.cost := Some 65;
     Stock.quantity := 45; Stock.reorder_point := 15;
     Stock.status := Stock.IN_STOCK;
     Stock.location := Some "Warehouse A - Section 12";
     Stock.last_updated := 0 |}.

Definition summit_boot : Stock.Product :=
  {| Stock.id := "prod-002"; Stock.sku := "SHB-002";
     Stock.name := "Summit Hiking Boot";
     Stock.description :=
       Some "Heavy-duty hiking boot for challenging terrain";
     Stock.category := Stock.FOOTWEAR;
     Stock.price := 21999 # 100; Stock.cost := Some 95;
     Stock.quantity := 12; Stock.reorder_point := 20;
     Stock.status := Stock.LOW_STOCK;
     Stock.location := Some "Warehouse A - Section 12";
     Stock.last_updated := 0 |}.

Definition weatherproof_jacket : Stock.Product :=
  {| Stock.id := "prod-005"; Stock.sku := "MWJ-005";
     Stock.name := "Mountain Weatherproof Jacket";
     Stock.description := None;
     Stock.category := Stock.APPAREL;
     Stock.price := 32999 # 100; Stock.cost := Some 140;
     Stock.quantity := 0; Stock.reorder_point := 25;
     Stock.status := Stock.OUT_OF_STOCK;
     Stock.location := None;
     Stock.last_updated := 0 |}.

Definition DEMO_PRODUCTS : list (string * nat) :=
  [("TRP-001", 0%nat); ("SHB-002", 1%nat); ("MWJ-005", 2%nat)].

Definition DEMO_ALERTS : list Stock.InventoryAlert :=
  [ {| Stock.alert_id := "alert-001"; Stock.product_id := "prod-002";
       Stock.product_name := "Summit Hiking Boot";
       Stock.alert_sku := "SHB-002"; Stock.alert_type := "low_stock";
       Stock.current_quantity := 12; Stock.threshold := 20;
       Stock.created_at := 0 |};
    {| Stock.alert_id := "alert-002"; Stock.product_id := "prod-005";
       Stock.product_name := "Mountain Weatherproof Jacket";
       Stock.alert_sku := "MWJ-005"; Stock.alert_type := "out_of_stock";
       Stock.current_quantity := 0; Stock.threshold := 25;
       Stock.created_at := 0 |} ].

(** The store at start-up. *)
Definition warehouse : Stock.store :=
  {| Stock.objects :=
       fun a => match a with
                | O => trail_runner
                | S O => summit_boot
                | _ => weatherproof_jacket
                end;
     Stock.utcnow := fun n => inject_Z (Z.of_nat n);
     Stock.utcnow_reads := 0 |}.

Definition tools : Stock.Tools := Stock.Tools__init__ DEMO_PRODUCTS DEMO_ALERTS.

(** A process whose management token expired at time 500. *)
Definition expired_vault : world :=
  with_token_vault
    {| _management_token := VStr "mgmt-0"; _token_expiry := 500 |}
    (world_of grant).

(** An inventory authorization server, and none. *)
Definition inventory_server : InventoryServer :=
  {| inventory_auth_server_id := "inv-as-1";
     inventory_scopes :=
       ["inventory:read"; "inventory:write"; "inventory:alert"] |}.

Definition no_inventory_server : InventoryServer :=
  {| inventory_auth_server_id := "";
     inventory_scopes :=
       ["inventory:read"; "inventory:write"; "inventory:alert"] |}.

(** The two answers of the assertion exchange: the org server issues an
    assertion, then the inventory server grants a token, without a [scope]
    field or with the scope [inventory:read]. *)
Definition id_jag_answer : reply :=
  Answer {| status_code := 200;
            content := Some (VDict [("id_token", VStr "id-jag")]) |}.

Definition xaa_without_scope (n : nat) : reply :=
  match n with
  | O => id_jag_answer
  | S _ =>
      Answer {| status_code := 200;
                content := Some (VDict [ ("access_token", VStr "at-1");
                                         ("expires_in", VNum 3600) ]) |}
  end.

Definition xaa_read_only (n : nat) : reply :=
  match n with
  | O => id_jag_answer
  | S _ =>
      Answer {| status_code := 200;
                content := Some (VDict [ ("access_token", VStr "at-1");
                                         ("expires_in", VNum 3600);
                                         ("scope", VStr "inventory:read") ]) |}
  end.

End Sample.

(* ================================================================== *)
(** ** Properties *)

(** *** Numbers and lookups *)

Example eq_bool_is_number : eq (VBool true) (VNum 1) = true.
Proof. reflexivity. Qed.

Example eq_none_is_not_a_string : eq VNone (VStr "None") = false.
Proof. reflexivity. Qed.

Example eq_dict_any_order :
  eq (VDict [("kid", VStr "a"); ("kty", VStr "RSA")])
     (VDict [("kty", VStr "RSA"); ("kid", VStr "a")]) = true.
Proof. reflexivity. Qed.

Example empty_string_is_falsy : truthy (VStr "") = false.
Proof. reflexivity. Qed.

Example milliseconds_rounds_the_product :
  Inventory.milliseconds (3565158400002097 # 2097152) = 1700000000001%Z
  /\ int ((3565158400002097 # 2097152) * 1000) = 1700000000000%Z.
Proof. split; vm_compute; reflexivity. Qed.

Example int_truncates : int (100025 # 100) = 1000%Z.
Proof. reflexivity. Qed.

Lemma Qltb_lt (x y : Q) : Qltb x y = true <-> (x < y)%Q.
Proof.
  unfold Qltb. rewrite negb_true_iff. split.
  - intros H. apply Qnot_le_lt. intros L.
    apply Qle_bool_iff in L. congruence.
  - intros H. destruct (Qle_bool y x) eqn:E; [|reflexivity].
    apply Qle_bool_iff in E. exfalso. exact (Qlt_not_le _ _ H E).
Qed.

Lemma Qltb_ge (x y : Q) : Qltb x y = false <-> (y <= x)%Q.
Proof.
  unfold Qltb. rewrite negb_false_iff. apply Qle_bool_iff.
Qed.

Lemma get_dict (k : string) (d : list (string * value)) :
  get (VDict d) k = inr (item k d).
Proof. unfold get, get_or, item. destruct (lookup k d); reflexivity. Qed.

Lemma get_or_dict (k : string) (d : list (string * value)) (v : value) :
  get_or (VDict d) k v
  = inr (match lookup k d with Some x => x | None => v end).
Proof. unfold get_or. destruct (lookup k d); reflexivity. Qed.

(** *** What minting a client assertion leaves alone *)

Lemma generate_wlp_assertion_frame
  (settings : Settings) (lib : Libraries) (audience : option string)
  (w : world) :
  let w' := snd (generate_wlp_assertion settings lib audience w) in
  upstream w' = upstream w /\ sent w' = sent w
  /\ okta_auth w' = okta_auth w /\ token_vault w' = token_vault w.
Proof.
  unfold generate_wlp_assertion.
  destruct (negb (nonempty (wlp_private_key settings))); [simpl; auto|].
  unfold bind, time_time, str_uuid4, lift; simpl.
  destruct (json_loads lib _); simpl; auto.
  destruct (from_jwk lib _); simpl; auto.
Qed.

Lemma generate_wlp_assertion_calls
  (settings : Settings) (lib : Libraries) (audience : option string)
  (w w1 : world) (r : result string) :
  generate_wlp_assertion settings lib audience w = (r, w1) ->
  upstream w1 (calls w1) = upstream w (calls w).
Proof.
  intros H.
  pose proof (generate_wlp_assertion_frame settings lib audience w) as F.
  rewrite H in F. simpl in F. destruct F as (U & S & _).
  unfold calls. rewrite U, S. reflexivity.
Qed.

(** *** Running the monad *)

Lemma bind_ret {A B : Type} (a : A) (k : A -> M B) (w : world) :
  bind (ret a) k w = k a w.
Proof. reflexivity. Qed.

Lemma bind_lift {A B : Type} (a : A) (k : A -> M B) (w : world) :
  bind (lift (inr a)) k w = k a w.
Proof. reflexivity. Qed.

Lemma bind_run {A B : Type} (m : M A) (k : A -> M B) (w w' : world) (a : A) :
  m w = (inr a, w') -> bind m k w = k a w'.
Proof. intros H. unfold bind. rewrite H. reflexivity. Qed.

Lemma bind_fail {A B : Type} (m : M A) (k : A -> M B) (w w' : world)
  (e : exn) :
  m w = (inl e, w') -> bind m k w = (inl e, w').
Proof. intros H. unfold bind. rewrite H. reflexivity. Qed.

(** The request leaves and the answer is the one the world holds for it. *)
Lemma send_answer (rq : request) (w : world) (r : Response) :
  upstream w (calls w) = Answer r ->
  exists w', send rq w = (inr r, w') /\ sent w' = rq :: sent w
             /\ okta_auth w' = okta_auth w /\ token_vault w' = token_vault w
             /\ upstream w' = upstream w /\ clock w' = clock w
             /\ clock_reads w' = clock_reads w.
Proof.
  intros H. unfold send. rewrite H. eexists. split; [reflexivity|].
  simpl. repeat split.
Qed.

(** *** The two exchanges of [okta_auth.py] *)

(** What [exchange_for_id_jag] does with the answer, once the client
    assertion is minted. *)
Lemma exchange_for_id_jag_answer
  (settings : Settings) (lib : Libraries) (id_token : string)
  (w w1 : world) (assertion : string) (r : Response) :
  generate_wlp_assertion settings lib None w = (inr assertion, w1) ->
  upstream w (calls w) = Answer r ->
  fst (exchange_for_id_jag settings lib id_token w)
  = if negb (status_code r =? 200)%Z
    then match content r with
         | Some (VDict d) =>
             inl (HTTPException 401
                    [Chars "ID-JAG exchange failed: ";
                     Hole (match lookup "error_description" d with
                           | Some x => x
                           | None => item "error" d
                           end)])
         | Some _ => inl AttributeError
         | None => inl JSONDecodeError
         end
    else match content r with
         | Some (VDict d) => inr (item "id_token" d)
         | Some _ => inl AttributeError
         | None => inl JSONDecodeError
         end.
Proof.
  intros G U.
  rewrite <- (generate_wlp_assertion_calls _ _ _ _ _ _ G) in U.
  unfold exchange_for_id_jag, bind. rewrite G.
  match goal with |- context [send ?rq w1] =>
    destruct (send_answer rq w1 r U) as (w2 & -> & _) end.
  unfold json.
  destruct (negb (status_code r =? 200)%Z);
    destruct (content r) as [[| | | | |d]|]; try reflexivity.
  - unfold ret, lift. rewrite get_dict, get_or_dict. reflexivity.
  - unfold ret, lift. rewrite get_dict. reflexivity.
Qed.

(** What [exchange_id_jag_for_token] does with the answer, once the client
    assertion is minted. *)
Lemma exchange_id_jag_for_token_answer
  (settings : Settings) (lib : Libraries)
  (id_jag : value) (auth_server_id : string) (scopes : list string)
  (w w1 : world) (assertion : string) (r : Response) :
  generate_wlp_assertion settings lib
    (Some (custom_token_endpoint settings auth_server_id)) w
  = (inr assertion, w1) ->
  upstream w (calls w) = Answer r ->
  fst (exchange_id_jag_for_token settings lib id_jag auth_server_id scopes w)
  = match content r with
    | Some (VDict d) =>
        if negb (status_code r =? 200)%Z
        then inr (VDict [ ("success", VBool false);
                          ("error", item "error" d);
                          ("error_description", item "error_description" d) ])
        else inr (VDict [ ("success", VBool true);
                          ("access_token", item "access_token" d);
                          ("token_type",
                           match lookup "token_type" d with
                           | Some x => x
                           | None => VStr "Bearer"
                           end);
                          ("expires_in", item "expires_in" d);
                          ("scope", item "scope" d) ])
    | Some _ => inl AttributeError
    | None => inl JSONDecodeError
    end.
Proof.
  intros G U.
  rewrite <- (generate_wlp_assertion_calls _ _ _ _ _ _ G) in U.
  unfold exchange_id_jag_for_token, bind. rewrite G.
  match goal with |- context [send ?rq w1] =>
    destruct (send_answer rq w1 r U) as (w2 & -> & _) end.
  unfold json.
  destruct (negb (status_code r =? 200)%Z);
    destruct (content r) as [[| | | | |d]|]; try reflexivity.
  - unfold ret, lift. rewrite !get_dict. reflexivity.
  - unfold ret, lift. rewrite !get_dict, get_or_dict. reflexivity.
Qed.

(** C1, as far as it holds.  Once the client assertion is minted and the
    custom authorization server answers with a body that parses as a JSON
    object, [exchange_id_jag_for_token] does not raise: on a status other
    than 200
    it returns [{success: False, error, error_description}] with the two
    fields of the body ([None] for an absent one), and on 200 it returns
    [{success: True, access_token, token_type, expires_in, scope}], where
    [token_type] is ["Bearer"] when the body has none. *)
Theorem exchange_id_jag_for_token_structured
  (settings : Settings) (lib : Libraries)
  (id_jag : value) (auth_server_id : string) (scopes : list string)
  (w w1 : world) (assertion : string) (r : Response)
  (d : list (string * value)) :
  generate_wlp_assertion settings lib
    (Some (custom_token_endpoint settings auth_server_id)) w
  = (inr assertion, w1) ->
  upstream w (calls w) = Answer r ->
  content r = Some (VDict d) ->
  (status_code r <> 200%Z ->
   fst (exchange_id_jag_for_token settings lib id_jag auth_server_id scopes w)
   = inr (VDict [ ("success", VBool false);
                  ("error", item "error" d);
                  ("error_description", item "error_description" d) ]))
  /\
  (status_code r = 200%Z ->
   fst (exchange_id_jag_for_token settings lib id_jag auth_server_id scopes w)
   = inr (VDict [ ("success", VBool true);
                  ("access_token", item "access_token" d);
                  ("token_type",
                   match lookup "token_type" d with
                   | Some x => x
                   | None => VStr "Bearer"
                   end);
                  ("expires_in", item "expires_in" d);
                  ("scope", item "scope" d) ])).
Proof.
  intros G U C.
  rewrite (exchange_id_jag_for_token_answer _ _ _ _ _ _ _ _ _ G U), C.
  split; intros S.
  - apply Z.eqb_neq in S. rewrite S. reflexivity.
  - apply Z.eqb_eq in S. rewrite S. reflexivity.
Qed.

Lemma exchange_id_jag_for_token_structured_witness :
  fst (exchange_id_jag_for_token Sample.settings Sample.lib
         (VStr "id-jag") "inv-as-1" ["inventory:read"]
         (Sample.world_of Sample.access_denied))
  = inr (VDict [ ("success", VBool false);
                 ("error", VStr "access_denied");
                 ("error_description", VStr "Policy evaluation failed") ]).
Proof.
  refine (proj1
    (exchange_id_jag_for_token_structured Sample.settings Sample.lib
       (VStr "id-jag") "inv-as-1" ["inventory:read"]
       (Sample.world_of Sample.access_denied)
       (snd (generate_wlp_assertion Sample.settings Sample.lib
               (Some (custom_token_endpoint Sample.settings "inv-as-1"))
               (Sample.world_of Sample.access_denied)))
       "jwt:"
       {| status_code := 400;
          content := Some (VDict
            [ ("error", VStr "access_denied");
              ("error_description", VStr "Policy evaluation failed") ]) |}
       [ ("error", VStr "access_denied");
         ("error_description", VStr "Policy evaluation failed") ]
       _ _ _) _).
  - reflexivity.
  - reflexivity.
  - reflexivity.
  - simpl. discriminate.
Defined.

(** C1 fails on a 502 whose body is not JSON: the branch that is to return
    the denial reads [response.json()] first, and
    [exchange_id_jag_for_token] raises [JSONDecodeError] instead of
    returning [{success: False, ...}]. *)
Lemma exchange_id_jag_for_token_bad_gateway_raises :
  upstream (Sample.world_of Sample.bad_gateway)
           (calls (Sample.world_of Sample.bad_gateway))
  = Answer {| status_code := 502; content := None |}
  /\ fst (exchange_id_jag_for_token Sample.settings Sample.lib
            (VStr "id-jag") "inv-as-1" ["inventory:read"]
            (Sample.world_of Sample.bad_gateway))
     = inl JSONDecodeError.
Proof. split; reflexivity. Qed.

(** C2, as far as it holds.  When the org authorization server answers
    with a status other than 200, [exchange_for_id_jag] raises and returns
    no value.  When the body is a JSON object the exception is the 401
    [HTTPException] whose detail carries the body's [error_description] or,
    when the body has no such field, its [error]; the same answer given to
    [exchange_id_jag_for_token] is returned as a [{success: False, ...}]
    value instead.  When the body is not JSON the exception is the
    [JSONDecodeError] of [response.json()], which carries nothing of the
    answer, and [exchange_id_jag_for_token] raises the same. *)
Theorem exchange_for_id_jag_raises
  (settings : Settings) (lib : Libraries) (id_token : string)
  (w : world) (r : Response) :
  upstream w (calls w) = Answer r ->
  status_code r <> 200%Z ->
  (exists e, fst (exchange_for_id_jag settings lib id_token w) = inl e)
  /\
  (forall d, content r = Some (VDict d) ->
     (forall assertion w1,
        generate_wlp_assertion settings lib None w = (inr assertion, w1) ->
        fst (exchange_for_id_jag settings lib id_token w)
        = inl (HTTPException 401
                 [Chars "ID-JAG exchange failed: ";
                  Hole (match lookup "error_description" d with
                        | Some x => x
                        | None => item "error" d
                        end)]))
     /\
     (forall id_jag auth_server_id scopes assertion w1,
        generate_wlp_assertion settings lib
          (Some (custom_token_endpoint settings auth_server_id)) w
        = (inr assertion, w1) ->
        fst (exchange_id_jag_for_token settings lib id_jag auth_server_id
               scopes w)
        = inr (VDict [ ("success", VBool false);
                       ("error", item "error" d);
                       ("error_description", item "error_description" d) ])))
  /\
  (content r = None ->
     (forall assertion w1,
        generate_wlp_assertion settings lib None w = (inr assertion, w1) ->
        fst (exchange_for_id_jag settings lib id_token w)
        = inl JSONDecodeError)
     /\
     (forall id_jag auth_server_id scopes assertion w1,
        generate_wlp_assertion settings lib
          (Some (custom_token_endpoint settings auth_server_id)) w
        = (inr assertion, w1) ->
        fst (exchange_id_jag_for_token settings lib id_jag auth_server_id
               scopes w)
        = inl JSONDecodeError)).
Proof.
  intros U S. apply Z.eqb_neq in S. split; [|split].
  - destruct (generate_wlp_assertion settings lib None w) as [[e|a] w1] eqn:G.
    + exists e. unfold exchange_for_id_jag, bind. rewrite G. reflexivity.
    + rewrite (exchange_for_id_jag_answer _ _ _ _ _ _ _ G U), S. simpl.
      destruct (content r) as [[| | | | |d]|]; eauto.
  - intros d C. split.
    + intros a w1 G.
      rewrite (exchange_for_id_jag_answer _ _ _ _ _ _ _ G U), S, C.
      reflexivity.
    + intros id_jag auth_server_id scopes a w1 G.
      rewrite (exchange_id_jag_for_token_answer _ _ _ _ _ _ _ _ _ G U), S, C.
      reflexivity.
  - intros C. split.
    + intros a w1 G.
      rewrite (exchange_for_id_jag_answer _ _ _ _ _ _ _ G U), S, C.
      reflexivity.
    + intros id_jag auth_server_id scopes a w1 G.
      rewrite (exchange_id_jag_for_token_answer _ _ _ _ _ _ _ _ _ G U), C.
      reflexivity.
Qed.

Lemma exchange_for_id_jag_raises_witness :
  fst (exchange_for_id_jag Sample.settings Sample.lib "id-token"
         (Sample.world_of Sample.access_denied))
  = inl (HTTPException 401
           [Chars "ID-JAG exchange failed: ";
            Hole (VStr "Policy evaluation failed")]).
Proof.
  refine (proj1 (proj1 (proj2
    (exchange_for_id_jag_raises Sample.settings Sample.lib "id-token"
       (Sample.world_of Sample.access_denied)
       {| status_code := 400;
          content := Some (VDict
            [ ("error", VStr "access_denied");
              ("error_description", VStr "Policy evaluation failed") ]) |}
       _ _))
       [ ("error", VStr "access_denied");
         ("error_description", VStr "Policy evaluation failed") ] _) "jwt:"
       (snd (generate_wlp_assertion Sample.settings Sample.lib None
               (Sample.world_of Sample.access_denied))) _).
  - reflexivity.
  - simpl. discriminate.
  - reflexivity.
  - reflexivity.
Defined.

(** C2 fails on a 502 whose body is not JSON: [exchange_for_id_jag] raises
    the [JSONDecodeError] of [response.json()], not the 401 with the
    upstream error, and on the same answer [exchange_id_jag_for_token]
    raises as well, so that the two do not differ. *)
Lemma exchange_for_id_jag_bad_gateway_bare_error :
  upstream (Sample.world_of Sample.bad_gateway)
           (calls (Sample.world_of Sample.bad_gateway))
  = Answer {| status_code := 502; content := None |}
  /\ fst (exchange_for_id_jag Sample.settings Sample.lib "id-token"
            (Sample.world_of Sample.bad_gateway))
     = inl JSONDecodeError
  /\ fst (exchange_id_jag_for_token Sample.settings Sample.lib
            (VStr "id-jag") "inv-as-1" ["inventory:read"]
            (Sample.world_of Sample.bad_gateway))
     = fst (exchange_for_id_jag Sample.settings Sample.lib "id-token"
              (Sample.world_of Sample.bad_gateway)).
Proof. repeat split. Qed.

(** C9.  When the org authorization server answers 200 with a JSON object
    that has no [id_token] field, [exchange_for_id_jag] returns [None]; it
    does not raise. *)
Theorem exchange_for_id_jag_missing_id_token
  (settings : Settings) (lib : Libraries) (id_token : string)
  (w w1 : world) (assertion : string) (r : Response)
  (d : list (string * value)) :
  generate_wlp_assertion settings lib None w = (inr assertion, w1) ->
  upstream w (calls w) = Answer r ->
  status_code r = 200%Z ->
  content r = Some (VDict d) ->
  lookup "id_token" d = None ->
  fst (exchange_for_id_jag settings lib id_token w) = inr VNone.
Proof.
  intros G U S C L. apply Z.eqb_eq in S.
  rewrite (exchange_for_id_jag_answer _ _ _ _ _ _ _ G U), S, C.
  unfold item. rewrite L. reflexivity.
Qed.

Lemma exchange_for_id_jag_missing_id_token_witness :
  fst (exchange_for_id_jag Sample.settings Sample.lib "id-token"
         (Sample.world_of Sample.token_answer))
  = inr VNone.
Proof.
  refine (exchange_for_id_jag_missing_id_token Sample.settings Sample.lib
            "id-token" (Sample.world_of Sample.token_answer)
            (snd (generate_wlp_assertion Sample.settings Sample.lib None
                    (Sample.world_of Sample.token_answer)))
            "jwt:"
            {| status_code := 200;
               content := Some (VDict
                 [ ("access_token", VStr "at-1");
                   ("expires_in", VNum 3600);
                   ("scope", VStr "inventory:read") ]) |}
            [ ("access_token", VStr "at-1");
              ("expires_in", VNum 3600);
              ("scope", VStr "inventory:read") ]
            _ _ _ _ _); reflexivity.
Defined.

(** *** The signing-key cache *)

(** A hit, then a miss. *)
Lemma get_jwks_hit (settings : Settings) (w : world) :
  truthy (_jwks_cache (okta_auth w))
  && Qltb (clock w (clock_reads w) - _jwks_cache_time (okta_auth w))
          (_cache_ttl (okta_auth w)) = true ->
  get_jwks settings w = (inr (_jwks_cache (okta_auth w)), snd (time_time w)).
Proof.
  intros H. unfold get_jwks, bind, time_time, self_okta. simpl.
  rewrite H. reflexivity.
Qed.

Lemma get_jwks_miss (settings : Settings) (w : world) :
  truthy (_jwks_cache (okta_auth w))
  && Qltb (clock w (clock_reads w) - _jwks_cache_time (okta_auth w))
          (_cache_ttl (okta_auth w)) = false ->
  sent (snd (get_jwks settings w))
  = {| method := "GET"; url := okta_jwks_uri settings;
       body := Empty; headers := [] |} :: sent w
  /\ fst (get_jwks settings w)
     = match upstream w (calls w) with
       | NoAnswer => inl TransportError
       | Answer r =>
           if (200 <=? status_code r)%Z && (status_code r <=? 299)%Z
           then match content r with
                | Some keys => inr keys
                | None => inl JSONDecodeError
                end
           else inl (HTTPStatusError (status_code r))
       end.
Proof.
  intros H. unfold get_jwks, bind, time_time, self_okta. simpl.
  rewrite H. unfold send, calls. simpl.
  destruct (upstream w (length (sent w))) as [r|]; simpl; [|auto].
  unfold raise_for_status.
  destruct ((200 <=? status_code r)%Z && (status_code r <=? 299)%Z);
    simpl; [|auto].
  unfold json. destruct (content r); simpl; auto.
Qed.

(** Whatever the answer, [send] logs the request and touches nothing
    else. *)
Lemma send_frame (rq : request) (w : world) :
  let w' := snd (send rq w) in
  sent w' = rq :: sent w
  /\ okta_auth w' = okta_auth w /\ token_vault w' = token_vault w
  /\ upstream w' = upstream w /\ clock w' = clock w
  /\ clock_reads w' = clock_reads w
  /\ uuid4 w' = uuid4 w /\ uuid4_draws w' = uuid4_draws w.
Proof.
  unfold send. destruct (upstream w (calls w)); simpl; repeat split.
Qed.

(** A miss, with the state it ends in. *)
Lemma get_jwks_fetch (settings : Settings) (w : world) :
  truthy (_jwks_cache (okta_auth w))
  && Qltb (clock w (clock_reads w) - _jwks_cache_time (okta_auth w))
          (_cache_ttl (okta_auth w)) = false ->
  let w1 := snd (send (jwks_request settings) (snd (time_time w))) in
  get_jwks settings w
  = match upstream w (calls w) with
    | NoAnswer => (inl TransportError, w1)
    | Answer r =>
        if (200 <=? status_code r)%Z && (status_code r <=? 299)%Z
        then match content r with
             | Some keys =>
                 (inr keys,
                  with_okta_auth
                    {| _jwks_cache := keys;
                       _jwks_cache_time := clock w (clock_reads w);
                       _cache_ttl := _cache_ttl (okta_auth w) |} w1)
             | None => (inl JSONDecodeError, w1)
             end
        else (inl (HTTPStatusError (status_code r)), w1)
    end.
Proof.
  intros H. unfold get_jwks, bind, time_time, self_okta. simpl.
  rewrite H. unfold send, calls, jwks_request. simpl.
  destruct (upstream w (length (sent w))) as [r|]; simpl; [|reflexivity].
  unfold raise_for_status.
  destruct ((200 <=? status_code r)%Z && (status_code r <=? 299)%Z);
    simpl; [|reflexivity].
  unfold json. destruct (content r); reflexivity.
Qed.

(** C5.  With the TTL of [__init__], 3600 s.

    A hit: a call whose clock reading is less than 3600 s after the time of
    the cached fetch, the cache holding a non-empty key set, returns the
    cached set, sends nothing and leaves the cache as it is.

    A fetch: a call with an empty cache, or 3600 s or more after the time
    of the cached fetch, sends the key request.  Answered 2xx with a JSON
    body, it returns that body and stores it with the clock reading of the
    call, the TTL unchanged; and while the cache is as this fetch left it,
    a non-empty key set in it, every call whose clock reading is less than
    3600 s after the fetch's returns the key set fetched, sends nothing and
    leaves the cache as it is, so that the next call finds the same.  With no
    answer, another status or a body that is not JSON the call raises and
    the cache stays as it was: the set that was cached is not returned. *)
Theorem get_jwks_cache_ttl (settings : Settings) (w : world) :
  _cache_ttl (okta_auth w) = 3600%Q ->
  (truthy (_jwks_cache (okta_auth w)) = true ->
   (clock w (clock_reads w) - _jwks_cache_time (okta_auth w) < 3600)%Q ->
   fst (get_jwks settings w) = inr (_jwks_cache (okta_auth w))
   /\ sent (snd (get_jwks settings w)) = sent w
   /\ okta_auth (snd (get_jwks settings w)) = okta_auth w)
  /\
  (truthy (_jwks_cache (okta_auth w)) = false
   \/ (3600 <= clock w (clock_reads w) - _jwks_cache_time (okta_auth w))%Q ->
   sent (snd (get_jwks settings w))
   = {| method := "GET"; url := okta_jwks_uri settings;
        body := Empty; headers := [] |} :: sent w
   /\ fst (get_jwks settings w)
      = match upstream w (calls w) with
        | NoAnswer => inl TransportError
        | Answer r =>
            if (200 <=? status_code r)%Z && (status_code r <=? 299)%Z
            then match content r with
                 | Some keys => inr keys
                 | None => inl JSONDecodeError
                 end
            else inl (HTTPStatusError (status_code r))
        end
   /\ match fst (get_jwks settings w) with
      | inr keys =>
          okta_auth (snd (get_jwks settings w))
          = {| _jwks_cache := keys;
               _jwks_cache_time := clock w (clock_reads w);
               _cache_ttl := 3600 |}
          /\ (truthy keys = true ->
              forall w2 : world,
                okta_auth w2 = okta_auth (snd (get_jwks settings w)) ->
                (clock w2 (clock_reads w2) - clock w (clock_reads w)
                 < 3600)%Q ->
                fst (get_jwks settings w2) = inr keys
                /\ sent (snd (get_jwks settings w2)) = sent w2
                /\ okta_auth (snd (get_jwks settings w2)) = okta_auth w2)
      | inl _ =>
          okta_auth (snd (get_jwks settings w)) = okta_auth w
      end).
Proof.
  intros T. split.
  - intros C L. rewrite get_jwks_hit.
    + simpl. auto.
    + rewrite C, T. simpl. apply Qltb_lt. exact L.
  - intros H.
    assert (Miss : truthy (_jwks_cache (okta_auth w))
                   && Qltb (clock w (clock_reads w)
                            - _jwks_cache_time (okta_auth w))
                           (_cache_ttl (okta_auth w)) = false).
    { rewrite T. destruct H as [C|L].
      - rewrite C. reflexivity.
      - apply andb_false_iff. right. apply Qltb_ge. exact L. }
    destruct (get_jwks_miss settings w Miss) as (S & R).
    split; [exact S|]. split; [exact R|].
    pose proof (get_jwks_fetch settings w Miss) as F. cbv zeta in F.
    pose proof (send_frame (jwks_request settings) (snd (time_time w)))
      as (_ & O & _).
    rewrite F. clear F R S.
    destruct (upstream w (calls w)) as [r|]; [|exact O].
    destruct ((200 <=? status_code r)%Z && (status_code r <=? 299)%Z);
      [|exact O].
    destruct (content r) as [keys|]; [|exact O].
    cbn [fst snd]. rewrite T. split; [reflexivity|].
    intros K w2 O2 L. rewrite get_jwks_hit.
    + rewrite O2. simpl. auto.
    + rewrite O2. simpl. rewrite K. simpl. apply Qltb_lt. exact L.
Qed.

Lemma get_jwks_cache_ttl_witness :
  (fst (get_jwks Sample.settings (Sample.cached Sample.jwks NoAnswer))
   = inr Sample.jwks
   /\ sent (snd (get_jwks Sample.settings
                   (Sample.cached Sample.jwks NoAnswer))) = [])
  /\ fst (get_jwks Sample.settings (Sample.world_of Sample.bad_gateway))
     = inl (HTTPStatusError 502)
  /\ _jwks_cache
       (okta_auth (snd (get_jwks Sample.settings
                          (Sample.world_of Sample.jwks_answer1))))
     = Sample.jwks.
Proof.
  split; [|split].
  - pose proof (proj1 (get_jwks_cache_ttl Sample.settings
                         (Sample.cached Sample.jwks NoAnswer)
                         eq_refl) eq_refl) as H.
    assert (L : (clock (Sample.cached Sample.jwks NoAnswer)
                   (clock_reads (Sample.cached Sample.jwks NoAnswer))
                 - _jwks_cache_time
                     (okta_auth (Sample.cached Sample.jwks NoAnswer))
                 < 3600)%Q) by reflexivity.
    destruct (H L) as (A & B & _). split; [exact A | exact B].
  - exact (proj1 (proj2 (proj2 (get_jwks_cache_ttl Sample.settings
                                  (Sample.world_of Sample.bad_gateway)
                                  eq_refl)
                           (or_introl eq_refl)))).
  - pose proof (proj2 (proj2 (proj2 (get_jwks_cache_ttl Sample.settings
                                       (Sample.world_of Sample.jwks_answer1)
                                       eq_refl)
                                (or_introl eq_refl)))) as H.
    change (fst (get_jwks Sample.settings
                   (Sample.world_of Sample.jwks_answer1)))
      with (@inr exn value Sample.jwks) in H.
    cbv beta iota in H. destruct H as (H & _). rewrite H. reflexivity.
Defined.

(** *** Identity-token validation *)

Lemma find_key_none (kid : value) (keys : list value) :
  Forall (other_key kid) keys -> find_key keys kid = inr VNone.
Proof.
  induction 1 as [|key keys (k & -> & N) _ IH]; cbn [find_key].
  - reflexivity.
  - rewrite get_dict, N. exact IH.
Qed.

(** C3.  When the key set [get_jwks] yields is a JSON object whose keys
    are objects, the token's header parses, and no key's [kid] equals the
    header's, [validate_id_token] raises the 401 [HTTPException]
    ["Invalid token: key not found"], whatever the library would say of the
    signature, the issuer, the audience or the expiry: the lookup comes
    first and neither [except] clause catches an [HTTPException]. *)
Theorem validate_id_token_key_not_found
  (settings : Settings) (lib : Libraries) (token : string)
  (w w1 : world) (jwks header : list (string * value))
  (keys : list value) :
  get_jwks settings w = (inr (VDict jwks), w1) ->
  get_unverified_header lib token = inr (VDict header) ->
  get_or (VDict jwks) "keys" (VList []) = inr (VList keys) ->
  Forall (other_key (item "kid" header)) keys ->
  validate_id_token settings lib token w
  = (inl (HTTPException 401 [Chars "Invalid token: key not found"]), w1).
Proof.
  intros J H K N.
  unfold validate_id_token, try_except, bind. rewrite J.
  unfold lift. rewrite H, get_dict, K. simpl iter. cbv iota beta.
  rewrite (find_key_none _ _ N). reflexivity.
Qed.

Lemma validate_id_token_key_not_found_witness :
  fst (validate_id_token Sample.settings Sample.lib "key-2"
         (Sample.cached Sample.jwks NoAnswer))
  = inl (HTTPException 401 [Chars "Invalid token: key not found"]).
Proof.
  refine (f_equal fst
    (validate_id_token_key_not_found Sample.settings Sample.lib "key-2"
       (Sample.cached Sample.jwks NoAnswer)
       (snd (get_jwks Sample.settings (Sample.cached Sample.jwks NoAnswer)))
       [("keys", VList [VDict [ ("kty", VStr "RSA");
                                ("kid", VStr "key-1");
                                ("use", VStr "sig") ]])]
       [("alg", VStr "RS256"); ("kid", VStr "key-2")]
       [VDict [ ("kty", VStr "RSA"); ("kid", VStr "key-1");
                ("use", VStr "sig") ]]
       _ _ _ _)).
  - reflexivity.
  - reflexivity.
  - reflexivity.
  - constructor; [|constructor].
    exists [ ("kty", VStr "RSA"); ("kid", VStr "key-1"); ("use", VStr "sig") ].
    split; reflexivity.
Defined.

(** *** The assertion signer *)

Lemma strokes_inj (i j : nat) : Sample.strokes i = Sample.strokes j -> i = j.
Proof.
  revert j. induction i as [|i IH]; intros [|j] H; simpl in H;
    try reflexivity; try discriminate.
  f_equal. apply IH. congruence.
Qed.

Lemma generate_wlp_assertion_run
  (settings : Settings) (lib : Libraries) (audience : option string)
  (w : world) :
  nonempty (wlp_private_key settings) = true ->
  fst (generate_wlp_assertion settings lib audience w)
  = rs256 settings lib (claims_in settings w audience)
  /\ uuid4 (snd (generate_wlp_assertion settings lib audience w)) = uuid4 w
  /\ uuid4_draws (snd (generate_wlp_assertion settings lib audience w))
     = S (uuid4_draws w).
Proof.
  intros K. unfold generate_wlp_assertion, rs256, claims_in,
    audience_or_default.
  rewrite K. unfold bind, time_time, str_uuid4, lift. simpl.
  destruct (json_loads lib _); simpl; auto.
  destruct (from_jwk lib _); simpl; auto.
Qed.

(** C4.  With no workload private key configured,
    [generate_wlp_assertion] raises the 500 [HTTPException]
    ["WLP private key not configured"].  With one, the call signs a claim
    set in which [iss] and [sub] are the workload client id, [aud] is the
    caller's audience or, without one, the org token endpoint, [exp] is
    [iat + 300], and [jti] is the next draw of [uuid4]; the call consumes
    that draw.  As [uuid4] never repeats a draw, the claim set of any later
    call, whatever the clock reads, has a different [jti]. *)
Theorem generate_wlp_assertion_claims
  (settings : Settings) (lib : Libraries) (audience : option string)
  (w : world) :
  let claims := claims_in settings w audience in
  let iat := int (clock w (clock_reads w)) in
  (wlp_private_key settings = "" ->
   generate_wlp_assertion settings lib audience w
   = (inl (HTTPException 500 [Chars "WLP private key not configured"]), w))
  /\
  (wlp_private_key settings <> "" ->
   fst (generate_wlp_assertion settings lib audience w)
   = rs256 settings lib claims
   /\ uuid4 (snd (generate_wlp_assertion settings lib audience w)) = uuid4 w
   /\ uuid4_draws (snd (generate_wlp_assertion settings lib audience w))
      = S (uuid4_draws w))
  /\ get claims "iss" = inr (VStr (wlp_client_id settings))
  /\ get claims "sub" = inr (VStr (wlp_client_id settings))
  /\ get claims "aud"
     = inr (VStr match audience with
                 | Some a =>
                     if nonempty a then a else org_token_endpoint settings
                 | None => org_token_endpoint settings
                 end)
  /\ get claims "iat" = inr (VNum (inject_Z iat))
  /\ get claims "exp" = inr (VNum (inject_Z (iat + 300)))
  /\ get claims "jti" = inr (VStr (uuid4 w (uuid4_draws w)))
  /\ (forall (w' : world) (audience' : option string),
        uuid4 w' = uuid4 w ->
        (uuid4_draws w < uuid4_draws w')%nat ->
        (forall i j, uuid4 w i = uuid4 w j -> i = j) ->
        get (claims_in settings w' audience') "jti" <> get claims "jti").
Proof.
  intros claims iat. split; [|split].
  - intros K. unfold generate_wlp_assertion, nonempty. rewrite K.
    reflexivity.
  - intros K. apply generate_wlp_assertion_run.
    unfold nonempty. apply negb_true_iff, String.eqb_neq. exact K.
  - repeat split.
    intros w' audience' U L F. unfold claims, claims_in, wlp_payload.
    simpl. rewrite U. intros E. injection E as E. apply F in E. lia.
Qed.

Lemma generate_wlp_assertion_claims_witness :
  generate_wlp_assertion Sample.settings_no_key Sample.lib None
    (Sample.world_of NoAnswer)
  = (inl (HTTPException 500 [Chars "WLP private key not configured"]),
     Sample.world_of NoAnswer)
  /\ fst (generate_wlp_assertion Sample.settings Sample.lib None
            (Sample.world_of NoAnswer))
     = inr "jwt:"
  /\ get (claims_in Sample.settings
            (snd (generate_wlp_assertion Sample.settings Sample.lib None
                    (Sample.world_of NoAnswer)))
            None) "jti"
     <> get (claims_in Sample.settings (Sample.world_of NoAnswer) None) "jti".
Proof.
  split; [|split].
  - exact (proj1 (generate_wlp_assertion_claims Sample.settings_no_key
                    Sample.lib None (Sample.world_of NoAnswer)) eq_refl).
  - refine (proj1 (proj1 (proj2
      (generate_wlp_assertion_claims Sample.settings Sample.lib None
         (Sample.world_of NoAnswer))) _)).
    simpl. discriminate.
  - refine (proj2 (proj2 (proj2 (proj2 (proj2 (proj2 (proj2 (proj2
      (generate_wlp_assertion_claims Sample.settings Sample.lib None
         (Sample.world_of NoAnswer)))))))))
      (snd (generate_wlp_assertion Sample.settings Sample.lib None
              (Sample.world_of NoAnswer)))
      None _ _ _).
    + reflexivity.
    + simpl. lia.
    + exact strokes_inj.
Defined.

(** *** The token vault *)

(** A call that finds a non-empty token and reads the clock before the
    expiry answers from the cache. *)
Lemma get_management_token_hit (settings : Settings) (w : world) :
  truthy (_management_token (token_vault w)) = true ->
  (clock w (clock_reads w) < _token_expiry (token_vault w))%Q ->
  get_management_token settings w
  = (inr (_management_token (token_vault w)), snd (time_time w)).
Proof.
  intros T L. apply Qltb_lt in L.
  unfold get_management_token, bind, self_vault. rewrite T.
  unfold time_time at 1. unfold ret at 1. simpl. rewrite L. reflexivity.
Qed.

(** A call that reads the clock at the expiry or later sends the token
    request. *)
Lemma get_management_token_expired (settings : Settings) (w : world) :
  truthy (_management_token (token_vault w)) = true ->
  (_token_expiry (token_vault w) <= clock w (clock_reads w))%Q ->
  exists rq,
    sent (snd (get_management_token settings w)) = rq :: sent w
    /\ method rq = "POST"
    /\ url rq = ("https://" ++ auth0_domain settings ++ "/oauth/token")%string.
Proof.
  intros T L. apply Qltb_ge in L.
  unfold get_management_token, bind, self_vault. rewrite T.
  unfold time_time at 1. unfold ret at 1. simpl. rewrite L.
  eexists. split.
  - unfold send, calls. simpl.
    destruct (upstream w (length (sent w))) as [r|]; simpl; [|reflexivity].
    destruct (negb (status_code r =? 200)%Z); simpl; [reflexivity|].
    unfold json. destruct (content r) as [data|]; simpl; [|reflexivity].
    unfold lift.
    destruct (subscript data "access_token"); simpl; [reflexivity|].
    destruct (get_or data "expires_in" (VNum 86400)); simpl; [reflexivity|].
    destruct (number _); simpl; reflexivity.
  - split; reflexivity.
Qed.

(** A call with an empty cache that is answered with a grant stores the
    token and its expiry. *)
Lemma get_management_token_cold
  (settings : Settings) (w : world) (r : Response)
  (d : list (string * value)) (token : value) (expires_in : Q) :
  truthy (_management_token (token_vault w)) = false ->
  upstream w (calls w) = Answer r ->
  status_code r = 200%Z ->
  content r = Some (VDict d) ->
  lookup "access_token" d = Some token ->
  number (match lookup "expires_in" d with
          | Some x => x
          | None => VNum 86400
          end) = inr expires_in ->
  exists w',
    get_management_token settings w = (inr token, w')
    /\ token_vault w'
       = {| _management_token := token;
            _token_expiry := clock w (clock_reads w) + expires_in - 60 |}
    /\ calls w' = S (calls w).
Proof.
  intros T U S C A E. apply Z.eqb_eq in S.
  unfold get_management_token, bind, self_vault. rewrite T.
  unfold ret at 1. unfold send. rewrite U, S. simpl.
  unfold json. rewrite C. unfold ret at 1. unfold lift, subscript.
  rewrite A. unfold get_or.
  destruct (lookup "expires_in" d); cbv beta iota.
  - rewrite E. simpl. eexists. split; [reflexivity|]. simpl. repeat split.
  - simpl in E. injection E as <-. simpl.
    eexists. split; [reflexivity|]. simpl. repeat split.
Qed.

(** Any number of calls that all read the clock before the expiry are
    answered from the cache. *)
Lemma get_management_token_times
  (settings : Settings) (n : nat) (w : world) :
  truthy (_management_token (token_vault w)) = true ->
  (forall i, (i < n)%nat ->
     (clock w (clock_reads w + i) < _token_expiry (token_vault w))%Q) ->
  exists w',
    times n (get_management_token settings) w
    = (inr (repeat (_management_token (token_vault w)) n), w')
    /\ sent w' = sent w /\ token_vault w' = token_vault w.
Proof.
  revert w. induction n as [|n IH]; intros w T L.
  - exists w. repeat split.
  - destruct (IH (snd (time_time w))) as (w' & R & S & V).
    + exact T.
    + intros i Hi. simpl.
      assert (H : (S i < S n)%nat) by lia.
      apply L in H. rewrite Nat.add_succ_r in H. exact H.
    + exists w'. cbn [times]. unfold bind at 1.
      rewrite get_management_token_hit.
      * unfold bind at 1. rewrite R. simpl in S, V. simpl. auto.
      * exact T.
      * specialize (L 0%nat). rewrite Nat.add_0_r in L. apply L. lia.
Qed.

(** C6.  A call of [get_management_token] with an empty cache that is
    answered 200 with a non-empty [access_token] returns the token after one
    outbound call and stores it with the expiry
    [fetch time + expires_in - 60] (86400 for an absent [expires_in]).  From
    then on, in every state of the process that still holds that cache, a
    call that reads the clock before the expiry returns the same token,
    sends nothing and leaves the cache as it is (so do [n] calls in a row
    that all read the clock before the expiry), and a call that reads the
    clock at the expiry or later sends a new token request. *)
Theorem get_management_token_cached
  (settings : Settings) (w0 : world) (r : Response)
  (d : list (string * value)) (token : value) (expires_in : Q) :
  truthy (_management_token (token_vault w0)) = false ->
  upstream w0 (calls w0) = Answer r ->
  status_code r = 200%Z ->
  content r = Some (VDict d) ->
  lookup "access_token" d = Some token ->
  truthy token = true ->
  number (match lookup "expires_in" d with
          | Some x => x
          | None => VNum 86400
          end) = inr expires_in ->
  let expiry := (clock w0 (clock_reads w0) + expires_in - 60)%Q in
  exists w1,
    get_management_token settings w0 = (inr token, w1)
    /\ calls w1 = S (calls w0)
    /\ _token_expiry (token_vault w1) = expiry
    /\ forall w, token_vault w = token_vault w1 ->
         ((clock w (clock_reads w) < expiry)%Q ->
          exists w',
            get_management_token settings w = (inr token, w')
            /\ sent w' = sent w /\ token_vault w' = token_vault w)
         /\
         (forall n,
            (forall i, (i < n)%nat ->
               (clock w (clock_reads w + i) < expiry)%Q) ->
            exists w',
              times n (get_management_token settings) w
              = (inr (repeat token n), w')
              /\ sent w' = sent w /\ token_vault w' = token_vault w)
         /\
         ((expiry <= clock w (clock_reads w))%Q ->
          exists rq,
            sent (snd (get_management_token settings w)) = rq :: sent w
            /\ method rq = "POST"
            /\ url rq
               = ("https://" ++ auth0_domain settings ++ "/oauth/token")%string).
Proof.
  intros T U S C A N E expiry.
  destruct (get_management_token_cold settings w0 r d token expires_in
              T U S C A E) as (w1 & R & V & K).
  exists w1. split; [exact R|]. split; [exact K|].
  split; [rewrite V; reflexivity|].
  intros w W. rewrite V in W. split; [|split].
  - intros L. eexists. split; [|split].
    + rewrite get_management_token_hit; rewrite W; simpl;
        [reflexivity | exact N | exact L].
    + reflexivity.
    + reflexivity.
  - intros n L.
    destruct (get_management_token_times settings n w) as (w' & Rn & Sn & Vn).
    + rewrite W. exact N.
    + rewrite W. exact L.
    + rewrite W in Rn. simpl in Rn. exists w'. auto.
  - intros L. apply get_management_token_expired; rewrite W; simpl.
    + exact N.
    + exact L.
Qed.

Lemma get_management_token_cached_witness :
  exists w1,
    get_management_token Sample.settings (Sample.world_of Sample.token_answer)
    = (inr (VStr "at-1"), w1)
    /\ calls w1 = 1%nat
    /\ fst (get_management_token Sample.settings w1) = inr (VStr "at-1")
    /\ calls (snd (get_management_token Sample.settings w1)) = 1%nat.
Proof.
  destruct (get_management_token_cached Sample.settings
              (Sample.world_of Sample.token_answer)
              {| status_code := 200;
                 content := Some (VDict
                   [ ("access_token", VStr "at-1");
                     ("expires_in", VNum 3600);
                     ("scope", VStr "inventory:read") ]) |}
              [ ("access_token", VStr "at-1");
                ("expires_in", VNum 3600);
                ("scope", VStr "inventory:read") ]
              (VStr "at-1") 3600
              eq_refl eq_refl eq_refl eq_refl eq_refl eq_refl eq_refl)
    as (w1 & R & K & X & Later).
  exists w1. split; [exact R|]. split; [exact K|].
  assert (C : clock w1 = clock (Sample.world_of Sample.token_answer))
    by (injection R as <-; reflexivity).
  destruct (proj1 (Later w1 eq_refl)) as (w' & R' & S' & _).
  - rewrite C. reflexivity.
  - rewrite R'. simpl. unfold calls. rewrite S'. split; [reflexivity|].
    exact K.
Defined.

(** C8, amended.  Once the management token is obtained and the vault
    answers the search with a status other than 200, or with an empty record
    list (or another empty JSON value), [get_user_id_from_okta_sub] returns
    [None] and does not raise.  The records are not looked into: answered
    200 with a non-empty list whose first record is a JSON object, it
    returns the [user_id] of that record, whatever the subject asked for and
    whatever the record is linked to. *)
Theorem get_user_id_from_okta_sub_unknown
  (settings : Settings) (okta_sub : string)
  (w w1 : world) (token : value) (r : Response) :
  get_management_token settings w = (inr token, w1) ->
  upstream w1 (calls w1) = Answer r ->
  (status_code r <> 200%Z
   \/ (exists users, content r = Some users /\ truthy users = false) ->
   fst (get_user_id_from_okta_sub settings okta_sub w) = inr VNone)
  /\
  (status_code r = 200%Z ->
   forall user others,
     content r = Some (VList (VDict user :: others)) ->
     fst (get_user_id_from_okta_sub settings okta_sub w)
     = inr (item "user_id" user)).
Proof.
  intros G U.
  assert (R : exists w2,
            fst (get_user_id_from_okta_sub settings okta_sub w)
            = fst ((if negb (status_code r =? 200)%Z
                    then ret VNone
                    else
                      users <- json r ;;
                      nonzero <- (if truthy users
                                  then n <- lift (len users) ;;
                                       ret (0 <? n)%nat
                                  else ret false) ;;
                      if nonzero
                      then
                        user <- lift (first users) ;;
                        lift (get user "user_id")
                      else ret VNone) w2)).
  { unfold get_user_id_from_okta_sub. unfold bind at 1. rewrite G.
    unfold bind at 1.
    match goal with |- context [send ?rq w1] =>
      destruct (send_answer rq w1 r U) as (w2 & -> & _) end.
    exists w2. reflexivity. }
  destruct R as (w2 & ->). split.
  - intros H.
    destruct (status_code r =? 200)%Z eqn:S; [|reflexivity].
    destruct H as [H|(users & C & T)].
    + apply Z.eqb_eq in S. contradiction.
    + cbn [negb]. unfold json. rewrite C, bind_ret, T, bind_ret.
      reflexivity.
  - intros S user others C. apply Z.eqb_eq in S. rewrite S.
    cbn [negb]. unfold json. rewrite C, bind_ret. cbn [truthy].
    unfold bind, lift, ret. cbn [len length Nat.ltb Nat.leb first fst].
    rewrite get_dict. reflexivity.
Qed.

Lemma get_user_id_from_okta_sub_unknown_witness :
  fst (get_user_id_from_okta_sub Sample.settings "00u-user-42"
         (Sample.after_grant Sample.users_answer))
  = inr VNone.
Proof.
  refine (proj1
    (get_user_id_from_okta_sub_unknown Sample.settings "00u-user-42"
       (Sample.after_grant Sample.users_answer)
       (snd (get_management_token Sample.settings
               (Sample.after_grant Sample.users_answer)))
       (VStr "mgmt-1")
       {| status_code := 200; content := Some (VList []) |}
       _ _) _).
  - reflexivity.
  - reflexivity.
  - right. exists (VList []). split; reflexivity.
Defined.

(** C8 fails on a search answer that lists a record linked to another
    subject than the one asked for: the record holds no identity of
    [00u-user-42], and its [user_id] is returned, not [None]. *)
Lemma get_user_id_from_okta_sub_returns_a_stranger :
  upstream (Sample.after_grant Sample.stranger) 1%nat
  = Answer {| status_code := 200;
              content := Some (VList
                [ VDict [ ("user_id", VStr "auth0|7");
                          ("identities",
                           VList [ VDict
                             [ ("provider", VStr "okta");
                               ("user_id", VStr "00u-someone-else") ] ]) ] ])
           |}
  /\ fst (get_user_id_from_okta_sub Sample.settings "00u-user-42"
            (Sample.after_grant Sample.stranger))
     = inr (VStr "auth0|7").
Proof. split; reflexivity. Qed.







(** *** The scope gate *)

(** C10.  [InventoryTools()] and [InventoryTools([])] both hold the three
    inventory scopes.  On such an instance [_has_scope] is true of each of
    the three, and a tool of the class, whatever its body and arguments,
    runs as it would with no required scope: the gate never answers
    "Access denied". *)
Theorem InventoryTools_default_scopes_open :
  Inventory.InventoryTools__init__ None
  = {| Inventory.user_scopes :=
         ["inventory:read"; "inventory:write"; "inventory:alert"] |}
  /\ Inventory.InventoryTools__init__ (Some [])
     = Inventory.InventoryTools__init__ None
  /\ (forall scope,
        In scope ["inventory:read"; "inventory:write"; "inventory:alert"] ->
        Inventory._has_scope (Inventory.InventoryTools__init__ None) scope
        = true)
  /\ (forall (t : Inventory.tool) (_execute : M value)
             (kwargs : list (string * value)) (w : world),
        Inventory.invoke (Inventory.InventoryTools__init__ None) t
          _execute kwargs w
        = Inventory._execute_tool (Inventory.InventoryTools__init__ None)
            (Inventory.tool_name t) _execute None kwargs w
        /\ forall c w',
             Inventory.invoke (Inventory.InventoryTools__init__ None) t
               _execute kwargs w = (inr c, w') ->
             Inventory.denied_by_gate c = false).
Proof.
  split; [reflexivity|]. split; [reflexivity|]. split.
  - intros scope H. simpl in H.
    destruct H as [<-|[<-|[<-|[]]]]; reflexivity.
  - intros t _execute kwargs w.
    assert (E : Inventory.invoke (Inventory.InventoryTools__init__ None) t
                  _execute kwargs w
                = Inventory._execute_tool
                    (Inventory.InventoryTools__init__ None)
                    (Inventory.tool_name t) _execute None kwargs w)
      by (destruct t; reflexivity).
    split; [exact E|].
    intros c w' R. rewrite E in R.
    unfold Inventory._execute_tool, bind, try_except, time_time, ret in R.
    simpl in R.
    destruct (_execute _) as [[e|v] w2]; simpl in R;
      injection R as <- _; reflexivity.
Qed.

Lemma InventoryTools_default_scopes_open_witness :
  Inventory._has_scope (Inventory.InventoryTools__init__ None)
    "inventory:write" = true
  /\ Inventory.denied_by_gate
       {| Inventory.tc_id :=
            [Chars "inv-"; Chars "update_stock"; Chars "-";
             Hole (VNum (inject_Z 1000250))];
          Inventory.tc_name := "inventory.update_stock";
          Inventory.tc_status := Inventory.ERROR;
          Inventory.tc_arguments := [];
          Inventory.tc_result := VNone;
          Inventory.tc_duration := 0;
          Inventory.tc_error := Some (Inventory.Str KeyError) |} = false.
Proof.
  split.
  - exact (proj1 (proj2 (proj2 InventoryTools_default_scopes_open))
             "inventory:write" (or_intror (or_introl eq_refl))).
  - refine (proj2 (proj2 (proj2 (proj2 InventoryTools_default_scopes_open))
                     Inventory.update_stock (raise KeyError) []
                     (Sample.world_of NoAnswer))
              _ (snd (Inventory.invoke
                        (Inventory.InventoryTools__init__ None)
                        Inventory.update_stock (raise KeyError) []
                        (Sample.world_of NoAnswer))) _).
    reflexivity.
Defined.

(* ================================================================== *)
(** ** Further properties of [okta_auth.py] *)

(** X1.  A call of [get_jwks] that misses and is answered 2xx with a
    non-empty JSON body stores the body together with the clock reading
    taken at the start of the call, after one request.  While the process
    holds that cache, a call reading the clock less than the TTL after that
    reading returns the stored body and sends nothing. *)
Theorem get_jwks_refresh_then_hit
  (settings : Settings) (w : world) (r : Response) (keys : value) :
  truthy (_jwks_cache (okta_auth w))
  && Qltb (clock w (clock_reads w) - _jwks_cache_time (okta_auth w))
          (_cache_ttl (okta_auth w)) = false ->
  upstream w (calls w) = Answer r ->
  (200 <= status_code r <= 299)%Z ->
  content r = Some keys ->
  truthy keys = true ->
  exists w1,
    get_jwks settings w = (inr keys, w1)
    /\ okta_auth w1
       = {| _jwks_cache := keys;
            _jwks_cache_time := clock w (clock_reads w);
            _cache_ttl := _cache_ttl (okta_auth w) |}
    /\ sent w1 = jwks_request settings :: sent w
    /\ forall w2,
         okta_auth w2 = okta_auth w1 ->
         (clock w2 (clock_reads w2) - clock w (clock_reads w)
          < _cache_ttl (okta_auth w))%Q ->
         fst (get_jwks settings w2) = inr keys
         /\ sent (snd (get_jwks settings w2)) = sent w2.
Proof.
  intros Miss U S C T.
  pose proof (get_jwks_fetch settings w Miss) as F. cbv zeta in F.
  rewrite U, C in F.
  replace ((200 <=? status_code r)%Z && (status_code r <=? 299)%Z)
    with true in F
    by (symmetry; apply andb_true_iff; split; apply Z.leb_le; lia).
  eexists. split; [exact F|]. split; [reflexivity|].
  split; [exact (proj1 (send_frame (jwks_request settings)
                          (snd (time_time w))))|].
  intros w2 O L. rewrite get_jwks_hit.
  - rewrite O. simpl. auto.
  - rewrite O. simpl. rewrite T. simpl. apply Qltb_lt. exact L.
Qed.

Lemma get_jwks_refresh_then_hit_witness :
  exists w1,
    get_jwks Sample.settings (Sample.world_of Sample.jwks_answer1)
    = (inr Sample.jwks, w1)
    /\ fst (get_jwks Sample.settings w1) = inr Sample.jwks
    /\ calls (snd (get_jwks Sample.settings w1)) = 1%nat.
Proof.
  destruct (get_jwks_refresh_then_hit Sample.settings
              (Sample.world_of Sample.jwks_answer1)
              {| status_code := 200; content := Some Sample.jwks |}
              Sample.jwks eq_refl eq_refl)
    as (w1 & R & O & S & Later).
  - simpl. lia.
  - reflexivity.
  - reflexivity.
  - exists w1. split; [exact R|].
    assert (C : clock w1 = clock (Sample.world_of Sample.jwks_answer1)
                /\ clock_reads w1 = 1%nat)
      by (injection R as <-; split; reflexivity).
    destruct C as (C & N).
    destruct (Later w1 eq_refl) as (A & B).
    + rewrite C. reflexivity.
    + split; [exact A|]. unfold calls. rewrite B, S. reflexivity.
Defined.

(** X2.  A call of [get_jwks] that misses and is not answered 2xx with a
    JSON body raises and leaves the cache, its time included, as it was. *)
Theorem get_jwks_failure_keeps_cache (settings : Settings) (w : world) :
  truthy (_jwks_cache (okta_auth w))
  && Qltb (clock w (clock_reads w) - _jwks_cache_time (okta_auth w))
          (_cache_ttl (okta_auth w)) = false ->
  match upstream w (calls w) with
  | NoAnswer => True
  | Answer r =>
      (200 <=? status_code r)%Z && (status_code r <=? 299)%Z = false
      \/ content r = None
  end ->
  (exists e, fst (get_jwks settings w) = inl e)
  /\ okta_auth (snd (get_jwks settings w)) = okta_auth w.
Proof.
  intros Miss H.
  pose proof (get_jwks_fetch settings w Miss) as F. cbv zeta in F.
  rewrite F. clear F.
  pose proof (send_frame (jwks_request settings) (snd (time_time w)))
    as (_ & O & _).
  destruct (upstream w (calls w)) as [r|].
  - destruct H as [H|H].
    + rewrite H. simpl. split; [eauto | exact O].
    + rewrite H.
      destruct ((200 <=? status_code r)%Z && (status_code r <=? 299)%Z);
        simpl; (split; [eauto | exact O]).
  - simpl. split; [eauto | exact O].
Qed.

Lemma get_jwks_failure_keeps_cache_witness :
  fst (get_jwks Sample.settings (Sample.stale Sample.bad_gateway))
  = inl (HTTPStatusError 502)
  /\ _jwks_cache
       (okta_auth (snd (get_jwks Sample.settings
                          (Sample.stale Sample.bad_gateway))))
     = Sample.jwks.
Proof.
  destruct (get_jwks_failure_keeps_cache Sample.settings
              (Sample.stale Sample.bad_gateway) eq_refl
              (or_introl eq_refl)) as (_ & O).
  split; [reflexivity|]. rewrite O. reflexivity.
Defined.

Lemma find_key_first
  (kid : value) (pre post : list value) (k : list (string * value)) :
  Forall (other_key kid) pre ->
  eq (item "kid" k) kid = true ->
  find_key (pre ++ VDict k :: post) kid = inr (VDict k).
Proof.
  intros P E.
  induction P as [|key rest (j & -> & N) _ IH]; cbn [find_key app].
  - rewrite get_dict, E. reflexivity.
  - rewrite get_dict, N. exact IH.
Qed.

(** X3.  No [ExpiredSignatureError] and no [InvalidTokenError] leaves
    [validate_id_token]: whatever the library raises of these two kinds, at
    whatever step, the caller sees an [HTTPException] instead. *)
Theorem validate_id_token_no_jwt_error_escapes
  (settings : Settings) (lib : Libraries) (token : string)
  (w : world) (e : exn) :
  fst (validate_id_token settings lib token w) = inl e ->
  match e with
  | ExpiredSignatureError _ | InvalidTokenError _ => False
  | _ => True
  end.
Proof.
  unfold validate_id_token, try_except.
  match goal with |- context [match ?b w with _ => _ end] =>
    destruct (b w) as [[e0|u] w1] end.
  - destruct e0; simpl; intros H; injection H as <-; exact I.
  - simpl. discriminate.
Qed.

Lemma validate_id_token_no_jwt_error_escapes_witness :
  fst (validate_id_token Sample.settings Sample.lib "key-1"
         (Sample.cached Sample.jwks NoAnswer))
  = inl (HTTPException 401
           [Chars "Invalid token: Signature verification failed"]).
Proof.
  pose proof (validate_id_token_no_jwt_error_escapes Sample.settings
                Sample.lib "key-1" (Sample.cached Sample.jwks NoAnswer)
                (HTTPException 401
                   [Chars "Invalid token: Signature verification failed"])
                eq_refl) as H.
  destruct H. reflexivity.
Defined.

(** X4.  A token whose header the library refuses with an
    [InvalidTokenError] is answered 401 ["Invalid token: <message>"] as
    soon as the key set is at hand: the key set is not looked into. *)
Theorem validate_id_token_malformed_header
  (settings : Settings) (lib : Libraries) (token : string)
  (w w1 : world) (jwks : value) (msg : string) :
  get_jwks settings w = (inr jwks, w1) ->
  get_unverified_header lib token = inl (InvalidTokenError msg) ->
  validate_id_token settings lib token w
  = (inl (HTTPException 401 [Chars ("Invalid token: " ++ msg)]), w1).
Proof.
  intros J H. unfold validate_id_token, try_except, bind.
  rewrite J. unfold lift. rewrite H. reflexivity.
Qed.

Lemma validate_id_token_malformed_header_witness :
  fst (validate_id_token Sample.settings Sample.strict_lib "not-a-jwt"
         (Sample.cached (VStr "garbage") NoAnswer))
  = inl (HTTPException 401 [Chars "Invalid token: Not enough segments"]).
Proof.
  exact (f_equal fst
    (validate_id_token_malformed_header Sample.settings Sample.strict_lib
       "not-a-jwt" (Sample.cached (VStr "garbage") NoAnswer)
       (snd (get_jwks Sample.settings
               (Sample.cached (VStr "garbage") NoAnswer)))
       (VStr "garbage") "Not enough segments" eq_refl eq_refl)).
Defined.

(** X5.  When the first key of the key set whose [kid] equals the header's
    loads, the outcome of [validate_id_token] is that of [jwt.decode] with
    that key, the algorithm RS256, the configured client id as audience and
    the configured issuer: an [ExpiredSignatureError] becomes 401
    ["Token has expired"], another [InvalidTokenError] becomes 401
    ["Invalid token: <message>"], and a decoded claim set becomes the
    [UserInfo] of its [sub], [email] (the empty string when absent), [name],
    [given_name], [family_name] and [groups] (the empty list when
    absent). *)
Theorem validate_id_token_decodes_with_first_key
  (settings : Settings) (lib : Libraries) (token : string)
  (w w1 : world) (jwks header : list (string * value))
  (pre post : list value) (k : list (string * value)) (pk : rsa lib) :
  get_jwks settings w = (inr (VDict jwks), w1) ->
  get_unverified_header lib token = inr (VDict header) ->
  get_or (VDict jwks) "keys" (VList [])
  = inr (VList (pre ++ VDict k :: post)) ->
  Forall (other_key (item "kid" header)) pre ->
  eq (item "kid" k) (item "kid" header) = true ->
  k <> [] ->
  from_jwk lib (VDict k) = inr pk ->
  match jwt_decode lib token pk ["RS256"]
          (okta_client_id settings) (okta_issuer_url settings) w1 with
  | (inr (VDict payload), w2) =>
      forall u,
        pydantic lib
          {| sub := item "sub" payload;
             email := match lookup "email" payload with
                      | Some x => x
                      | None => VStr ""
                      end;
             name := item "name" payload;
             given_name := item "given_name" payload;
             family_name := item "family_name" payload;
             groups := match lookup "groups" payload with
                       | Some x => x
                       | None => VList []
                       end |} = inr u ->
        validate_id_token settings lib token w = (inr u, w2)
  | (inl (ExpiredSignatureError _), w2) =>
      validate_id_token settings lib token w
      = (inl (HTTPException 401 [Chars "Token has expired"]), w2)
  | (inl (InvalidTokenError msg), w2) =>
      validate_id_token settings lib token w
      = (inl (HTTPException 401 [Chars ("Invalid token: " ++ msg)]), w2)
  | _ => True
  end.
Proof.
  intros J H K P E N F.
  assert (T : truthy (VDict k) = true)
    by (destruct k; [contradiction|reflexivity]).
  unfold validate_id_token, try_except.
  rewrite (bind_run _ _ _ _ _ J), H, bind_lift, get_dict, bind_lift, K,
    bind_lift.
  cbn [iter].
  rewrite bind_lift, (find_key_first _ _ _ _ P E), bind_lift, T.
  cbn [negb]. rewrite F, bind_lift.
  destruct (jwt_decode lib token pk ["RS256"] (okta_client_id settings)
              (okta_issuer_url settings) w1) as [[e|payload] w2] eqn:D.
  - rewrite (bind_fail _ _ _ _ _ D). destruct e; try exact I; reflexivity.
  - destruct payload; try exact I.
    intros u V. rewrite (bind_run _ _ _ _ _ D).
    rewrite !get_dict, !get_or_dict, !bind_lift.
    unfold lift. rewrite V. reflexivity.
Qed.

Lemma validate_id_token_decodes_with_first_key_witness :
  fst (validate_id_token Sample.settings Sample.strict_lib "key-1.alice"
         (Sample.cached Sample.jwks NoAnswer))
  = inr {| sub := VStr "alice"; email := VStr ""; name := VNone;
           given_name := VNone; family_name := VNone; groups := VList [] |}
  /\ fst (validate_id_token Sample.settings Sample.strict_lib "key-1.expired"
            (Sample.cached Sample.jwks NoAnswer))
     = inl (HTTPException 401 [Chars "Token has expired"]).
Proof.
  split.
  - refine (f_equal fst
      (validate_id_token_decodes_with_first_key Sample.settings
         Sample.strict_lib "key-1.alice"
         (Sample.cached Sample.jwks NoAnswer)
         (snd (get_jwks Sample.settings (Sample.cached Sample.jwks NoAnswer)))
         [("keys", VList [VDict [ ("kty", VStr "RSA");
                                  ("kid", VStr "key-1");
                                  ("use", VStr "sig") ]])]
         [("alg", VStr "RS256"); ("kid", VStr "key-1")]
         [] []
         [ ("kty", VStr "RSA"); ("kid", VStr "key-1"); ("use", VStr "sig") ]
         (VDict [ ("kty", VStr "RSA"); ("kid", VStr "key-1");
                  ("use", VStr "sig") ])
         eq_refl eq_refl eq_refl (Forall_nil _) eq_refl _ eq_refl
         _ eq_refl)).
    discriminate.
  - refine (f_equal fst
      (validate_id_token_decodes_with_first_key Sample.settings
         Sample.strict_lib "key-1.expired"
         (Sample.cached Sample.jwks NoAnswer)
         (snd (get_jwks Sample.settings (Sample.cached Sample.jwks NoAnswer)))
         [("keys", VList [VDict [ ("kty", VStr "RSA");
                                  ("kid", VStr "key-1");
                                  ("use", VStr "sig") ]])]
         [("alg", VStr "RS256"); ("kid", VStr "key-1")]
         [] []
         [ ("kty", VStr "RSA"); ("kid", VStr "key-1"); ("use", VStr "sig") ]
         (VDict [ ("kty", VStr "RSA"); ("kid", VStr "key-1");
                  ("use", VStr "sig") ])
         eq_refl eq_refl eq_refl (Forall_nil _) eq_refl _ eq_refl)).
    discriminate.
Defined.

(** What [get_jwks] can raise. *)
Lemma get_jwks_raises (settings : Settings) (w w1 : world) (e : exn) :
  get_jwks settings w = (inl e, w1) ->
  e = TransportError \/ e = JSONDecodeError
  \/ exists s, e = HTTPStatusError s.
Proof.
  destruct (truthy (_jwks_cache (okta_auth w))
            && Qltb (clock w (clock_reads w) - _jwks_cache_time (okta_auth w))
                 (_cache_ttl (okta_auth w))) eqn:C.
  - rewrite (get_jwks_hit _ _ C). discriminate.
  - pose proof (get_jwks_fetch settings w C) as F. cbv zeta in F.
    rewrite F. clear F.
    destruct (upstream w (calls w)) as [r|].
    + destruct ((200 <=? status_code r)%Z && (status_code r <=? 299)%Z).
      * destruct (content r); intros H; [discriminate|].
        injection H as <- _. auto.
      * intros H. injection H as <- _. eauto.
    + intros H. injection H as <- _. auto.
Qed.

(** X6.  When the key set cannot be had, [validate_id_token] raises what
    [get_jwks] raised, unchanged: a transport failure, an HTTP status error
    or a JSON decoding error, not a 401. *)
Theorem validate_id_token_key_outage
  (settings : Settings) (lib : Libraries) (token : string)
  (w w1 : world) (e : exn) :
  get_jwks settings w = (inl e, w1) ->
  validate_id_token settings lib token w = (inl e, w1)
  /\ (e = TransportError \/ e = JSONDecodeError
      \/ exists s, e = HTTPStatusError s).
Proof.
  intros J. pose proof (get_jwks_raises _ _ _ _ J) as K. split; [|exact K].
  unfold validate_id_token, try_except, bind. rewrite J.
  destruct K as [->|[->|(s & ->)]]; reflexivity.
Qed.

Lemma validate_id_token_key_outage_witness :
  fst (validate_id_token Sample.settings Sample.lib "key-1"
         (Sample.world_of NoAnswer))
  = inl TransportError.
Proof.
  exact (f_equal fst (proj1
    (validate_id_token_key_outage Sample.settings Sample.lib "key-1"
       (Sample.world_of NoAnswer)
       (snd (get_jwks Sample.settings (Sample.world_of NoAnswer)))
       TransportError eq_refl))).
Defined.

(** Where the two exchanges leave the world: as minting and one request
    left it. *)
Lemma exchange_for_id_jag_world
  (settings : Settings) (lib : Libraries) (id_token : string)
  (w w1 : world) (assertion : string) :
  generate_wlp_assertion settings lib None w = (inr assertion, w1) ->
  snd (exchange_for_id_jag settings lib id_token w)
  = snd (send (id_jag_request settings id_token assertion) w1).
Proof.
  intros G. unfold exchange_for_id_jag. rewrite (bind_run _ _ _ _ _ G).
  fold (id_jag_request settings id_token assertion).
  unfold bind.
  destruct (send (id_jag_request settings id_token assertion) w1)
    as [[e|r] w2]; [reflexivity|].
  unfold json, lift, ret, raise.
  destruct (negb (status_code r =? 200)%Z);
    destruct (content r) as [[| | | | |d]|]; try reflexivity;
    rewrite ?get_dict, ?get_or_dict; reflexivity.
Qed.

Lemma exchange_id_jag_for_token_world
  (settings : Settings) (lib : Libraries)
  (id_jag : value) (auth_server_id : string) (scopes : list string)
  (w w1 : world) (assertion : string) :
  generate_wlp_assertion settings lib
    (Some (custom_token_endpoint settings auth_server_id)) w
  = (inr assertion, w1) ->
  snd (exchange_id_jag_for_token settings lib id_jag auth_server_id scopes w)
  = snd (send (scoped_token_request settings id_jag auth_server_id scopes
                 assertion) w1).
Proof.
  intros G. unfold exchange_id_jag_for_token.
  rewrite (bind_run _ _ _ _ _ G).
  fold (scoped_token_request settings id_jag auth_server_id scopes assertion).
  unfold bind.
  destruct (send (scoped_token_request settings id_jag auth_server_id scopes
                    assertion) w1)
    as [[e|r] w2]; [reflexivity|].
  unfold json, lift, ret, raise.
  destruct (negb (status_code r =? 200)%Z);
    destruct (content r) as [[| | | | |d]|]; try reflexivity;
    rewrite ?get_dict, ?get_or_dict; reflexivity.
Qed.

(** X7.  With a workload key configured, each of the two exchanges signs
    one claim set and, when signing succeeds, sends exactly one request:
    a POST to the token endpoint that is also the [aud] of the assertion it
    carries (the org endpoint for [exchange_for_id_jag], the custom server's
    for [exchange_id_jag_for_token]), whatever the answer.  When signing
    fails, the error is raised and nothing is sent. *)
Theorem exchanges_post_to_assertion_audience
  (settings : Settings) (lib : Libraries) (w : world)
  (id_token : string)
  (id_jag : value) (auth_server_id : string) (scopes : list string) :
  wlp_private_key settings <> "" ->
  let org := claims_in settings w None in
  let custom :=
    claims_in settings w
      (Some (custom_token_endpoint settings auth_server_id)) in
  match rs256 settings lib org with
  | inr assertion =>
      sent (snd (exchange_for_id_jag settings lib id_token w))
      = id_jag_request settings id_token assertion :: sent w
      /\ get org "aud"
         = inr (VStr (url (id_jag_request settings id_token assertion)))
  | inl e =>
      fst (exchange_for_id_jag settings lib id_token w) = inl e
      /\ sent (snd (exchange_for_id_jag settings lib id_token w)) = sent w
  end
  /\
  match rs256 settings lib custom with
  | inr assertion =>
      sent (snd (exchange_id_jag_for_token settings lib id_jag
                   auth_server_id scopes w))
      = scoped_token_request settings id_jag auth_server_id scopes assertion
        :: sent w
      /\ get custom "aud"
         = inr (VStr (url (scoped_token_request settings id_jag
                             auth_server_id scopes assertion)))
  | inl e =>
      fst (exchange_id_jag_for_token settings lib id_jag auth_server_id
             scopes w) = inl e
      /\ sent (snd (exchange_id_jag_for_token settings lib id_jag
                      auth_server_id scopes w)) = sent w
  end.
Proof.
  intros K org custom.
  assert (N : nonempty (wlp_private_key settings) = true)
    by (unfold nonempty; apply negb_true_iff, String.eqb_neq; exact K).
  split.
  - destruct (generate_wlp_assertion_run settings lib None w N) as (R & _).
    pose proof (generate_wlp_assertion_frame settings lib None w)
      as (_ & S & _).
    destruct (generate_wlp_assertion settings lib None w) as [[e|a] w1] eqn:G.
    + simpl in R, S. fold org in R. rewrite <- R. split.
      * unfold exchange_for_id_jag. rewrite (bind_fail _ _ _ _ _ G).
        reflexivity.
      * unfold exchange_for_id_jag. rewrite (bind_fail _ _ _ _ _ G).
        exact S.
    + simpl in R, S. fold org in R. rewrite <- R. split.
      * rewrite (exchange_for_id_jag_world _ _ _ _ _ _ G).
        rewrite (proj1 (send_frame _ w1)), S. reflexivity.
      * reflexivity.
  - destruct (generate_wlp_assertion_run settings lib
                (Some (custom_token_endpoint settings auth_server_id)) w N)
      as (R & _).
    pose proof (generate_wlp_assertion_frame settings lib
                  (Some (custom_token_endpoint settings auth_server_id)) w)
      as (_ & S & _).
    destruct (generate_wlp_assertion settings lib
                (Some (custom_token_endpoint settings auth_server_id)) w)
      as [[e|a] w1] eqn:G.
    + simpl in R, S. fold custom in R. rewrite <- R. split.
      * unfold exchange_id_jag_for_token. rewrite (bind_fail _ _ _ _ _ G).
        reflexivity.
      * unfold exchange_id_jag_for_token. rewrite (bind_fail _ _ _ _ _ G).
        exact S.
    + simpl in R, S. fold custom in R. rewrite <- R. split.
      * rewrite (exchange_id_jag_for_token_world _ _ _ _ _ _ _ _ G).
        rewrite (proj1 (send_frame _ w1)), S. reflexivity.
      * reflexivity.
Qed.

Lemma exchanges_post_to_assertion_audience_witness :
  sent (snd (exchange_for_id_jag Sample.settings Sample.lib "id-token"
               (Sample.world_of Sample.bad_gateway)))
  = [id_jag_request Sample.settings "id-token" "jwt:"]
  /\ sent (snd (exchange_id_jag_for_token Sample.settings Sample.lib
                  VNone "inv-as-1" ["inventory:read"; "inventory:write"]
                  (Sample.world_of NoAnswer)))
     = [scoped_token_request Sample.settings VNone "inv-as-1"
          ["inventory:read"; "inventory:write"] "jwt:"].
Proof.
  assert (K : wlp_private_key Sample.settings <> "") by discriminate.
  split.
  - exact (proj1 (proj1
      (exchanges_post_to_assertion_audience Sample.settings Sample.lib
         (Sample.world_of Sample.bad_gateway) "id-token"
         VNone "inv-as-1" [] K))).
  - exact (proj1 (proj2
      (exchanges_post_to_assertion_audience Sample.settings Sample.lib
         (Sample.world_of NoAnswer) "id-token"
         VNone "inv-as-1" ["inventory:read"; "inventory:write"] K))).
Defined.

(* ================================================================== *)
(** ** Further properties of [token_vault.py] *)

(** A call of [get_management_token] that does not answer from the cache:
    the token request goes out and the rest of the call runs on its
    answer. *)
Lemma get_management_token_miss (settings : Settings) (w : world) :
  truthy (_management_token (token_vault w)) = false
  \/ (_token_expiry (token_vault w) <= clock w (clock_reads w))%Q ->
  exists w0,
    token_vault w0 = token_vault w /\ sent w0 = sent w
    /\ upstream w0 = upstream w /\ clock w0 = clock w
    /\ (clock_reads w <= clock_reads w0)%nat
    /\ get_management_token settings w
       = (response <- send (management_token_request settings) ;;
          if negb (status_code response =? 200)%Z
          then raise (HTTPException 500
                        [Chars "Failed to get Auth0 management token"])
          else
            data <- json response ;;
            access_token <- lift (subscript data "access_token") ;;
            set_management_token access_token ;;;
            now <- time_time ;;
            expires_in <- lift (get_or data "expires_in" (VNum 86400)) ;;
            expires_in <- lift (number expires_in) ;;
            set_token_expiry (now + expires_in - 60) ;;;
            self <- self_vault ;;
            ret (_management_token self)) w0.
Proof.
  intros H. unfold get_management_token at 1.
  unfold bind at 1. unfold self_vault at 1.
  destruct (truthy (_management_token (token_vault w))) eqn:T.
  - destruct H as [H|H]; [discriminate|]. apply Qltb_ge in H.
    exists (snd (time_time w)).
    repeat split; try (simpl; lia).
    unfold bind at 1. unfold bind at 1. unfold time_time at 1.
    unfold ret at 1. cbn [fst snd]. rewrite H. reflexivity.
  - exists w. repeat split; try lia. 
Qed.

(** X8.  When [get_management_token] does not answer from the cache and
    the token endpoint answers with a status other than 200, the call
    raises the 500 [HTTPException] without reading the body; when the
    answer is a 200 whose JSON object has no [access_token], it raises
    [KeyError].  Either way the cached token and expiry stay as they
    were. *)
Theorem get_management_token_refused
  (settings : Settings) (w : world) (r : Response) :
  truthy (_management_token (token_vault w)) = false
  \/ (_token_expiry (token_vault w) <= clock w (clock_reads w))%Q ->
  upstream w (calls w) = Answer r ->
  (status_code r <> 200%Z ->
   exists w',
     get_management_token settings w
     = (inl (HTTPException 500
               [Chars "Failed to get Auth0 management token"]), w')
     /\ token_vault w' = token_vault w)
  /\
  (status_code r = 200%Z ->
   forall d, content r = Some (VDict d) ->
   lookup "access_token" d = None ->
   exists w',
     get_management_token settings w = (inl KeyError, w')
     /\ token_vault w' = token_vault w).
Proof.
  intros H U.
  destruct (get_management_token_miss settings w H)
    as (w0 & V & S & Up & _ & _ & ->).
  assert (U0 : upstream w0 (calls w0) = Answer r)
    by (unfold calls; rewrite Up, S; exact U).
  destruct (send_answer (management_token_request settings) w0 r U0)
    as (w1 & Sd & _ & _ & V1 & _).
  rewrite (bind_run _ _ _ _ _ Sd). split.
  - intros N. apply Z.eqb_neq in N. rewrite N. cbn [negb].
    eexists. split; [reflexivity|]. congruence.
  - intros N d C A. apply Z.eqb_eq in N. rewrite N. cbn [negb].
    unfold json. rewrite C, bind_ret. unfold subscript. rewrite A.
    eexists. split; [reflexivity|]. congruence.
Qed.

Lemma get_management_token_refused_witness :
  fst (get_management_token Sample.settings
         (Sample.world_of Sample.bad_gateway))
  = inl (HTTPException 500 [Chars "Failed to get Auth0 management token"])
  /\ fst (get_management_token Sample.settings
            (Sample.world_of Sample.jwks_answer))
     = inl KeyError.
Proof.
  split.
  - destruct (proj1
      (get_management_token_refused Sample.settings
         (Sample.world_of Sample.bad_gateway)
         {| status_code := 502; content := None |}
         (or_introl eq_refl) eq_refl)) as (w' & R & _).
    + simpl. discriminate.
    + rewrite R. reflexivity.
  - destruct (proj2
      (get_management_token_refused Sample.settings
         (Sample.world_of Sample.jwks_answer)
         {| status_code := 200;
            content := Some (VDict [("keys", VList [])]) |}
         (or_introl eq_refl) eq_refl)
      eq_refl [("keys", VList [])] eq_refl eq_refl) as (w' & R & _).
    rewrite R. reflexivity.
Defined.

(** X9.  When the token endpoint answers 200 with an [access_token] and an
    [expires_in] that is not a number, [get_management_token] raises
    [TypeError] after it has stored the new token: the cache then holds the
    new token together with the expiry it had before. *)
Theorem get_management_token_bad_expires_in
  (settings : Settings) (w : world) (r : Response)
  (d : list (string * value)) (token expires_in : value) :
  truthy (_management_token (token_vault w)) = false
  \/ (_token_expiry (token_vault w) <= clock w (clock_reads w))%Q ->
  upstream w (calls w) = Answer r ->
  status_code r = 200%Z ->
  content r = Some (VDict d) ->
  lookup "access_token" d = Some token ->
  lookup "expires_in" d = Some expires_in ->
  is_number expires_in = None ->
  exists w',
    get_management_token settings w = (inl TypeError, w')
    /\ token_vault w'
       = {| _management_token := token;
            _token_expiry := _token_expiry (token_vault w) |}.
Proof.
  intros H U N C A E X.
  destruct (get_management_token_miss settings w H)
    as (w0 & V & S & Up & _ & _ & ->).
  assert (U0 : upstream w0 (calls w0) = Answer r)
    by (unfold calls; rewrite Up, S; exact U).
  destruct (send_answer (management_token_request settings) w0 r U0)
    as (w1 & Sd & _ & _ & V1 & _).
  rewrite (bind_run _ _ _ _ _ Sd).
  apply Z.eqb_eq in N. rewrite N. cbn [negb].
  unfold json. rewrite C, bind_ret. unfold subscript. rewrite A, bind_lift.
  unfold bind, set_management_token, time_time, lift, get_or, number.
  cbn [fst snd]. rewrite E, X.
  eexists. split; [reflexivity|]. simpl. rewrite V1, V. reflexivity.
Qed.

Lemma get_management_token_bad_expires_in_witness :
  exists w',
    get_management_token Sample.settings (Sample.world_of Sample.grant_text)
    = (inl TypeError, w')
    /\ token_vault w'
       = {| _management_token := VStr "mgmt-1"; _token_expiry := 0 |}.
Proof.
  exact (get_management_token_bad_expires_in Sample.settings
           (Sample.world_of Sample.grant_text)
           {| status_code := 200;
              content := Some (VDict [ ("access_token", VStr "mgmt-1");
                                       ("expires_in", VStr "86400") ]) |}
           [ ("access_token", VStr "mgmt-1"); ("expires_in", VStr "86400") ]
           (VStr "mgmt-1") (VStr "86400")
           (or_introl eq_refl) eq_refl eq_refl eq_refl eq_refl eq_refl
           eq_refl).
Defined.

(** X10.  [exchange_okta_token_for_vault] sends exactly one request, the
    token exchange with the client secret, and touches neither cache.  With
    no answer it raises the transport error; with a JSON object as body it
    returns [{success: False, error, error_description}] on a status other
    than 200 and [{success: True, access_token, token_type, expires_in}] on
    200 ([token_type] is ["Bearer"] when absent; there is no [scope] field);
    with any other body it raises. *)
Theorem exchange_okta_token_for_vault_outcomes
  (settings : Settings) (id_jag : value) (w : world) :
  let out := exchange_okta_token_for_vault settings id_jag w in
  sent (snd out) = vault_exchange_request settings id_jag :: sent w
  /\ okta_auth (snd out) = okta_auth w
  /\ token_vault (snd out) = token_vault w
  /\ fst out
     = match upstream w (calls w) with
       | NoAnswer => inl TransportError
       | Answer r =>
           match content r with
           | Some (VDict d) =>
               if negb (status_code r =? 200)%Z
               then inr (VDict
                           [ ("success", VBool false);
                             ("error", item "error" d);
                             ("error_description",
                              item "error_description" d) ])
               else inr (VDict
                           [ ("success", VBool true);
                             ("access_token", item "access_token" d);
                             ("token_type",
                              match lookup "token_type" d with
                              | Some x => x
                              | None => VStr "Bearer"
                              end);
                             ("expires_in", item "expires_in" d) ])
           | Some _ => inl AttributeError
           | None => inl JSONDecodeError
           end
       end.
Proof.
  intros out. unfold out, exchange_okta_token_for_vault.
  fold (vault_exchange_request settings id_jag).
  pose proof (send_frame (vault_exchange_request settings id_jag) w)
    as (S & O & V & _).
  unfold bind.
  assert (R : fst (send (vault_exchange_request settings id_jag) w)
              = match upstream w (calls w) with
                | NoAnswer => inl TransportError
                | Answer r => inr r
                end)
    by (unfold send; destruct (upstream w (calls w)); reflexivity).
  destruct (send (vault_exchange_request settings id_jag) w) as [[e|r] w1].
  - simpl in *. destruct (upstream w (calls w)); [discriminate|].
    injection R as ->. auto.
  - simpl in S, O, V, R.
    destruct (upstream w (calls w)) as [r'|]; [|discriminate].
    injection R as ->.
    unfold json, lift, ret, raise.
    destruct (negb (status_code r' =? 200)%Z);
      destruct (content r') as [[| | | | |d]|];
      rewrite ?get_dict, ?get_or_dict; simpl; auto.
Qed.

(** What [get_salesforce_token] can return. *)
Lemma get_salesforce_token_returns
  (settings : Settings) (auth0_user_id : string) (vault_token : option string)
  (w w' : world) (v : value) :
  get_salesforce_token settings auth0_user_id vault_token w = (inr v, w') ->
  v = user_not_found \/ v = salesforce_not_connected \/ v = no_token
  \/ exists access_token refresh_token,
       truthy access_token = true
       /\ v = VDict [ ("success", VBool true);
                      ("access_token", access_token);
                      ("refresh_token", refresh_token);
                      ("instance_url",
                       VStr (salesforce_instance_url settings)) ].
Proof.
  unfold get_salesforce_token. unfold bind at 1.
  destruct (vault_token_or_management settings vault_token w)
    as [[e|token] w1]; [discriminate|].
  unfold bind at 1.
  destruct (send _ w1) as [[e|r] w2]; [discriminate|].
  destruct (negb (status_code r =? 200)%Z).
  { intros H. injection H as <- _. auto. }
  unfold bind at 1. unfold json.
  destruct (content r) as [user_data|]; [|discriminate].
  unfold ret at 1. unfold bind at 1. unfold lift at 1.
  destruct (get_or user_data "identities" (VList [])) as [e|ids];
    [discriminate|].
  unfold bind at 1. unfold lift at 1.
  destruct (iter ids) as [e|l]; [discriminate|].
  unfold bind at 1. unfold lift at 1.
  destruct (find_identity settings l) as [e|identity]; [discriminate|].
  destruct (negb (truthy identity)).
  { intros H. injection H as <- _. auto. }
  unfold bind at 1. unfold lift at 1.
  destruct (get identity "access_token") as [e|a]; [discriminate|].
  unfold bind at 1. unfold lift at 1.
  destruct (get identity "refresh_token") as [e|rt]; [discriminate|].
  destruct (truthy a) eqn:T; simpl.
  - intros H. injection H as <- _. right. right. right. eauto.
  - intros H. injection H as <- _. auto.
Qed.

(** X11.  [check_salesforce_connection] looks the token up with the
    management token and answers [True] exactly when the lookup returned a
    token, [False] on each of the three denials; it raises exactly what the
    lookup raises. *)
Theorem check_salesforce_connection_boolean
  (settings : Settings) (auth0_user_id : string) (w : world) :
  match get_salesforce_token settings auth0_user_id None w with
  | (inr v, w') =>
      ((v = user_not_found \/ v = salesforce_not_connected \/ v = no_token)
       /\ check_salesforce_connection settings auth0_user_id w
          = (inr (VBool false), w'))
      \/
      ((exists access_token refresh_token,
          truthy access_token = true
          /\ v = VDict [ ("success", VBool true);
                         ("access_token", access_token);
                         ("refresh_token", refresh_token);
                         ("instance_url",
                          VStr (salesforce_instance_url settings)) ])
       /\ check_salesforce_connection settings auth0_user_id w
          = (inr (VBool true), w'))
  | (inl e, w') =>
      check_salesforce_connection settings auth0_user_id w = (inl e, w')
  end.
Proof.
  unfold check_salesforce_connection.
  destruct (get_salesforce_token settings auth0_user_id None w)
    as [[e|v] w'] eqn:G.
  - rewrite (bind_fail _ _ _ _ _ G). reflexivity.
  - rewrite (bind_run _ _ _ _ _ G).
    destruct (get_salesforce_token_returns _ _ _ _ _ _ G)
      as [->|[->|[->|(a & rt & T & ->)]]];
      [left; split; [auto|reflexivity] ..|].
    right. split; [eauto|reflexivity].
Qed.

(** Where [get_salesforce_token] leaves the world: as the credential
    step and one request left it. *)
Lemma get_salesforce_token_world
  (settings : Settings) (auth0_user_id : string) (vault_token : option string)
  (w w1 : world) (token : value) :
  vault_token_or_management settings vault_token w = (inr token, w1) ->
  snd (get_salesforce_token settings auth0_user_id vault_token w)
  = snd (send (user_request settings auth0_user_id token) w1).
Proof.
  intros G. unfold get_salesforce_token. rewrite (bind_run _ _ _ _ _ G).
  fold (user_request settings auth0_user_id token).
  unfold bind at 1.
  destruct (send (user_request settings auth0_user_id token) w1)
    as [[e|r] w2]; [reflexivity|].
  destruct (negb (status_code r =? 200)%Z); [reflexivity|].
  unfold json. destruct (content r) as [user_data|]; [|reflexivity].
  rewrite bind_ret.
  destruct (get_or user_data "identities" (VList [])) as [e|ids];
    [reflexivity|]. rewrite bind_lift.
  destruct (iter ids) as [e|l]; [reflexivity|]. rewrite bind_lift.
  destruct (find_identity settings l) as [e|identity]; [reflexivity|].
  rewrite bind_lift.
  destruct (negb (truthy identity)); [reflexivity|].
  destruct (get identity "access_token") as [e|a]; [reflexivity|].
  rewrite bind_lift.
  destruct (get identity "refresh_token") as [e|rt]; [reflexivity|].
  rewrite bind_lift.
  destruct (negb (truthy a)); reflexivity.
Qed.

(** X12.  Given a non-empty vault token, [get_salesforce_token] sends one
    request, the user lookup with that token as bearer, and neither asks for
    a management token nor touches its cache, whatever the answer. *)
Theorem get_salesforce_token_with_vault_token
  (settings : Settings) (auth0_user_id vault_token : string) (w : world) :
  vault_token <> "" ->
  let out :=
    get_salesforce_token settings auth0_user_id (Some vault_token) w in
  sent (snd out)
  = user_request settings auth0_user_id (VStr vault_token) :: sent w
  /\ token_vault (snd out) = token_vault w.
Proof.
  intros N out. unfold out.
  rewrite (get_salesforce_token_world settings auth0_user_id
             (Some vault_token) w w (VStr vault_token)).
  - pose proof (send_frame (user_request settings auth0_user_id
                              (VStr vault_token)) w) as (S & _ & V & _).
    auto.
  - unfold vault_token_or_management.
    replace (nonempty vault_token) with true; [reflexivity|].
    symmetry. unfold nonempty. apply negb_true_iff, String.eqb_neq. exact N.
Qed.

Lemma get_salesforce_token_with_vault_token_witness :
  calls (snd (get_salesforce_token Sample.settings "auth0|42"
                (Some "vault-token")
                (Sample.world_of Sample.user_answer))) = 1%nat
  /\ token_vault (snd (get_salesforce_token Sample.settings "auth0|42"
                         (Some "vault-token")
                         (Sample.world_of Sample.user_answer)))
     = TokenVault__init__.
Proof.
  assert (N : "vault-token" <> "") by discriminate.
  destruct (get_salesforce_token_with_vault_token Sample.settings
              "auth0|42" "vault-token"
              (Sample.world_of Sample.user_answer) N) as (S & V).
  split.
  - unfold calls. rewrite S. reflexivity.
  - rewrite V. reflexivity.
Defined.

(** X13.  Once the management token is obtained and the vault answers the
    search 200 with a non-empty list of records, [get_user_id_from_okta_sub]
    returns the [user_id] of the first record, whatever follows it, and
    [None] when that record has no such field. *)
Theorem get_user_id_from_okta_sub_first_record
  (settings : Settings) (okta_sub : string)
  (w w1 : world) (token : value) (r : Response)
  (user : list (string * value)) (others : list value) :
  get_management_token settings w = (inr token, w1) ->
  upstream w1 (calls w1) = Answer r ->
  status_code r = 200%Z ->
  content r = Some (VList (VDict user :: others)) ->
  fst (get_user_id_from_okta_sub settings okta_sub w)
  = inr (item "user_id" user).
Proof.
  intros G U S C. apply Z.eqb_eq in S.
  unfold get_user_id_from_okta_sub. rewrite (bind_run _ _ _ _ _ G).
  fold (user_search_request settings okta_sub token).
  destruct (send_answer (user_search_request settings okta_sub token)
              w1 r U) as (w2 & Sd & _).
  rewrite (bind_run _ _ _ _ _ Sd), S. cbn [negb].
  unfold json. rewrite C, bind_ret.
  unfold bind, lift, ret, get, get_or, item. simpl.
  destruct (lookup "user_id" user); reflexivity.
Qed.

Lemma get_user_id_from_okta_sub_first_record_witness :
  fst (get_user_id_from_okta_sub Sample.settings "00u-user-42"
         (Sample.after_grant Sample.users_found))
  = inr (VStr "auth0|42").
Proof.
  exact (get_user_id_from_okta_sub_first_record Sample.settings
           "00u-user-42" (Sample.after_grant Sample.users_found)
           (snd (get_management_token Sample.settings
                   (Sample.after_grant Sample.users_found)))
           (VStr "mgmt-1")
           {| status_code := 200;
              content := Some (VList
                [ VDict [("user_id", VStr "auth0|42")];
                  VDict [("user_id", VStr "auth0|43")] ]) |}
           [("user_id", VStr "auth0|42")]
           [VDict [("user_id", VStr "auth0|43")]]
           eq_refl eq_refl eq_refl eq_refl).
Defined.

(** *** The authorization URL *)

Lemma count_app (c : ascii) (a b : string) :
  Urllib.count c (a ++ b) = (Urllib.count c a + Urllib.count c b)%nat.
Proof.
  induction a as [|x a IH]; simpl; [reflexivity|]. rewrite IH. lia.
Qed.

Lemma all_app (p : ascii -> bool) (a b : string) :
  Urllib.all p (a ++ b) = Urllib.all p a && Urllib.all p b.
Proof.
  induction a as [|x a IH]; simpl; [reflexivity|].
  rewrite IH. apply andb_assoc.
Qed.

Lemma all_count (p : ascii -> bool) (c : ascii) (s : string) :
  Urllib.all p s = true -> p c = false -> Urllib.count c s = 0%nat.
Proof.
  intros A N. induction s as [|x s IH]; simpl in *; [reflexivity|].
  apply andb_true_iff in A. destruct A as (X & A).
  destruct (Ascii.eqb_spec c x) as [->|_]; [congruence|].
  rewrite (IH A). reflexivity.
Qed.

Lemma hex_digit_safe (n : nat) : Urllib.always_safe (Urllib.hex_digit n) = true.
Proof.
  do 16 (destruct n as [|n]; [reflexivity|]). reflexivity.
Qed.

Lemma quote_plus_escaped (s : string) :
  Urllib.all Urllib.escaped_char (Urllib.quote_plus s) = true.
Proof.
  induction s as [|c s IH]; [reflexivity|].
  cbn [Urllib.quote_plus]. rewrite all_app, IH, andb_true_r.
  destruct (Urllib.always_safe c) eqn:S.
  - simpl. unfold Urllib.escaped_char. rewrite S. reflexivity.
  - destruct (Ascii.eqb c " "); [reflexivity|].
    unfold Urllib.percent. cbn [Urllib.all]. unfold Urllib.escaped_char.
    rewrite !hex_digit_safe. reflexivity.
Qed.

Lemma escaped_is_query (s : string) :
  Urllib.all Urllib.escaped_char s = true -> Urllib.all Urllib.query_char s = true.
Proof.
  induction s as [|c s IH]; simpl; [reflexivity|].
  intros H. apply andb_true_iff in H. destruct H as (C & H).
  rewrite (IH H), andb_true_r. unfold Urllib.query_char.
  unfold Urllib.escaped_char in C. rewrite C. reflexivity.
Qed.

(** A query string has one [=] for each parameter and one [&] between two
    parameters, whatever the keys and values are. *)
Lemma urlencode_shape (params : list (string * string)) :
  Urllib.all Urllib.query_char (Urllib.urlencode params) = true
  /\ Urllib.count "=" (Urllib.urlencode params) = length params
  /\ Urllib.count "&" (Urllib.urlencode params) = (length params - 1)%nat.
Proof.
  unfold Urllib.urlencode.
  assert (P : forall kv : string * string,
             let p := (Urllib.quote_plus (fst kv) ++ "="
                       ++ Urllib.quote_plus (snd kv))%string in
             Urllib.all Urllib.query_char p = true
             /\ Urllib.count "=" p = 1%nat /\ Urllib.count "&" p = 0%nat).
  { intros kv p. unfold p.
    pose proof (quote_plus_escaped (fst kv)) as K.
    pose proof (quote_plus_escaped (snd kv)) as V.
    rewrite !all_app, !count_app.
    rewrite (escaped_is_query _ K), (escaped_is_query _ V).
    rewrite (all_count _ "=" _ K), (all_count _ "=" _ V) by reflexivity.
    rewrite (all_count _ "&" _ K), (all_count _ "&" _ V) by reflexivity.
    repeat split. }
  induction params as [|kv params IH]; [repeat split|].
  destruct (P kv) as (A & E & N). cbv zeta in A, E, N.
  destruct params as [|kv' params].
  - cbn [map String.concat]. rewrite A, E, N. repeat split.
  - destruct IH as (A' & E' & N').
    change (String.concat "&" (map ?f (kv :: kv' :: params)))
      with (f kv ++ "&" ++ String.concat "&" (map f (kv' :: params)))%string.
    cbv beta.
    rewrite (all_app _ (_ ++ _ ++ _)%string), !(count_app _ (_ ++ _ ++ _)%string).
    rewrite A, E, N.
    rewrite (all_app _ "&"), !(count_app _ "&"), A', E', N'.
    simpl. repeat split; lia.
Qed.

(** X14.  The URL [get_connection_auth_url] returns is the tenant's
    [/authorize] endpoint followed by a query string of five parameters,
    six when a non-empty [state] is given.  Whatever the connection, the
    redirect URI and the state contain, the query string is made of
    unreserved characters, [+], [%], [=] and [&] only, with one [=] for each
    parameter and one [&] between two of them: no argument can add, split or
    end a parameter. *)
Theorem get_connection_auth_url_query
  (settings : Settings) (connection redirect_uri : string)
  (state : option string) :
  let n := match state with
           | Some s => if String.eqb s "" then 5%nat else 6%nat
           | None => 5%nat
           end in
  exists query,
    get_connection_auth_url settings connection redirect_uri state
    = ("https://" ++ auth0_domain settings ++ "/authorize?" ++ query)%string
    /\ Urllib.all Urllib.query_char query = true
    /\ Urllib.count "=" query = n
    /\ Urllib.count "&" query = (n - 1)%nat.
Proof.
  intros n. eexists. split; [reflexivity|].
  destruct (urlencode_shape
              (auth_url_params settings connection redirect_uri state))
    as (A & E & N).
  assert (L : length (auth_url_params settings connection redirect_uri state)
              = n).
  { unfold auth_url_params, n, nonempty.
    destruct state as [s|]; [destruct (String.eqb s "")|]; reflexivity. }
  rewrite L in E, N. auto.
Qed.

(* ================================================================== *)
(** ** Further properties of [inventory_tools.py] *)

(** X15.  [_execute_tool] never raises.  When no scope is required, or the
    required scope is empty or held, the tool body runs once, after the two
    clock readings for the call id and the start time: a value it returns
    comes back in a COMPLETED call with no error, and an exception it raises
    comes back as the error of an ERROR call with no result.  The call
    carries the tool's name and the arguments either way. *)
Theorem execute_tool_mirrors_body
  (self : Inventory.InventoryTools) (tool_name : string) (func : M value)
  (required_scope : option string) (kwargs : list (string * value))
  (w : world) :
  match required_scope with
  | Some s => s = "" \/ Inventory._has_scope self s = true
  | None => True
  end ->
  match func (snd (time_time (snd (time_time w)))) with
  | (inr v, w3) =>
      exists c,
        Inventory._execute_tool self tool_name func required_scope kwargs w
        = (inr c, snd (time_time w3))
        /\ Inventory.tc_status c = Inventory.COMPLETED
        /\ Inventory.tc_result c = v
        /\ Inventory.tc_error c = None
        /\ Inventory.tc_name c = ("inventory." ++ tool_name)%string
        /\ Inventory.tc_arguments c = kwargs
  | (inl e, w3) =>
      exists c,
        Inventory._execute_tool self tool_name func required_scope kwargs w
        = (inr c, snd (time_time w3))
        /\ Inventory.tc_status c = Inventory.ERROR
        /\ Inventory.tc_result c = VNone
        /\ Inventory.tc_error c = Some (Inventory.Str e)
        /\ Inventory.tc_name c = ("inventory." ++ tool_name)%string
        /\ Inventory.tc_arguments c = kwargs
  end.
Proof.
  intros G.
  assert (D : match required_scope with
              | Some s => nonempty s && negb (Inventory._has_scope self s)
              | None => false
              end = false).
  { destruct required_scope as [s|]; [|reflexivity].
    destruct G as [-> | ->]; [reflexivity|]. apply andb_false_r. }
  assert (R : Inventory._execute_tool self tool_name func required_scope
                kwargs w
              = (try_except
                   (result <- func ;;
                    now <- time_time ;;
                    ret {| Inventory.tc_id :=
                             [Chars "inv-"; Chars tool_name; Chars "-";
                              Hole (VNum (inject_Z
                                            (Inventory.milliseconds
                                               (clock w (clock_reads w)))))];
                           Inventory.tc_name := "inventory." ++ tool_name;
                           Inventory.tc_status := Inventory.COMPLETED;
                           Inventory.tc_arguments := kwargs;
                           Inventory.tc_result := result;
                           Inventory.tc_duration :=
                             Inventory.elapsed now (clock w (S (clock_reads w)));
                           Inventory.tc_error := None |})
                   (fun e =>
                      Some (now <- time_time ;;
                            ret {| Inventory.tc_id :=
                                     [Chars "inv-"; Chars tool_name;
                                      Chars "-";
                                      Hole (VNum (inject_Z
                                                    (Inventory.milliseconds
                                                       (clock w
                                                          (clock_reads w)))))];
                                   Inventory.tc_name :=
                                     "inventory." ++ tool_name;
                                   Inventory.tc_status := Inventory.ERROR;
                                   Inventory.tc_arguments := kwargs;
                                   Inventory.tc_result := VNone;
                                   Inventory.tc_duration :=
                                     Inventory.elapsed now (clock w (S (clock_reads w)));
                                   Inventory.tc_error :=
                                     Some (Inventory.Str e) |})))
                  (snd (time_time (snd (time_time w))))).
  { unfold Inventory._execute_tool.
    unfold bind at 1. unfold time_time at 1. cbn [fst snd].
    unfold bind at 1. unfold time_time at 1. cbn [fst snd].
    rewrite D. reflexivity. }
  rewrite R. clear R. unfold try_except, bind.
  destruct (func _) as [[e|v] w3]; eexists; (split; [reflexivity|]);
    repeat split.
Qed.

Lemma execute_tool_mirrors_body_witness :
  exists c,
    fst (Inventory._execute_tool
           (Inventory.InventoryTools__init__ (Some ["inventory:read"]))
           "check_stock" (raise KeyError) (Some "inventory:read") []
           (Sample.world_of NoAnswer)) = inr c
    /\ Inventory.tc_error c = Some (Inventory.Str KeyError).
Proof.
  destruct (execute_tool_mirrors_body
              (Inventory.InventoryTools__init__ (Some ["inventory:read"]))
              "check_stock" (raise KeyError) (Some "inventory:read") []
              (Sample.world_of NoAnswer) (or_intror eq_refl))
    as (c & R & _ & _ & E & _).
  exists c. rewrite R. split; [reflexivity | exact E].
Defined.

(** The gate shut: the call [_execute_tool] answers with when the scope is
    missing, whatever the tool body. *)
Lemma execute_tool_shut
  (self : Inventory.InventoryTools) (tool_name : string) (func : M value)
  (required_scope : string) (kwargs : list (string * value)) (w : world) :
  required_scope <> "" ->
  Inventory._has_scope self required_scope = false ->
  Inventory._execute_tool self tool_name func (Some required_scope) kwargs w
  = (inr {| Inventory.tc_id :=
              [Chars "inv-"; Chars tool_name; Chars "-";
               Hole (VNum (inject_Z
                             (Inventory.milliseconds
                                (clock w (clock_reads w)))))];
            Inventory.tc_name := "inventory." ++ tool_name;
            Inventory.tc_status := Inventory.ERROR;
            Inventory.tc_arguments := kwargs;
            Inventory.tc_result := VNone;
            Inventory.tc_duration := 0;
            Inventory.tc_error :=
              Some (Inventory.access_denied required_scope) |},
     snd (time_time (snd (time_time w)))).
Proof.
  intros N H.
  unfold Inventory._execute_tool.
  unfold bind at 1. unfold time_time at 1. cbn [fst snd].
  unfold bind at 1. unfold time_time at 1. cbn [fst snd].
  rewrite H.
  replace (nonempty required_scope) with true
    by (symmetry; unfold nonempty; apply negb_true_iff, String.eqb_neq;
        exact N).
  reflexivity.
Qed.

(** The gate open on a call that raises: the exception is reported after a
    third clock reading. *)
Lemma execute_tool_reports
  (self : Inventory.InventoryTools) (tool_name : string) (e : exn)
  (required_scope : string) (kwargs : list (string * value)) (w : world) :
  Inventory._has_scope self required_scope = true ->
  Inventory._execute_tool self tool_name (raise e) (Some required_scope)
    kwargs w
  = (inr {| Inventory.tc_id :=
              [Chars "inv-"; Chars tool_name; Chars "-";
               Hole (VNum (inject_Z
                             (Inventory.milliseconds
                                (clock w (clock_reads w)))))];
            Inventory.tc_name := "inventory." ++ tool_name;
            Inventory.tc_status := Inventory.ERROR;
            Inventory.tc_arguments := kwargs;
            Inventory.tc_result := VNone;
            Inventory.tc_duration :=
              Inventory.elapsed (clock w (S (S (clock_reads w))))
                (clock w (S (clock_reads w)));
            Inventory.tc_error := Some (Inventory.Str e) |},
     snd (time_time (snd (time_time (snd (time_time w)))))).
Proof.
  intros H.
  unfold Inventory._execute_tool.
  unfold bind at 1. unfold time_time at 1. cbn [fst snd].
  unfold bind at 1. unfold time_time at 1. cbn [fst snd].
  rewrite H, andb_false_r. reflexivity.
Qed.

(** X16.  When the instance does not hold the non-empty scope a tool
    requires, [_execute_tool] answers with an ERROR call whose error is
    ["Access denied: requires scope '<scope>'"], with duration 0 and no
    result, under the tool's name and with its arguments.  The tool body is
    not run: the answer is the same for every body, and the world has only
    seen the two clock readings. *)
Theorem execute_tool_denied
  (self : Inventory.InventoryTools) (tool_name : string) (func : M value)
  (required_scope : string) (kwargs : list (string * value)) (w : world) :
  required_scope <> "" ->
  Inventory._has_scope self required_scope = false ->
  exists c,
    Inventory._execute_tool self tool_name func (Some required_scope) kwargs w
    = (inr c, snd (time_time (snd (time_time w))))
    /\ Inventory.tc_status c = Inventory.ERROR
    /\ Inventory.tc_error c
       = Some (Inventory.Text
                 [Chars "Access denied: requires scope '";
                  Chars required_scope; Chars "'"])
    /\ Inventory.tc_duration c = 0%Z
    /\ Inventory.tc_result c = VNone
    /\ Inventory.tc_name c = ("inventory." ++ tool_name)%string
    /\ Inventory.tc_arguments c = kwargs
    /\ forall body : M value,
         Inventory._execute_tool self tool_name body (Some required_scope)
           kwargs w
         = (inr c, snd (time_time (snd (time_time w)))).
Proof.
  intros N H. eexists. split.
  - apply execute_tool_shut; assumption.
  - repeat split. intros body. apply execute_tool_shut; assumption.
Qed.

Lemma execute_tool_denied_witness :
  exists c w',
    Inventory.invoke
      (Inventory.InventoryTools__init__ (Some ["inventory:read"]))
      Inventory.update_stock (raise KeyError) [] (Sample.world_of NoAnswer)
    = (inr c, w')
    /\ Inventory.denied_by_gate c = true.
Proof.
  assert (N : "inventory:write" <> "") by discriminate.
  destruct (execute_tool_denied
              (Inventory.InventoryTools__init__ (Some ["inventory:read"]))
              "update_stock" (raise KeyError) "inventory:write" []
              (Sample.world_of NoAnswer) N eq_refl)
    as (c & R & St & E & _).
  exists c. eexists. split; [exact R|].
  unfold Inventory.denied_by_gate. rewrite St, E. reflexivity.
Defined.

(** X18.  A tool method that passes keywords to [_execute_tool], which
    eight of the eleven do, never runs its body: the closure [_execute] has
    no parameter, so calling it with the keywords raises [TypeError], and
    [_execute_tool] reports it.  Whatever the body and the arguments, such a
    method returns an ERROR call with no result, whose error is "Access
    denied" when the instance lacks the tool's scope and the [TypeError]
    otherwise; no request is sent, no singleton changes and no [uuid4] is
    drawn: the world has seen two or three clock readings. *)
Theorem tool_method_never_runs_body
  (self : Inventory.InventoryTools) (t : Inventory.tool) (_execute : M value)
  (argument : string -> value) (w : world) :
  Inventory.keywords t <> [] ->
  exists c w',
    Inventory.tool_method self t _execute argument w = (inr c, w')
    /\ Inventory.tc_status c = Inventory.ERROR
    /\ Inventory.tc_result c = VNone
    /\ Inventory.tc_error c
       = Some (if Inventory._has_scope self (Inventory.required_scope t)
               then Inventory.Str TypeError
               else Inventory.Text
                      [Chars "Access denied: requires scope '";
                       Chars (Inventory.required_scope t); Chars "'"])
    /\ Inventory.tc_name c = ("inventory." ++ Inventory.tool_name t)%string
    /\ Inventory.tc_arguments c
       = map (fun k => (k, argument k)) (Inventory.keywords t)
    /\ (forall body : M value,
          Inventory.tool_method self t body argument w = (inr c, w'))
    /\ sent w' = sent w
    /\ okta_auth w' = okta_auth w
    /\ token_vault w' = token_vault w
    /\ uuid4_draws w' = uuid4_draws w
    /\ clock_reads w'
       = ((if Inventory._has_scope self (Inventory.required_scope t)
           then 3 else 2) + clock_reads w)%nat.
Proof.
  intros K.
  assert (N : Inventory.required_scope t <> "")
    by (destruct t; discriminate).
  assert (C : forall body : M value,
            Inventory.call body
              (map (fun k => (k, argument k)) (Inventory.keywords t))
            = raise TypeError).
  { intros body. destruct (Inventory.keywords t); [contradiction K|];
      reflexivity. }
  unfold Inventory.tool_method, Inventory.invoke.
  destruct (Inventory._has_scope self (Inventory.required_scope t)) eqn:H.
  - eexists. eexists. split.
    + rewrite C. apply execute_tool_reports. exact H.
    + repeat split. intros body. rewrite C.
      apply execute_tool_reports. exact H.
  - eexists. eexists. split.
    + apply execute_tool_shut; assumption.
    + repeat split. intros body. apply execute_tool_shut; assumption.
Qed.

Lemma tool_method_never_runs_body_witness :
  exists c w',
    Inventory.tool_method (Inventory.InventoryTools__init__ None)
      Inventory.update_stock (ret (VStr "updated"))
      (fun k => if String.eqb k "sku" then VStr "TRP-001" else VNum 5)
      (Sample.world_of NoAnswer)
    = (inr c, w')
    /\ Inventory.tc_error c = Some (Inventory.Str TypeError)
    /\ Inventory.tc_arguments c
       = [ ("sku", VStr "TRP-001"); ("quantity_change", VNum 5);
           ("reason", VNum 5) ].
Proof.
  assert (K : Inventory.keywords Inventory.update_stock <> [])
    by discriminate.
  destruct (tool_method_never_runs_body
              (Inventory.InventoryTools__init__ None)
              Inventory.update_stock (ret (VStr "updated"))
              (fun k => if String.eqb k "sku" then VStr "TRP-001" else VNum 5)
              (Sample.world_of NoAnswer) K)
    as (c & w' & R & _ & _ & E & _ & A & _).
  exists c, w'. split; [exact R|]. split; [exact E | exact A].
Defined.

(** *** Stock updates *)

Lemma max0_nonneg (x : Q) : (0 <= Stock.max0 x)%Q.
Proof.
  unfold Stock.max0. destruct (Qltb 0 x) eqn:E.
  - apply Qltb_lt in E. apply Qlt_le_weak. exact E.
  - apply Qle_refl.
Qed.

Lemma write_same (a : nat) (p : Stock.Product) (s : Stock.store) :
  Stock.objects (Stock.write a p s) a = p.
Proof. simpl. rewrite Nat.eqb_refl. reflexivity. Qed.

Lemma write_other (a b : nat) (p : Stock.Product) (s : Stock.store) :
  b <> a -> Stock.objects (Stock.write a p s) b = Stock.objects s b.
Proof.
  intros N. simpl. apply Nat.eqb_neq in N. rewrite N. reflexivity.
Qed.

(** X17.  [update_stock_sync] on a known SKU sets the product's quantity to
    [max(0, quantity + change)], which is never negative, and its status to
    out of stock at 0, low stock below the reorder point and in stock
    otherwise, so never to discontinued; it stamps the product with the
    clock reading and leaves its identity, price and reorder point and every
    other product alone.  The dict it returns reports the old and the new
    quantity and, as [change], the change asked for, also when the quantity
    was clamped at 0. *)
Theorem update_stock_sync_known
  (self : Stock.Tools) (sku : string) (quantity_change : Z)
  (reason : option string) (s : Stock.store) (a : nat) :
  Stock.find sku (Stock._products self) = Some a ->
  let old := Stock.objects s a in
  let new_quantity :=
    Stock.max0 (Stock.quantity old + inject_Z quantity_change) in
  let out := Stock.update_stock_sync self sku quantity_change reason s in
  let new := Stock.objects (snd out) a in
  Stock.quantity new = new_quantity
  /\ (0 <= Stock.quantity new)%Q
  /\ ((Stock.quantity old + inject_Z quantity_change <= 0)%Q ->
      Stock.quantity new = 0%Q)
  /\ Stock.status new
     = (if Qeq_bool new_quantity 0 then Stock.OUT_OF_STOCK
        else if Qltb new_quantity (Stock.reorder_point old)
             then Stock.LOW_STOCK
             else Stock.IN_STOCK)
  /\ Stock.status new <> Stock.DISCONTINUED
  /\ Stock.last_updated new = Stock.utcnow s (Stock.utcnow_reads s)
  /\ (Stock.id new, Stock.sku new, Stock.name new, Stock.price new,
      Stock.reorder_point new)
     = (Stock.id old, Stock.sku old, Stock.name old, Stock.price old,
        Stock.reorder_point old)
  /\ (forall b, b <> a -> Stock.objects (snd out) b = Stock.objects s b)
  /\ get (fst out) "old_quantity" = inr (VNum (Stock.quantity old))
  /\ get (fst out) "new_quantity" = inr (VNum new_quantity)
  /\ get (fst out) "change" = inr (VNum (inject_Z quantity_change)).
Proof.
  intros F old new_quantity out new.
  unfold new, out, Stock.update_stock_sync. rewrite F.
  cbn [Stock.datetime_utcnow fst snd]. rewrite write_same.
  fold old. fold new_quantity.
  split; [reflexivity|]. split; [apply max0_nonneg|]. split.
  { intros L. cbn [Stock.restock Stock.quantity].
    unfold new_quantity, Stock.max0.
    destruct (Qltb 0 (Stock.quantity old + inject_Z quantity_change)) eqn:E;
      [|reflexivity].
    apply Qltb_lt in E. exfalso. exact (Qlt_not_le _ _ E L). }
  split; [reflexivity|]. split.
  { cbn [Stock.restock Stock.status]. unfold Stock.restocked_status.
    destruct (Qeq_bool new_quantity 0);
      [|destruct (Qltb new_quantity (Stock.reorder_point old))];
      discriminate. }
  split; [reflexivity|]. split; [reflexivity|]. split.
  { intros b N. apply Nat.eqb_neq in N. simpl. rewrite N. reflexivity. }
  repeat split.
Qed.

Lemma update_stock_sync_known_witness :
  Stock.quantity
    (Stock.objects
       (snd (Stock.update_stock_sync Sample.tools "TRP-001" (-50)
               (Some "sold") Sample.warehouse)) 0%nat) = 0%Q
  /\ Stock.status
       (Stock.objects
          (snd (Stock.update_stock_sync Sample.tools "TRP-001" (-50)
                  (Some "sold") Sample.warehouse)) 0%nat)
     = Stock.OUT_OF_STOCK
  /\ get (fst (Stock.update_stock_sync Sample.tools "TRP-001" (-50)
                 (Some "sold") Sample.warehouse)) "change"
     = inr (VNum (-50)).
Proof.
  destruct (update_stock_sync_known Sample.tools "TRP-001" (-50)
              (Some "sold") Sample.warehouse 0%nat eq_refl)
    as (_ & _ & Z0 & St & _ & _ & _ & _ & _ & _ & C).
  split; [apply Z0; discriminate|]. split; [exact St|exact C].
Defined.

(** X20.  The instances of [InventoryTools] share the product objects: a
    stock update made through one instance is what [get_product] returns
    through any other instance built from [DEMO_PRODUCTS], whatever its
    alerts. *)
Theorem stock_update_is_shared
  (DEMO_PRODUCTS : list (string * nat))
  (alerts1 alerts2 : list Stock.InventoryAlert)
  (sku : string) (quantity_change : Z) (reason : option string)
  (s : Stock.store) (before : Stock.Product) :
  let one := Stock.Tools__init__ DEMO_PRODUCTS alerts1 in
  let other := Stock.Tools__init__ DEMO_PRODUCTS alerts2 in
  Stock.get_product other sku s = Some before ->
  exists after,
    Stock.get_product other sku
      (snd (Stock.update_stock_sync one sku quantity_change reason s))
    = Some after
    /\ Stock.quantity after
       = Stock.max0 (Stock.quantity before + inject_Z quantity_change)
    /\ Stock.get_product one sku
         (snd (Stock.update_stock_sync one sku quantity_change reason s))
       = Some after.
Proof.
  intros one other G.
  unfold Stock.get_product in *. unfold one, other in *. simpl in *.
  destruct (Stock.find sku DEMO_PRODUCTS) as [a|] eqn:F; [|discriminate].
  injection G as <-.
  unfold Stock.update_stock_sync. simpl. rewrite F.
  cbn [Stock.datetime_utcnow fst snd].
  eexists. split; [reflexivity|]. rewrite write_same.
  split; reflexivity.
Qed.

Lemma stock_update_is_shared_witness :
  exists after,
    Stock.get_product (Stock.Tools__init__ Sample.DEMO_PRODUCTS [])
      "TRP-001"
      (snd (Stock.update_stock_sync Sample.tools "TRP-001" (-5) None
              Sample.warehouse))
    = Some after
    /\ Stock.quantity after = 40%Q.
Proof.
  destruct (stock_update_is_shared Sample.DEMO_PRODUCTS Sample.DEMO_ALERTS
              [] "TRP-001" (-5) None Sample.warehouse Sample.trail_runner
              eq_refl) as (after & G & Q & _).
  exists after. split; [exact G|]. rewrite Q. reflexivity.
Defined.

(* ================================================================== *)
(** ** Properties of [get_user_access] *)

(** A [try] whose handler catches every exception and yields a value never
    raises. *)
Lemma try_except_default {A : Type} (body : M A) (default : A) (w : world) :
  exists a w',
    try_except body (fun _ => Some (ret default)) w = (inr a, w')
    /\ (a = default \/ exists w0, body w = (inr a, w0)).
Proof.
  unfold try_except. destruct (body w) as [[e|a] w1].
  - exists default, w1. split; [reflexivity|]. left. reflexivity.
  - exists a, w1. split; [reflexivity|]. right. eauto.
Qed.

(** X25.  [get_user_access] never raises, whatever the vault and the
    authorization servers answer or fail to answer: it returns a record in
    which Salesforce is either not connected, with no scopes, or connected
    with the four sales and customer scopes and the configured instance
    URL. *)
Theorem get_user_access_never_raises
  (settings : Settings) (server : InventoryServer) (lib : Libraries)
  (str : value -> string) (sub : string) (groups : list string)
  (id_token : string) (w : world) :
  exists access w',
    get_user_access settings server lib str sub groups id_token w
    = (inr access, w')
    /\ (salesforce access = not_connected
        \/ salesforce access
           = {| connected := true;
                salesforce_scopes :=
                  ["sales:read"; "sales:write"; "customer:read";
                   "customer:lookup"];
                instance_url := Some (salesforce_instance_url settings) |}).
Proof.
  unfold get_user_access.
  assert (S : exists a w1,
             salesforce_access settings str sub w = (inr a, w1)
             /\ (a = not_connected
                 \/ a = {| connected := true;
                           salesforce_scopes :=
                             ["sales:read"; "sales:write"; "customer:read";
                              "customer:lookup"];
                           instance_url :=
                             Some (salesforce_instance_url settings) |})).
  { unfold salesforce_access.
    match goal with |- context [try_except ?b _ w] =>
      destruct (try_except_default b not_connected w)
        as (a & w1 & R & [->|(w0 & B)]) end.
    - exists not_connected, w1. split; [exact R|]. left. reflexivity.
    - exists a, w1. split; [exact R|].
      unfold bind in B.
      destruct (get_user_id_from_okta_sub settings sub w) as [[e|u] w2];
        [discriminate|].
      destruct (truthy u).
      + destruct (check_salesforce_connection settings (format str u) w2)
          as [[e|c] w3]; [discriminate|].
        destruct (truthy c); injection B as <- _; auto.
      + injection B as <- _. auto. }
  destruct S as (a & w1 & R & V).
  rewrite (bind_run _ _ _ _ _ R).
  assert (I : exists i w2,
             inventory_access settings server lib groups id_token w1
             = (inr i, w2)).
  { unfold inventory_access.
    destruct (nonempty (inventory_auth_server_id server)).
    - match goal with |- context [try_except ?b _ w1] =>
        destruct (try_except_default b not_authorized w1)
          as (i & w2 & Ri & _) end.
      eauto.
    - destruct (existsb _ _); eexists; eexists; reflexivity. }
  destruct I as (i & w2 & Ri).
  rewrite (bind_run _ _ _ _ _ Ri).
  eexists. eexists. split; [reflexivity|]. exact V.
Qed.

(** X26.  With an inventory authorization server configured the groups play
    no part.  When one of the two exchanges raises, the user is not
    authorized.  When both return and the result is a success, the scopes
    are the granted scope string split at its spaces, not the scopes asked
    for; and a success whose [scope] is not a string (the token answer had
    no [scope] field) leaves the user not authorized. *)
Theorem inventory_access_with_server
  (settings : Settings) (server : InventoryServer) (lib : Libraries)
  (groups : list string) (id_token : string) (w : world) :
  inventory_auth_server_id server <> "" ->
  match exchange_for_id_jag settings lib id_token w with
  | (inl e, w1) =>
      inventory_access settings server lib groups id_token w
      = (inr not_authorized, w1)
  | (inr id_jag, w1) =>
      match exchange_id_jag_for_token settings lib id_jag
              (inventory_auth_server_id server) (inventory_scopes server)
              w1 with
      | (inl e, w2) =>
          inventory_access settings server lib groups id_token w
          = (inr not_authorized, w2)
      | (inr (VDict d), w2) =>
          inventory_access settings server lib groups id_token w
          = (inr (if truthy (item "success" d)
                  then match lookup "scope" d with
                       | Some (VStr s) =>
                           {| authorized := true;
                              scopes := split_space s |}
                       | Some _ => not_authorized
                       | None =>
                           {| authorized := true; scopes := [""] |}
                       end
                  else not_authorized), w2)
      | (inr _, w2) =>
          inventory_access settings server lib groups id_token w
          = (inr not_authorized, w2)
      end
  end.
Proof.
  intros N. unfold inventory_access.
  replace (nonempty (inventory_auth_server_id server)) with true
    by (symmetry; unfold nonempty; apply negb_true_iff, String.eqb_neq;
        exact N).
  unfold try_except.
  destruct (exchange_for_id_jag settings lib id_token w)
    as [[e|id_jag] w1] eqn:J.
  - rewrite (bind_fail _ _ _ _ _ J). reflexivity.
  - rewrite (bind_run _ _ _ _ _ J).
    destruct (exchange_id_jag_for_token settings lib id_jag
                (inventory_auth_server_id server) (inventory_scopes server)
                w1) as [[e|result] w2] eqn:T.
    + rewrite (bind_fail _ _ _ _ _ T). reflexivity.
    + rewrite (bind_run _ _ _ _ _ T).
      destruct result as [| | | | |d]; try reflexivity.
      rewrite get_dict, bind_lift.
      destruct (truthy (item "success" d)); [|reflexivity].
      rewrite get_or_dict, bind_lift.
      destruct (lookup "scope" d) as [[| | |s| |]|]; reflexivity.
Qed.

Lemma inventory_access_with_server_witness :
  fst (inventory_access Sample.settings Sample.inventory_server Sample.lib
         ["Admins"] "id-token" (Sample.scripted Sample.xaa_without_scope))
  = inr not_authorized
  /\ fst (inventory_access Sample.settings Sample.inventory_server
            Sample.lib [] "id-token"
            (Sample.scripted Sample.xaa_read_only))
     = inr {| authorized := true; scopes := ["inventory:read"] |}.
Proof.
  assert (N : inventory_auth_server_id Sample.inventory_server <> "")
    by discriminate.
  split.
  - exact (f_equal fst
      (inventory_access_with_server Sample.settings
         Sample.inventory_server Sample.lib ["Admins"] "id-token"
         (Sample.scripted Sample.xaa_without_scope) N)).
  - exact (f_equal fst
      (inventory_access_with_server Sample.settings
         Sample.inventory_server Sample.lib [] "id-token"
         (Sample.scripted Sample.xaa_read_only) N)).
Defined.

(** X27.  With no inventory authorization server configured, the inventory
    part of [get_user_access] sends nothing and decides on the groups alone:
    a member of ProGear-Sales, ProGear-Warehouse or Admins is authorized
    with the three inventory scopes, anyone else is not authorized. *)
Theorem inventory_access_by_groups
  (settings : Settings) (server : InventoryServer) (lib : Libraries)
  (groups : list string) (id_token : string) (w : world) :
  inventory_auth_server_id server = "" ->
  ((In "ProGear-Sales" groups \/ In "ProGear-Warehouse" groups
    \/ In "Admins" groups) ->
   inventory_access settings server lib groups id_token w
   = (inr {| authorized := true;
             scopes := ["inventory:read"; "inventory:write";
                        "inventory:alert"] |}, w))
  /\
  (~ In "ProGear-Sales" groups -> ~ In "ProGear-Warehouse" groups ->
   ~ In "Admins" groups ->
   inventory_access settings server lib groups id_token w
   = (inr not_authorized, w)).
Proof.
  intros E. unfold inventory_access. rewrite E. cbn [nonempty String.eqb negb].
  assert (M : forall g, existsb (String.eqb g) groups = true <-> In g groups).
  { intros g. rewrite existsb_exists. split.
    - intros (x & I & X). apply String.eqb_eq in X. subst. exact I.
    - intros I. exists g. split; [exact I | apply String.eqb_refl]. }
  split.
  - intros H.
    replace (existsb _ _) with true; [reflexivity|].
    symmetry. cbn [existsb]. apply orb_true_iff.
    destruct H as [H|[H|H]].
    + left. apply M. exact H.
    + right. apply orb_true_iff. left. apply M. exact H.
    + right. apply orb_true_iff. right. apply orb_true_iff. left.
      apply M. exact H.
  - intros A B C.
    replace (existsb _ _) with false; [reflexivity|].
    symmetry. cbn [existsb].
    assert (F : forall g, ~ In g groups ->
                          existsb (String.eqb g) groups = false).
    { intros g X. destruct (existsb (String.eqb g) groups) eqn:Y;
        [|reflexivity]. apply M in Y. contradiction. }
    rewrite (F _ A), (F _ B), (F _ C). reflexivity.
Qed.

Lemma inventory_access_by_groups_witness :
  inventory_access Sample.settings Sample.no_inventory_server Sample.lib
    ["Everyone"; "ProGear-Warehouse"] "id-token" (Sample.world_of NoAnswer)
  = (inr {| authorized := true;
            scopes := ["inventory:read"; "inventory:write";
                       "inventory:alert"] |}, Sample.world_of NoAnswer).
Proof.
  apply (proj1 (inventory_access_by_groups Sample.settings
                  Sample.no_inventory_server Sample.lib
                  ["Everyone"; "ProGear-Warehouse"] "id-token"
                  (Sample.world_of NoAnswer) eq_refl)).
  right. left. simpl. auto.
Defined.

(* ================================================================== *)
(** ** How the exchanges compose *)

Lemma exchange_for_id_jag_draws
  (settings : Settings) (lib : Libraries) (id_token : string) (w : world) :
  wlp_private_key settings <> "" ->
  uuid4 (snd (exchange_for_id_jag settings lib id_token w)) = uuid4 w
  /\ uuid4_draws (snd (exchange_for_id_jag settings lib id_token w))
     = S (uuid4_draws w).
Proof.
  intros K.
  assert (N : nonempty (wlp_private_key settings) = true)
    by (unfold nonempty; apply negb_true_iff, String.eqb_neq; exact K).
  destruct (generate_wlp_assertion_run settings lib None w N) as (_ & U & D).
  destruct (generate_wlp_assertion settings lib None w) as [[e|a] w1] eqn:G.
  - unfold exchange_for_id_jag. rewrite (bind_fail _ _ _ _ _ G). auto.
  - rewrite (exchange_for_id_jag_world _ _ _ _ _ _ G).
    pose proof (send_frame (id_jag_request settings id_token a) w1)
      as (_ & _ & _ & _ & _ & _ & U1 & D1).
    simpl in U, D. rewrite U1, D1. auto.
Qed.

Lemma exchange_id_jag_for_token_draws
  (settings : Settings) (lib : Libraries)
  (id_jag : value) (auth_server_id : string) (scopes : list string)
  (w : world) :
  wlp_private_key settings <> "" ->
  uuid4 (snd (exchange_id_jag_for_token settings lib id_jag auth_server_id
                scopes w)) = uuid4 w
  /\ uuid4_draws (snd (exchange_id_jag_for_token settings lib id_jag
                         auth_server_id scopes w))
     = S (uuid4_draws w).
Proof.
  intros K.
  assert (N : nonempty (wlp_private_key settings) = true)
    by (unfold nonempty; apply negb_true_iff, String.eqb_neq; exact K).
  destruct (generate_wlp_assertion_run settings lib
              (Some (custom_token_endpoint settings auth_server_id)) w N)
    as (_ & U & D).
  destruct (generate_wlp_assertion settings lib
              (Some (custom_token_endpoint settings auth_server_id)) w)
    as [[e|a] w1] eqn:G.
  - unfold exchange_id_jag_for_token. rewrite (bind_fail _ _ _ _ _ G). auto.
  - rewrite (exchange_id_jag_for_token_world _ _ _ _ _ _ _ _ G).
    pose proof (send_frame (scoped_token_request settings id_jag
                              auth_server_id scopes a) w1)
      as (_ & _ & _ & _ & _ & _ & U1 & D1).
    simpl in U, D. rewrite U1, D1. auto.
Qed.

(** X28.  No client assertion is used twice.  With a workload key
    configured, each of the two exchanges consumes one [uuid4] draw, whether
    it succeeds or not, so the claim set signed by
    [exchange_id_jag_for_token] after [exchange_for_id_jag] takes the next
    draw: as [uuid4] never repeats a draw, its [jti] differs from the first
    one's. *)
Theorem exchanges_never_reuse_an_assertion
  (settings : Settings) (lib : Libraries) (w : world)
  (id_token : string)
  (id_jag : value) (auth_server_id : string) (scopes : list string) :
  wlp_private_key settings <> "" ->
  let w1 := snd (exchange_for_id_jag settings lib id_token w) in
  let w2 :=
    snd (exchange_id_jag_for_token settings lib id_jag auth_server_id
           scopes w1) in
  uuid4_draws w1 = S (uuid4_draws w)
  /\ uuid4_draws w2 = S (S (uuid4_draws w))
  /\ get (claims_in settings w1
            (Some (custom_token_endpoint settings auth_server_id))) "jti"
     = inr (VStr (uuid4 w (S (uuid4_draws w))))
  /\ ((forall i j, uuid4 w i = uuid4 w j -> i = j) ->
      get (claims_in settings w1
             (Some (custom_token_endpoint settings auth_server_id))) "jti"
      <> get (claims_in settings w None) "jti").
Proof.
  intros K w1 w2.
  destruct (exchange_for_id_jag_draws settings lib id_token w K) as (U1 & D1).
  destruct (exchange_id_jag_for_token_draws settings lib id_jag
              auth_server_id scopes w1 K) as (U2 & D2).
  fold w1 in U1, D1. fold w2 in U2, D2.
  split; [exact D1|]. split; [rewrite D2, D1; reflexivity|].
  assert (J : get (claims_in settings w1
                     (Some (custom_token_endpoint settings auth_server_id)))
                "jti"
              = inr (VStr (uuid4 w (S (uuid4_draws w))))).
  { unfold claims_in, wlp_payload. simpl. rewrite U1, D1. reflexivity. }
  split; [exact J|].
  intros F. rewrite J. unfold claims_in, wlp_payload. simpl.
  intros E. injection E as E. apply F in E. lia.
Qed.

Lemma exchanges_never_reuse_an_assertion_witness :
  get (claims_in Sample.settings
         (snd (exchange_for_id_jag Sample.settings Sample.lib "id-token"
                 (Sample.scripted Sample.xaa_read_only)))
         (Some (custom_token_endpoint Sample.settings "inv-as-1"))) "jti"
  <> get (claims_in Sample.settings (Sample.scripted Sample.xaa_read_only)
            None) "jti".
Proof.
  assert (K : wlp_private_key Sample.settings <> "") by discriminate.
  exact (proj2 (proj2 (proj2
    (exchanges_never_reuse_an_assertion Sample.settings Sample.lib
       (Sample.scripted Sample.xaa_read_only) "id-token"
       (VStr "id-jag") "inv-as-1" ["inventory:read"] K)))
    strokes_inj).
Defined.

(** X29.  A call of [get_management_token] that finds an expired token and
    is answered 200 with a new [access_token] replaces both the token and
    the expiry, the new expiry being the clock reading taken after the
    answer (the second reading of the call) plus [expires_in] less 60. *)
Theorem get_management_token_refresh
  (settings : Settings) (w : world) (r : Response)
  (d : list (string * value)) (token : value) (expires_in : Q) :
  truthy (_management_token (token_vault w)) = true ->
  (_token_expiry (token_vault w) <= clock w (clock_reads w))%Q ->
  upstream w (calls w) = Answer r ->
  status_code r = 200%Z ->
  content r = Some (VDict d) ->
  lookup "access_token" d = Some token ->
  number (match lookup "expires_in" d with
          | Some x => x
          | None => VNum 86400
          end) = inr expires_in ->
  exists w',
    get_management_token settings w = (inr token, w')
    /\ token_vault w'
       = {| _management_token := token;
            _token_expiry :=
              clock w (S (clock_reads w)) + expires_in - 60 |}
    /\ sent w' = management_token_request settings :: sent w.
Proof.
  intros T L U S C A E. apply Qltb_ge in L. apply Z.eqb_eq in S.
  unfold get_management_token. unfold bind at 1. unfold self_vault at 1.
  rewrite T. unfold bind at 1. unfold bind at 1. unfold time_time at 1.
  unfold ret at 1. cbn [fst snd]. rewrite L.
  fold (management_token_request settings).
  unfold bind at 1. unfold send at 1. unfold calls. cbn [sent upstream].
  unfold calls in U. rewrite U, S. cbn [negb].
  unfold json. rewrite C, bind_ret. unfold subscript. rewrite A, bind_lift.
  unfold get_or.
  destruct (lookup "expires_in" d) as [x|].
  - unfold bind, set_management_token, time_time, lift, set_token_expiry,
      self_vault, ret. cbn [fst snd]. rewrite E.
    eexists. split; [reflexivity|]. split; reflexivity.
  - simpl in E. injection E as <-.
    unfold bind, set_management_token, time_time, lift, set_token_expiry,
      self_vault, ret. cbn [fst snd].
    eexists. split; [reflexivity|]. split; reflexivity.
Qed.

Lemma get_management_token_refresh_witness :
  exists w',
    get_management_token Sample.settings Sample.expired_vault
    = (inr (VStr "mgmt-1"), w')
    /\ _token_expiry (token_vault w') = (100025 # 100) + 86400 - 60.
Proof.
  destruct (get_management_token_refresh Sample.settings
              Sample.expired_vault
              {| status_code := 200;
                 content := Some (VDict [ ("access_token", VStr "mgmt-1");
                                          ("expires_in", VNum 86400) ]) |}
              [ ("access_token", VStr "mgmt-1"); ("expires_in", VNum 86400) ]
              (VStr "mgmt-1") 86400 eq_refl)
    as (w' & R & V & _); try reflexivity.
  - discriminate.
  - exists w'. split; [exact R|]. rewrite V. reflexivity.
Defined.

Lemma split_space_word (s : string) :
  Urllib.count " " s = 0%nat -> split_space s = [s].
Proof.
  induction s as [|c s IH]; [reflexivity|].
  cbn [Urllib.count split_space].
  destruct (Ascii.eqb_spec " " c) as [<-|N]; [discriminate|].
  intros H. rewrite (IH H).
  destruct (Ascii.eqb_spec c " ") as [->|_]; [contradiction|reflexivity].
Qed.

Lemma split_space_cons (a b : string) :
  Urllib.count " " a = 0%nat ->
  split_space (a ++ String " " b) = a :: split_space b.
Proof.
  induction a as [|c a IH]; [reflexivity|].
  cbn [Urllib.count split_space append].
  destruct (Ascii.eqb_spec " " c) as [<-|N]; [discriminate|].
  intros H. rewrite (IH H).
  destruct (Ascii.eqb_spec c " ") as [->|_]; [contradiction|reflexivity].
Qed.

(** X30.  The scope string [exchange_id_jag_for_token] sends is the scopes
    joined by spaces, and [get_user_access] splits the granted scope string
    at spaces: for a non-empty list of scopes none of which holds a space,
    splitting what was sent gives back the list, so a server that grants
    what was asked yields exactly the configured scopes.  For an empty list
    the string sent is empty and splitting it gives one empty scope. *)
Theorem scope_join_split
  (settings : Settings) (id_jag : value) (auth_server_id : string)
  (scopes : list string) (client_assertion : string) :
  Forall (fun s => Urllib.count " " s = 0%nat) scopes ->
  match body (scoped_token_request settings id_jag auth_server_id scopes
                client_assertion) with
  | Data fields =>
      exists sent_scope,
        lookup "scope" fields = Some (VStr sent_scope)
        /\ split (VStr sent_scope)
           = inr (match scopes with [] => [""] | _ :: _ => scopes end)
  | _ => False
  end.
Proof.
  intros H. cbn [body scoped_token_request]. eexists.
  split; [reflexivity|]. unfold split. f_equal.
  induction H as [|s rest S _ IH]; [reflexivity|].
  destruct rest as [|s' rest].
  - cbn [String.concat]. apply split_space_word. exact S.
  - change (String.concat " " (s :: s' :: rest))
      with (s ++ String " " (String.concat " " (s' :: rest)))%string.
    rewrite (split_space_cons _ _ S), IH. reflexivity.
Qed.

Lemma scope_join_split_witness :
  split (VStr (String.concat " "
                 ["inventory:read"; "inventory:write"; "inventory:alert"]))
  = inr ["inventory:read"; "inventory:write"; "inventory:alert"].
Proof.
  destruct (scope_join_split Sample.settings VNone "inv-as-1"
              ["inventory:read"; "inventory:write"; "inventory:alert"]
              "jwt:")
    as (x & L & S).
  - repeat constructor.
  - injection L as <-. exact S.
Defined.
